(** * Account rotation and bulk-action scheduling (teleman)

    A shallow embedding of
      server/core/account_rotator.py    (class AccountRotator)
      server/scheduling/bulk_actions.py (class BulkActionScheduler)
    and the properties of the two components.

    Conventions of the embedding.
    - Python [int] is [Z]; Python [float] is [Q], with exact arithmetic in
      place of binary64 rounding.  The concrete runs below use values on
      which the binary64 arithmetic of the source yields the same integers.
    - [time.time()] and [datetime.now(tz)] are inputs: the caller passes the
      clock reading.  A [datetime] is a number of seconds of local wall-clock
      time, so [.hour] is [(t / 3600) mod 24] and [timedelta(hours=1)] is
      [3600].
    - An exception is a value of [Py.exn]; a method of an object is a
      computation in the state-and-exception monad [Py.M] over the object's
      attributes.  State written before an exception is raised stays written.
    - A reference to a dict held in a list ([self.accounts],
      [self.scheduled_tasks]) is the position of the dict in that list.
    - [asyncio.sleep] changes no data and is erased. *)

From Stdlib Require Import ZArith QArith Qround Qminmax List String Bool Lia Lqa.
From Stdlib Require Import Sorted.
Import ListNotations.

Set Implicit Arguments.

(** ** Python values, exceptions and the method monad *)

Module Py.

Inductive exn : Type :=
| ZeroDivisionError
| IndexError
| UnknownTimeZoneError (zone : string)
| Exception (msg : string).

Inductive res (A : Type) : Type :=
| Ok (a : A)
| Raise (e : exn).

Arguments Ok {A} a.
Arguments Raise {A} e.

Definition M (S A : Type) : Type := S -> res A * S.

Definition ret {S A} (a : A) : M S A := fun s => (Ok a, s).

Definition bind {S A B} (c : M S A) (k : A -> M S B) : M S B :=
  fun s => match c s with
           | (Ok a, s') => k a s'
           | (Raise e, s') => (Raise e, s')
           end.

Definition get {S} : M S S := fun s => (Ok s, s).

Definition put {S} (s : S) : M S unit := fun _ => (Ok tt, s).

Definition modify {S} (f : S -> S) : M S unit := fun s => (Ok tt, f s).

Definition raise {S A} (e : exn) : M S A := fun s => (Raise e, s).

Definition lift {S A} (r : res A) : M S A := fun s => (r, s).

(** [try: c  except Exception as e: h e] *)
Definition try_except {S A} (c : M S A) (h : exn -> M S A) : M S A :=
  fun s => match c s with
           | (Ok a, s') => (Ok a, s')
           | (Raise e, s') => h e s'
           end.

(** [for x in xs: body x] *)
Fixpoint for_each {S A} (xs : list A) (body : A -> M S unit) : M S unit :=
  match xs with
  | [] => ret tt
  | x :: xs' => bind (body x) (fun _ => for_each xs' body)
  end.

Declare Scope py_scope.
Delimit Scope py_scope with py.

Notation "x <- c ;; k" := (bind c (fun x => k))
  (at level 61, c at next level, right associativity) : py_scope.
Notation "c ;;; k" := (bind c (fun _ => k))
  (at level 61, right associativity) : py_scope.

(** [a // b] and [a / b] on ints. *)
Definition floordiv (a b : Z) : res Z :=
  if (b =? 0)%Z then Raise ZeroDivisionError else Ok (a / b)%Z.

Definition truediv (a b : Z) : res Q :=
  if (b =? 0)%Z then Raise ZeroDivisionError else Ok (inject_Z a / inject_Z b)%Q.

Definition Qltb (x y : Q) : bool :=
  match (x ?= y)%Q with Lt => true | _ => false end.

(** [int(x)] on a float: truncation towards zero. *)
Definition int (x : Q) : Z :=
  if Qltb x 0 then Qceiling x else Qfloor x.

(** [range(n)] *)
Definition range (n : Z) : list Z := map Z.of_nat (seq 0 (Z.to_nat n)).

(** [enumerate(xs)], the references to the elements of a list. *)
Fixpoint enumerate_from {A} (k : nat) (xs : list A) : list (nat * A) :=
  match xs with
  | [] => []
  | x :: xs' => (k, x) :: enumerate_from (S k) xs'
  end.

Definition enumerate {A} (xs : list A) : list (nat * A) := enumerate_from 0 xs.

(** [xs.sort(key=key, reverse=True)]: a stable sort, greatest key first;
    elements with equal keys keep their order. *)
Section Sort.
Context {A : Type} (key : A -> Q).

Fixpoint insert_desc (x : A) (sorted : list A) : list A :=
  match sorted with
  | [] => [x]
  | y :: rest => if Qltb (key x) (key y) then y :: insert_desc x rest
                 else x :: y :: rest
  end.

Fixpoint sort_desc (xs : list A) : list A :=
  match xs with
  | [] => []
  | x :: xs' => insert_desc x (sort_desc xs')
  end.

End Sort.

End Py.

(** ** server/core/account_rotator.py *)

Module AccountRotator.
Import Py.
Local Open Scope py_scope.
Local Open Scope string_scope.

Record account : Type := mk_account {
  phone : string;
  session_path : string;
  proxy : option string;
  status : string;
  success_rate : Q;
  age : Z;
  activity : Q;
  last_used : option Q;
  total_actions : Z;
  successful_actions : Z;
  banned_count : Z;
  rate_limit_count : Z
}.

(** the attributes of an [AccountRotator] object *)
Record rotator : Type := mk_rotator { accounts : list account }.

Definition acc_ref : Type := nat.

Definition set_status (a : account) (v : string) : account :=
  mk_account (phone a) (session_path a) (proxy a) v (success_rate a) (age a)
    (activity a) (last_used a) (total_actions a) (successful_actions a)
    (banned_count a) (rate_limit_count a).

Definition set_success_rate (a : account) (v : Q) : account :=
  mk_account (phone a) (session_path a) (proxy a) (status a) v (age a)
    (activity a) (last_used a) (total_actions a) (successful_actions a)
    (banned_count a) (rate_limit_count a).

Definition set_last_used (a : account) (v : option Q) : account :=
  mk_account (phone a) (session_path a) (proxy a) (status a) (success_rate a) (age a)
    (activity a) v (total_actions a) (successful_actions a)
    (banned_count a) (rate_limit_count a).

Definition set_total_actions (a : account) (v : Z) : account :=
  mk_account (phone a) (session_path a) (proxy a) (status a) (success_rate a) (age a)
    (activity a) (last_used a) v (successful_actions a)
    (banned_count a) (rate_limit_count a).

Definition set_successful_actions (a : account) (v : Z) : account :=
  mk_account (phone a) (session_path a) (proxy a) (status a) (success_rate a) (age a)
    (activity a) (last_used a) (total_actions a) v
    (banned_count a) (rate_limit_count a).

Definition set_banned_count (a : account) (v : Z) : account :=
  mk_account (phone a) (session_path a) (proxy a) (status a) (success_rate a) (age a)
    (activity a) (last_used a) (total_actions a) (successful_actions a)
    v (rate_limit_count a).

Definition set_rate_limit_count (a : account) (v : Z) : account :=
  mk_account (phone a) (session_path a) (proxy a) (status a) (success_rate a) (age a)
    (activity a) (last_used a) (total_actions a) (successful_actions a)
    (banned_count a) v.

Definition add_account (phone session_path : string) (proxy : option string)
  : M rotator unit :=
  let account := mk_account phone session_path proxy "LIVE" 1 30 0.8 None 0 0 0 0 in
  modify (fun self => mk_rotator (accounts self ++ [account])).

(** [not account['last_used']]: true on [None] and on the float [0.0]. *)
Definition not_last_used (a : account) : bool :=
  match last_used a with
  | None => true
  | Some t => Qeq_bool t 0
  end.

Definition _get_cooldown_penalty (now : Q) (account : account) : Q :=
  if not_last_used account then 1
  else
    match last_used account with
    | None => 1
    | Some t =>
      let time_since_use := (now - t)%Q in
      if Qltb time_since_use 3600 then 0.5
      else if Qltb time_since_use 1800 then 0.3
      else 1
    end.

Definition _calculate_account_score (now : Q) (account : account) : Q :=
  let success_rate := success_rate account in
  let age_score := Qmin (inject_Z (age account) / 365) 1 in
  let activity_score := activity account in
  let cooldown_penalty := _get_cooldown_penalty now account in
  let rate_limit_penalty := Qmax 0 (1 - inject_Z (rate_limit_count account) * 0.1) in
  let ban_penalty := Qmax 0 (1 - inject_Z (banned_count account) * 0.2) in
  ((success_rate * 0.7 + age_score * 0.2 + activity_score * 0.1)
   * cooldown_penalty * rate_limit_penalty * ban_penalty)%Q.

Definition is_live (a : account) : bool := status a =? "LIVE".

Definition live_accounts (self : rotator) : list (acc_ref * account) :=
  filter (fun p => is_live (snd p)) (enumerate (accounts self)).

(** Returns a reference to the chosen dict of [self.accounts]. *)
Definition get_best_account (now : Q) : M rotator (option acc_ref) :=
  self <- get ;;
  let live_accounts := live_accounts self in
  match live_accounts with
  | [] => ret None
  | _ :: _ =>
    let scored_accounts :=
      map (fun acc => (acc, _calculate_account_score now (snd acc))) live_accounts in
    let scored_accounts := sort_desc snd scored_accounts in
    match scored_accounts with
    | [] => raise IndexError
    | (best_account, _) :: _ => ret (Some (fst best_account))
    end
  end.

Fixpoint mark_used_loop (phone_ : string) (success : bool) (now : Q)
  (accs : list account) : res unit * list account :=
  match accs with
  | [] => (Ok tt, [])
  | account :: rest =>
    if phone account =? phone_ then
      let account := set_last_used account (Some now) in
      let account := set_total_actions account (total_actions account + 1) in
      let account :=
        if success
        then set_successful_actions account (successful_actions account + 1)
        else account in
      match truediv (successful_actions account) (total_actions account) with
      | Ok r => (Ok tt, set_success_rate account r :: rest)
      | Raise e => (Raise e, account :: rest)
      end
    else
      let (r, rest') := mark_used_loop phone_ success now rest in
      (r, account :: rest')
  end.

Definition mark_account_used (phone_ : string) (success : bool) (now : Q)
  : M rotator unit :=
  fun self =>
    let (r, accs) := mark_used_loop phone_ success now (accounts self) in
    (r, mk_rotator accs).

Fixpoint mark_banned_loop (phone_ : string) (accs : list account) : list account :=
  match accs with
  | [] => []
  | account :: rest =>
    if phone account =? phone_ then
      let account := set_status account "BANNED" in
      set_banned_count account (banned_count account + 1) :: rest
    else account :: mark_banned_loop phone_ rest
  end.

Definition mark_account_banned (phone_ : string) : M rotator unit :=
  modify (fun self => mk_rotator (mark_banned_loop phone_ (accounts self))).

Fixpoint mark_rate_limited_loop (phone_ : string) (accs : list account) : list account :=
  match accs with
  | [] => []
  | account :: rest =>
    if phone account =? phone_ then
      set_rate_limit_count account (rate_limit_count account + 1) :: rest
    else account :: mark_rate_limited_loop phone_ rest
  end.

Definition mark_account_rate_limited (phone_ : string) : M rotator unit :=
  modify (fun self => mk_rotator (mark_rate_limited_loop phone_ (accounts self))).

Record account_stats : Type := mk_stats {
  total_accounts : Z;
  live_accounts_count : Z;
  banned_accounts : Z;
  average_success_rate : Q
}.

Definition get_account_stats : M rotator account_stats :=
  self <- get ;;
  let total := Z.of_nat (List.length (accounts self)) in
  let live := Z.of_nat (List.length (filter is_live (accounts self))) in
  let banned :=
    Z.of_nat (List.length (filter (fun acc => status acc =? "BANNED") (accounts self))) in
  let avg_success_rate :=
    if (total >? 0)%Z
    then (fold_left Qplus (map success_rate (accounts self)) 0 / inject_Z total)%Q
    else 0%Q in
  ret (mk_stats total live banned avg_success_rate).

Definition get_accounts_by_status (status_ : string) : M rotator (list acc_ref) :=
  self <- get ;;
  ret (map fst (filter (fun p => status (snd p) =? status_) (enumerate (accounts self)))).

End AccountRotator.

(** ** server/scheduling/bulk_actions.py *)

Module BulkActionScheduler.
Import Py.
Local Open Scope py_scope.
Local Open Scope string_scope.
Local Open Scope Z_scope.

Definition datetime : Type := Z.

Definition hour (t : datetime) : Z := (t / 3600) mod 24.

Definition timedelta_hours (h : Z) : Z := h * 3600.

Definition timedelta_minutes (m : Z) : Z := m * 60.

Record time_slot : Type := mk_time_slot {
  slot_start_time : datetime;
  duration_hours : Q;
  target_actions : Z;
  is_peak_time : bool
}.

Record account_distribution : Type := mk_account_distribution {
  account_index : Z;
  users_count : Z;
  start_time : datetime;
  hours_needed : Q;
  actions_per_hour : Z;
  time_slots : list time_slot
}.

Record batch_distribution : Type := mk_batch_distribution {
  batch_index : Z;
  batch_sources : list string;
  batch_start_time : datetime;
  estimated_duration : Z
}.

(** The keys of a task dict that depend on its ['type']. *)
Inductive work : Type :=
| ADD_MEMBERS (group : string) (users : list string)
              (distribution : list account_distribution)
| BULK_SCRAPE (sources : list string) (distribution : list batch_distribution).

Record task : Type := mk_task {
  id : string;
  type : work;
  timezone : string;
  created_at : datetime;
  status : string;
  progress : Z;
  total_actions : Z;
  started_at : option datetime;
  completed_at : option datetime;
  error : option string
}.

Definition task_ref : Type := nat.

(** The calls the scheduler makes to the rotator and to the single-action
    collaborators, oldest first. *)
Inductive event : Type :=
| call_get_best_account (result : option AccountRotator.acc_ref)
| call_add_single_member (account : AccountRotator.acc_ref)
                         (group user : string) (outcome : res unit)
| call_scrape_single_source (account : AccountRotator.acc_ref)
                            (source : string) (outcome : res unit).

(** The attributes of a [BulkActionScheduler] object, and the record of its
    calls.  [running_tasks] maps a task id to a reference to the task. *)
Record scheduler : Type := mk_scheduler {
  account_rotator : AccountRotator.rotator;
  scheduled_tasks : list task;
  running_tasks : list (string * task_ref);
  calls : list event
}.

(** What the scheduler is given from outside: the zone database of [pytz],
    the clocks, [strftime('%Y%m%d_%H%M%S')], and the single-action calls.
    A clock reading and the outcome of a single-action call may depend on
    how many calls were made before it. *)
Record collaborators : Type := mk_collaborators {
  pytz_known : string -> bool;
  strftime : datetime -> string;
  time_time : nat -> Q;
  datetime_now : nat -> datetime;
  _add_single_member : nat -> AccountRotator.acc_ref -> string -> string -> res unit;
  _scrape_single_source : nat -> AccountRotator.acc_ref -> string -> res unit
}.

Definition set_status (t : task) (v : string) : task :=
  mk_task (id t) (type t) (timezone t) (created_at t) v (progress t)
    (total_actions t) (started_at t) (completed_at t) (error t).

Definition set_progress (t : task) (v : Z) : task :=
  mk_task (id t) (type t) (timezone t) (created_at t) (status t) v
    (total_actions t) (started_at t) (completed_at t) (error t).

Definition set_started_at (t : task) (v : datetime) : task :=
  mk_task (id t) (type t) (timezone t) (created_at t) (status t) (progress t)
    (total_actions t) (Some v) (completed_at t) (error t).

Definition set_completed_at (t : task) (v : datetime) : task :=
  mk_task (id t) (type t) (timezone t) (created_at t) (status t) (progress t)
    (total_actions t) (started_at t) (Some v) (error t).

Definition set_error (t : task) (v : string) : task :=
  mk_task (id t) (type t) (timezone t) (created_at t) (status t) (progress t)
    (total_actions t) (started_at t) (completed_at t) (Some v).

Definition str (e : exn) : string :=
  match e with
  | ZeroDivisionError => "division by zero"
  | IndexError => "list index out of range"
  | UnknownTimeZoneError zone => zone
  | Exception msg => msg
  end.

(** *** State access *)

Fixpoint update_nth {A} (n : nat) (f : A -> A) (xs : list A) : list A :=
  match xs, n with
  | [], _ => []
  | x :: xs', O => f x :: xs'
  | x :: xs', S n' => x :: update_nth n' f xs'
  end.

(** a write through a reference to a task dict *)
Definition update_task (ref : task_ref) (f : task -> task) : M scheduler unit :=
  modify (fun self =>
    mk_scheduler (account_rotator self) (update_nth ref f (scheduled_tasks self))
      (running_tasks self) (calls self)).

Definition record_call (ev : event) : M scheduler unit :=
  modify (fun self =>
    mk_scheduler (account_rotator self) (scheduled_tasks self)
      (running_tasks self) (calls self ++ [ev])).

(** a method call on [self.account_rotator] *)
Definition on_rotator {A} (c : M AccountRotator.rotator A) : M scheduler A :=
  fun self =>
    let (r, rot) := c (account_rotator self) in
    (r, mk_scheduler rot (scheduled_tasks self) (running_tasks self) (calls self)).

Definition dict_pop {V} (k : string) (d : list (string * V)) : list (string * V) :=
  filter (fun kv => negb (fst kv =? k)%string) d.

Definition dict_set {V} (k : string) (v : V) (d : list (string * V))
  : list (string * V) :=
  dict_pop k d ++ [(k, v)].

Definition set_running (k : string) (ref : task_ref) : M scheduler unit :=
  modify (fun self =>
    mk_scheduler (account_rotator self) (scheduled_tasks self)
      (dict_set k ref (running_tasks self)) (calls self)).

Definition pop_running (k : string) : M scheduler unit :=
  modify (fun self =>
    mk_scheduler (account_rotator self) (scheduled_tasks self)
      (dict_pop k (running_tasks self)) (calls self)).

Definition append_task (t : task) : M scheduler unit :=
  modify (fun self =>
    mk_scheduler (account_rotator self) (scheduled_tasks self ++ [t])
      (running_tasks self) (calls self)).

(** *** Planning *)

Definition timezone_peaks : list (string * list Z) :=
  [ ("UTC", [9; 10; 11; 14; 15; 16; 19; 20]);
    ("America/New_York", [9; 10; 11; 13; 14; 15; 18; 19; 20]);
    ("Europe/London", [8; 9; 10; 12; 13; 14; 17; 18; 19]);
    ("Asia/Tokyo", [7; 8; 9; 11; 12; 13; 16; 17; 18]);
    ("Australia/Sydney", [7; 8; 9; 11; 12; 13; 16; 17; 18]) ].

Fixpoint dict_get {V} (k : string) (d : list (string * V)) : option V :=
  match d with
  | [] => None
  | (k', v) :: d' => if (k' =? k)%string then Some v else dict_get k d'
  end.

Definition _get_peak_hours (timezone : string) : list Z :=
  match dict_get timezone timezone_peaks with
  | Some hours => hours
  | None => [9; 10; 11; 14; 15; 16; 19; 20]
  end.

Definition is_in (h : Z) (hours : list Z) : bool := existsb (Z.eqb h) hours.

(** The [while remaining_hours > 0] loop, unrolled [fuel] times. *)
Fixpoint slots_loop (fuel : nat) (current_time : datetime) (remaining_hours : Q)
  (actions_per_hour : Z) (peak_hours : list Z) : list time_slot :=
  match fuel with
  | O => []
  | S fuel' =>
    if Qltb 0 remaining_hours then
      let slot_duration := Qmin 1 remaining_hours in
      let hour := hour current_time in
      let slot_actions :=
        if is_in hour peak_hours
        then int (inject_Z actions_per_hour * 1.2)
        else int (inject_Z actions_per_hour * 0.8) in
      let time_slot :=
        mk_time_slot current_time slot_duration
          (Z.min slot_actions (int (remaining_hours * inject_Z actions_per_hour)))
          (is_in hour peak_hours) in
      time_slot ::
        slots_loop fuel' (current_time + timedelta_hours 1)
          (remaining_hours - slot_duration) actions_per_hour peak_hours
    else []
  end.

(** Every pass but the last takes one hour off [remaining_hours] and the last
    takes the rest, so [ceil(hours_needed)] passes end the loop
    ([slots_loop_fuel] below). *)
Definition _generate_time_slots (start_time : datetime) (hours_needed : Q)
  (actions_per_hour : Z) (peak_hours : list Z) : list time_slot :=
  slots_loop (Z.to_nat (Qceiling hours_needed)) start_time hours_needed
    actions_per_hour peak_hours.

Section Methods.
Context (env : collaborators).

Definition pytz_timezone (zone : string) : M scheduler unit :=
  if pytz_known env zone then ret tt else raise (UnknownTimeZoneError zone).

Fixpoint distribution_loop (indices : list Z) (start_time : datetime)
  (users_per_account remaining_users actions_per_hour_per_account : Z)
  (peak_hours : list Z) : M scheduler (list account_distribution) :=
  match indices with
  | [] => ret []
  | i :: indices' =>
    let account_users :=
      users_per_account + (if i <? remaining_users then 1 else 0) in
    hours_needed <- lift (truediv account_users actions_per_hour_per_account) ;;
    let account_distribution :=
      mk_account_distribution i account_users
        (start_time + timedelta_minutes (i * 10))
        hours_needed actions_per_hour_per_account
        (_generate_time_slots (start_time + timedelta_minutes (i * 10))
           hours_needed actions_per_hour_per_account peak_hours) in
    rest <- distribution_loop indices' start_time users_per_account
              remaining_users actions_per_hour_per_account peak_hours ;;
    ret (account_distribution :: rest)
  end.

Definition _calculate_distribution (total_users accounts_count accounts_per_hour : Z)
  (timezone : string) (now : datetime) : M scheduler (list account_distribution) :=
  pytz_timezone timezone ;;;
  let current_time := now in
  let peak_hours := _get_peak_hours timezone in
  users_per_account <- lift (floordiv total_users accounts_count) ;;
  let remaining_users := total_users mod accounts_count in
  actions_per_hour_per_account <- lift (floordiv accounts_per_hour accounts_count) ;;
  let start_time := current_time in
  distribution_loop (range accounts_count) start_time users_per_account
    remaining_users actions_per_hour_per_account peak_hours.

(** [range(0, n, step)] for [step >= 1] *)
Definition range_step (n step : Z) : list Z :=
  map (fun k => k * step) (range ((n + step - 1) / step)).

(** [xs[i:j]] for [0 <= i <= j] *)
Definition slice {A} (xs : list A) (i j : Z) : list A :=
  firstn (Z.to_nat (j - i)) (skipn (Z.to_nat i) xs).

Definition len {A} (xs : list A) : Z := Z.of_nat (List.length xs).

Definition _calculate_scrape_distribution (sources : list string)
  (accounts_per_hour : Z) (timezone : string) (now : datetime)
  : M scheduler (list batch_distribution) :=
  pytz_timezone timezone ;;;
  let current_time := now in
  per_hour <- lift (floordiv (len sources) accounts_per_hour) ;;
  let sources_per_batch := Z.max 1 per_hour in
  ret (map (fun i =>
         let batch_sources := slice sources i (i + sources_per_batch) in
         mk_batch_distribution (i / sources_per_batch) batch_sources
           (current_time + timedelta_minutes i) (len batch_sources * 2))
       (range_step (len sources) sources_per_batch)).

Definition schedule_add_members (group : string) (users : list string)
  (accounts_per_hour : Z) (timezone : string) (now : datetime) : M scheduler string :=
  let total_users := len users in
  stats <- on_rotator AccountRotator.get_account_stats ;;
  let accounts_needed :=
    Z.min (len users) (AccountRotator.live_accounts_count stats) in
  distribution <- _calculate_distribution total_users accounts_needed
                    accounts_per_hour timezone now ;;
  let task_id := "add_members_" ++ strftime env now in
  let task :=
    mk_task task_id (ADD_MEMBERS group users distribution) timezone now
      "SCHEDULED" 0 total_users None None None in
  append_task task ;;;
  ret task_id.

Definition schedule_bulk_scrape (sources : list string) (accounts_per_hour : Z)
  (timezone : string) (now : datetime) : M scheduler string :=
  distribution <- _calculate_scrape_distribution sources accounts_per_hour
                    timezone now ;;
  let task_id := "bulk_scrape_" ++ strftime env now in
  let task :=
    mk_task task_id (BULK_SCRAPE sources distribution) timezone now
      "SCHEDULED" 0 (len sources) None None None in
  append_task task ;;;
  ret task_id.

(** *** The task registry *)

Fixpoint find_task (task_id : string) (k : nat) (tasks : list task)
  : option task_ref :=
  match tasks with
  | [] => None
  | task :: tasks' =>
    if (id task =? task_id)%string then Some k else find_task task_id (S k) tasks'
  end.

Definition _get_task (task_id : string) : M scheduler (option task_ref) :=
  self <- get ;;
  ret (find_task task_id 0 (scheduled_tasks self)).

(** a read through a reference to a task dict *)
Definition read_task (ref : task_ref) : M scheduler task :=
  self <- get ;;
  match nth_error (scheduled_tasks self) ref with
  | Some task => ret task
  | None => raise IndexError
  end.

Definition type_name (w : work) : string :=
  match w with
  | ADD_MEMBERS _ _ _ => "ADD_MEMBERS"
  | BULK_SCRAPE _ _ => "BULK_SCRAPE"
  end.

Record status_report : Type := mk_status_report {
  report_id : string;
  report_type : string;
  report_status : string;
  report_progress : Z;
  report_total_actions : Z;
  progress_percentage : Q;
  report_created_at : datetime;
  report_error : option string
}.

(** [None] is the dict [{'status': 'not_found'}]. *)
Definition get_task_status (task_id : string) : M scheduler (option status_report) :=
  found <- _get_task task_id ;;
  match found with
  | None => ret None
  | Some ref =>
    task <- read_task ref ;;
    ratio <- lift (truediv (progress task) (total_actions task)) ;;
    ret (Some (mk_status_report (id task) (type_name (type task)) (status task)
                 (progress task) (total_actions task) (ratio * 100)%Q
                 (created_at task) (error task)))
  end.

(** *** Execution *)

Definition get_best_account : M scheduler (option AccountRotator.acc_ref) :=
  self <- get ;;
  account <- on_rotator
               (AccountRotator.get_best_account
                  (time_time env (List.length (calls self)))) ;;
  record_call (call_get_best_account account) ;;;
  ret account.

(** [await self._add_single_member(account, group, user)] *)
Definition add_single_member (account : AccountRotator.acc_ref) (group user : string)
  : M scheduler unit :=
  self <- get ;;
  let outcome := _add_single_member env (List.length (calls self)) account group user in
  record_call (call_add_single_member account group user outcome) ;;;
  lift outcome.

Definition scrape_single_source (account : AccountRotator.acc_ref) (source : string)
  : M scheduler unit :=
  self <- get ;;
  let outcome := _scrape_single_source env (List.length (calls self)) account source in
  record_call (call_scrape_single_source account source outcome) ;;;
  lift outcome.

(** [xs[i]] for [i >= 0] *)
Definition item {A} (xs : list A) (i : Z) : M scheduler A :=
  match nth_error xs (Z.to_nat i) with
  | Some x => ret x
  | None => raise IndexError
  end.

Definition _execute_add_members_task (ref : task_ref) (group : string)
  (users : list string) (distribution : list account_distribution)
  : M scheduler unit :=
  for_each distribution (fun account_dist =>
    account <- get_best_account ;;
    match account with
    | None => ret tt
    | Some account =>
      for_each (time_slots account_dist) (fun time_slot =>
        let target_actions := target_actions time_slot in
        for_each (range target_actions) (fun action_num =>
          try_except
            (user <- item users action_num ;;
             add_single_member account group user ;;;
             update_task ref (fun task => set_progress task (progress task + 1)))
            (fun e => ret tt)))
    end).

Definition _execute_bulk_scrape_task (ref : task_ref)
  (distribution : list batch_distribution) : M scheduler unit :=
  for_each distribution (fun batch =>
    for_each (batch_sources batch) (fun source =>
      try_except
        (account <- get_best_account ;;
         match account with
         | None => ret tt
         | Some account =>
           scrape_single_source account source ;;;
           update_task ref (fun task => set_progress task (progress task + 1))
         end)
        (fun e => ret tt))).

Definition now_ : M scheduler datetime :=
  self <- get ;;
  ret (datetime_now env (List.length (calls self))).

Definition execute_scheduled_task (task_id : string) : M scheduler unit :=
  found <- _get_task task_id ;;
  match found with
  | None => ret tt
  | Some ref =>
    task <- read_task ref ;;
    if negb (status task =? "SCHEDULED")%string then ret tt
    else
      update_task ref (fun task => set_status task "RUNNING") ;;;
      started <- now_ ;;
      update_task ref (fun task => set_started_at task started) ;;;
      set_running task_id ref ;;;
      try_except
        (match type task with
         | ADD_MEMBERS group users distribution =>
           _execute_add_members_task ref group users distribution
         | BULK_SCRAPE sources distribution =>
           _execute_bulk_scrape_task ref distribution
         end ;;;
         update_task ref (fun task => set_status task "COMPLETED") ;;;
         completed <- now_ ;;
         update_task ref (fun task => set_completed_at task completed))
        (fun e =>
           update_task ref (fun task => set_status task "FAILED") ;;;
           update_task ref (fun task => set_error task (str e))) ;;;
      pop_running task_id
  end.

(** [[f(x) for x in xs]] *)
Fixpoint collect {A B} (f : A -> M scheduler B) (xs : list A)
  : M scheduler (list B) :=
  match xs with
  | [] => ret []
  | x :: xs' =>
    y <- f x ;;
    ys <- collect f xs' ;;
    ret (y :: ys)
  end.

(** [if status_filter:] holds for a string that is not empty. *)
Definition filter_given (status_filter : option string) : option string :=
  match status_filter with
  | Some "" => None
  | other => other
  end.

Definition list_tasks (status_filter : option string)
  : M scheduler (list (option status_report)) :=
  self <- get ;;
  let tasks := scheduled_tasks self in
  let tasks :=
    match filter_given status_filter with
    | Some wanted => filter (fun task => (status task =? wanted)%string) tasks
    | None => tasks
    end in
  collect (fun task => get_task_status (id task)) tasks.

End Methods.

End BulkActionScheduler.

(** ** Notions used in the statements *)

Module Notions.
Import Py.
Local Open Scope string_scope.

(** The first position of [accs] holding an account with the given phone:
    the dict that [mark_account_used] writes to. *)
Fixpoint first_with_phone (phone_ : string) (k : nat)
  (accs : list AccountRotator.account) : option AccountRotator.acc_ref :=
  match accs with
  | [] => None
  | account :: rest =>
    if AccountRotator.phone account =? phone_ then Some k
    else first_with_phone phone_ (S k) rest
  end.

(** References in the order of the list they point into. *)
Definition by_position {A} (p q : nat * A) : Prop := (fst p < fst q)%nat.

(** The order on [last_used] in which a never-used account comes first. *)
Definition last_used_le (a b : option Q) : Prop :=
  match a, b with
  | None, _ => True
  | Some _, None => False
  | Some x, Some y => (x <= y)%Q
  end.

(** A pool built through the rotator's own calls: two registrations, then
    one successful use of the first account at time 1000. *)
Definition two_account_pool : AccountRotator.rotator :=
  snd (AccountRotator.mark_account_used "+100" true 1000
    (snd (AccountRotator.add_account "+200" "b.session" None
      (snd (AccountRotator.add_account "+100" "a.session" None
        (AccountRotator.mk_rotator [])))))).

Definition sum_Z (xs : list Z) : Z := fold_right Z.add 0%Z xs.

(** [sum(slot['target_actions'] for slot in slots)] *)
Definition sum_targets (slots : list BulkActionScheduler.time_slot) : Z :=
  sum_Z (map BulkActionScheduler.target_actions slots).

(** [sum(allocation['users_count'] for allocation in plan)] *)
Definition sum_users (plan : list BulkActionScheduler.account_distribution) : Z :=
  sum_Z (map BulkActionScheduler.users_count plan).


(** Collaborators for the concrete runs: [pytz] knows the zones of the
    peak-hour table, the clocks stand still, and every single-action call
    returns, or every one raises. *)
Definition table_zone (zone : string) : bool :=
  existsb (fun kv => fst kv =? zone) BulkActionScheduler.timezone_peaks.

Definition stamp (t : BulkActionScheduler.datetime) : string :=
  if (t =? 0)%Z then "19700101_000000" else "19700101_090000".

Definition all_succeed : BulkActionScheduler.collaborators :=
  BulkActionScheduler.mk_collaborators table_zone stamp
    (fun _ => 5000%Q) (fun _ => 0%Z)
    (fun _ _ _ _ => Ok tt) (fun _ _ _ => Ok tt).

Definition all_fail : BulkActionScheduler.collaborators :=
  BulkActionScheduler.mk_collaborators table_zone stamp
    (fun _ => 5000%Q) (fun _ => 0%Z)
    (fun _ _ _ _ => Raise (Exception "add failed"))
    (fun _ _ _ => Raise (Exception "scrape failed")).

(** A scheduler whose rotator holds one registered account, and the same
    scheduler after two users were scheduled at four actions per hour. *)
Definition one_account : BulkActionScheduler.scheduler :=
  BulkActionScheduler.mk_scheduler
    (snd (AccountRotator.add_account "+100" "a.session" None
            (AccountRotator.mk_rotator [])))
    [] [] [].

Definition two_users_scheduled : BulkActionScheduler.scheduler :=
  snd (BulkActionScheduler.schedule_add_members all_succeed
         "group" ["u1"; "u2"] 4%Z "UTC" 0%Z one_account).

(** the id [schedule_add_members] gave the task of [two_users_scheduled] *)
Definition scheduled_id : string := "add_members_19700101_000000".

(** the task of [two_users_scheduled]: one allocation, one slot of half an
    hour with two units *)
Definition two_users_plan : list BulkActionScheduler.account_distribution :=
  [BulkActionScheduler.mk_account_distribution 0%Z 2%Z 0%Z
     (inject_Z 2 / inject_Z 4)%Q 4%Z
     [BulkActionScheduler.mk_time_slot 0%Z (Qmin 1 (inject_Z 2 / inject_Z 4)) 2%Z
        false]].

Definition two_users_task : BulkActionScheduler.task :=
  BulkActionScheduler.mk_task scheduled_id
    (BulkActionScheduler.ADD_MEMBERS "group" ["u1"; "u2"] two_users_plan)
    "UTC" 0%Z "SCHEDULED" 0%Z 2%Z None None None.

Definition no_account : BulkActionScheduler.scheduler :=
  BulkActionScheduler.mk_scheduler (AccountRotator.mk_rotator []) [] [] [].

(** *** The record of calls *)

(** 1 for a single-action call that returned, 0 for any other call. *)
Definition unit_done (ev : BulkActionScheduler.event) : Z :=
  match ev with
  | BulkActionScheduler.call_add_single_member _ _ _ (Ok _) => 1%Z
  | BulkActionScheduler.call_scrape_single_source _ _ (Ok _) => 1%Z
  | _ => 0%Z
  end.

Definition count_ok (evs : list BulkActionScheduler.event) : Z :=
  sum_Z (map unit_done evs).

(** 1 for a call of [_add_single_member], returned or raised. *)
Definition unit_tried (ev : BulkActionScheduler.event) : Z :=
  match ev with
  | BulkActionScheduler.call_add_single_member _ _ _ _ => 1%Z
  | _ => 0%Z
  end.

Definition count_units (evs : list BulkActionScheduler.event) : Z :=
  sum_Z (map unit_tried evs).

(** 1 for a call of [get_best_account]. *)
Definition selection (ev : BulkActionScheduler.event) : Z :=
  match ev with
  | BulkActionScheduler.call_get_best_account _ => 1%Z
  | _ => 0%Z
  end.

Definition count_selections (evs : list BulkActionScheduler.event) : Z :=
  sum_Z (map selection evs).


(** A call of [_add_single_member] made with account [a], recorded with the
    outcome the collaborator gave. *)
Definition made_with (env : BulkActionScheduler.collaborators)
  (a : AccountRotator.acc_ref) (ev : BulkActionScheduler.event) : Prop :=
  exists k group user,
    ev = BulkActionScheduler.call_add_single_member a group user
           (BulkActionScheduler._add_single_member env k a group user).

(** The calls of a run over [n] allocations: for each allocation one call
    of [get_best_account], then the single-action calls of the allocation,
    all made with the account that call returned, and none when it returned
    [None]. *)
Inductive allocation_blocks (env : BulkActionScheduler.collaborators)
  : nat -> list BulkActionScheduler.event -> Prop :=
| blocks_nil : allocation_blocks env 0 []
| blocks_skipped n rest :
    allocation_blocks env n rest ->
    allocation_blocks env (S n)
      (BulkActionScheduler.call_get_best_account None :: rest)
| blocks_run n a units rest :
    Forall (made_with env a) units ->
    allocation_blocks env n rest ->
    allocation_blocks env (S n)
      (BulkActionScheduler.call_get_best_account (Some a) :: (units ++ rest)%list).

Definition add_progress (k : Z) (t : BulkActionScheduler.task)
  : BulkActionScheduler.task :=
  BulkActionScheduler.set_progress t (BulkActionScheduler.progress t + k)%Z.

(** What a stretch of [_execute_add_members_task] does to the scheduler:
    it records the calls [evs] and moves the progress of the task at [ref]
    by the number of single-action calls that returned; the rotator, the
    other tasks and [running_tasks] stay as they are. *)
Definition ran (ref : BulkActionScheduler.task_ref)
  (evs : list BulkActionScheduler.event)
  (s s' : BulkActionScheduler.scheduler) : Prop :=
  BulkActionScheduler.account_rotator s' = BulkActionScheduler.account_rotator s
  /\ BulkActionScheduler.running_tasks s' = BulkActionScheduler.running_tasks s
  /\ BulkActionScheduler.calls s' = (BulkActionScheduler.calls s ++ evs)%list
  /\ BulkActionScheduler.scheduled_tasks s'
     = BulkActionScheduler.update_nth ref (add_progress (count_ok evs))
         (BulkActionScheduler.scheduled_tasks s).

(** Two accounts registered and never used. *)
Definition fresh_pair : AccountRotator.rotator :=
  snd (AccountRotator.add_account "+200" "b.session" None
    (snd (AccountRotator.add_account "+100" "a.session" None
      (AccountRotator.mk_rotator [])))).

(** *** Ranges of the fields of an account *)

(** The counters as [mark_account_used] keeps them. *)
Definition counters_ok (a : AccountRotator.account) : Prop :=
  (0 <= AccountRotator.successful_actions a <= AccountRotator.total_actions a)%Z.

(** The fitness fields within the ranges the scorer is written for. *)
Definition fields_in_range (a : AccountRotator.account) : Prop :=
  (0 <= AccountRotator.success_rate a <= 1)%Q
  /\ (0 <= AccountRotator.activity a <= 1)%Q
  /\ (0 <= AccountRotator.age a)%Z
  /\ (0 <= AccountRotator.rate_limit_count a)%Z
  /\ (0 <= AccountRotator.banned_count a)%Z.

Definition sum_Q (xs : list Q) : Q := fold_right Qplus 0%Q xs.

(** [sum(slot['duration_hours'] for slot in slots)] *)
Definition sum_durations (slots : list BulkActionScheduler.time_slot) : Q :=
  sum_Q (map BulkActionScheduler.duration_hours slots).

(** The units a plan asks for: the targets of all slots of all allocations,
    a target below zero counting for none ([range] of it is empty). *)
Definition planned_units (plan : list BulkActionScheduler.account_distribution) : Z :=
  sum_Z (map (fun d =>
           sum_Z (map (fun slot => Z.max 0 (BulkActionScheduler.target_actions slot))
                    (BulkActionScheduler.time_slots d))) plan).

(** 1 for a call of [_scrape_single_source], returned or raised. *)
Definition scrape_tried (ev : BulkActionScheduler.event) : Z :=
  match ev with
  | BulkActionScheduler.call_scrape_single_source _ _ _ => 1%Z
  | _ => 0%Z
  end.

Definition count_scrapes (evs : list BulkActionScheduler.event) : Z :=
  sum_Z (map scrape_tried evs).

(** The sources of all batches of a scrape plan, in order. *)
Definition plan_sources (plan : list BulkActionScheduler.batch_distribution)
  : list string :=
  List.concat (map BulkActionScheduler.batch_sources plan).

(** The entry of [list_tasks] for a task: a report that carries the id, the
    status and the counters of the task. *)
Definition reports_task (t : BulkActionScheduler.task)
  (entry : option BulkActionScheduler.status_report) : Prop :=
  exists report,
    entry = Some report
    /\ BulkActionScheduler.report_id report = BulkActionScheduler.id t
    /\ BulkActionScheduler.report_type report
       = BulkActionScheduler.type_name (BulkActionScheduler.type t)
    /\ BulkActionScheduler.report_status report = BulkActionScheduler.status t
    /\ BulkActionScheduler.report_progress report = BulkActionScheduler.progress t
    /\ BulkActionScheduler.report_total_actions report
       = BulkActionScheduler.total_actions t
    /\ BulkActionScheduler.report_error report = BulkActionScheduler.error t.

(** The fields of a task that no method writes after scheduling. *)
Definition fixed_fields (t : BulkActionScheduler.task)
  : string * BulkActionScheduler.work * string * BulkActionScheduler.datetime * Z :=
  (BulkActionScheduler.id t, BulkActionScheduler.type t,
   BulkActionScheduler.timezone t, BulkActionScheduler.created_at t,
   BulkActionScheduler.total_actions t).

(** A scheduler holding one scrape task, scheduled at time 0. *)
Definition one_scrape_scheduled : BulkActionScheduler.scheduler :=
  snd (BulkActionScheduler.schedule_bulk_scrape all_succeed ["a"; "b"] 100%Z "UTC"
         0%Z one_account).

(** The calls of a scrape run over a list of sources: for each source one
    call of [get_best_account], followed by the scrape of that source with
    the account returned, and by nothing when it returned [None]. *)
Inductive source_blocks (env : BulkActionScheduler.collaborators)
  : list string -> list BulkActionScheduler.event -> Prop :=
| sources_nil : source_blocks env [] []
| sources_skipped source rest evs :
    source_blocks env rest evs ->
    source_blocks env (source :: rest)
      (BulkActionScheduler.call_get_best_account None :: evs)
| sources_scraped source rest evs a k :
    source_blocks env rest evs ->
    source_blocks env (source :: rest)
      (BulkActionScheduler.call_get_best_account (Some a)
       :: BulkActionScheduler.call_scrape_single_source a source
            (BulkActionScheduler._scrape_single_source env k a source)
       :: evs).

(** The shape of the calls of a run of a task, by its kind. *)
Definition run_shape (env : BulkActionScheduler.collaborators)
  (w : BulkActionScheduler.work) (evs : list BulkActionScheduler.event) : Prop :=
  match w with
  | BulkActionScheduler.ADD_MEMBERS _ _ distribution =>
    allocation_blocks env (List.length distribution) evs
  | BulkActionScheduler.BULK_SCRAPE _ distribution =>
    source_blocks env (plan_sources distribution) evs
  end.

(** Twenty users scheduled for one account at ten actions per hour, at
    09:00: the plan of the run that goes over its total. *)
Definition twenty_users : list string := repeat "u" 20.

Definition twenty_users_plan : list BulkActionScheduler.account_distribution :=
  [BulkActionScheduler.mk_account_distribution 0%Z 20%Z 32400%Z
     (inject_Z 20 / inject_Z 10)%Q 10%Z
     (BulkActionScheduler._generate_time_slots 32400%Z (inject_Z 20 / inject_Z 10)%Q
        10%Z (BulkActionScheduler._get_peak_hours "UTC"))].

Definition twenty_users_task : BulkActionScheduler.task :=
  BulkActionScheduler.mk_task "add_members_19700101_090000"
    (BulkActionScheduler.ADD_MEMBERS "group" twenty_users twenty_users_plan)
    "UTC" 32400%Z "SCHEDULED" 0%Z 20%Z None None None.

Definition twenty_users_scheduled : BulkActionScheduler.scheduler :=
  snd (BulkActionScheduler.schedule_add_members all_succeed
         "group" twenty_users 10%Z "UTC" 32400%Z one_account).

(** [two_users_scheduled] after its only account was banned. *)
Definition scheduled_then_banned : BulkActionScheduler.scheduler :=
  BulkActionScheduler.mk_scheduler
    (snd (AccountRotator.mark_account_banned "+100"
            (BulkActionScheduler.account_rotator two_users_scheduled)))
    (BulkActionScheduler.scheduled_tasks two_users_scheduled) [] [].

(** The users handed to [_add_single_member] in a record of calls, in the
    order of the calls. *)
Definition user_called (ev : BulkActionScheduler.event) : list string :=
  match ev with
  | BulkActionScheduler.call_add_single_member _ _ user _ => [user]
  | _ => []
  end.

Definition users_called (evs : list BulkActionScheduler.event) : list string :=
  List.concat (map user_called evs).

(** [users[:target]] for every slot of every allocation of a plan, in the
    order of the plan. *)
Definition planned_users (users : list string)
  (plan : list BulkActionScheduler.account_distribution) : list string :=
  List.concat
    (map (fun d =>
            List.concat
              (map (fun slot =>
                      firstn (Z.to_nat (BulkActionScheduler.target_actions slot)) users)
                 (BulkActionScheduler.time_slots d))) plan).

Definition item_or_none {A} (x : option A) : list A :=
  match x with
  | Some a => [a]
  | None => []
  end.

End Notions.

(** ** Facts on the Python layer *)

Module PyFacts.
Import Py Notions.

Lemma Qltb_true (x y : Q) : Qltb x y = true <-> (x < y)%Q.
Proof.
  unfold Qltb. rewrite Qlt_alt.
  destruct (x ?= y)%Q; split; congruence.
Qed.

Lemma Qltb_false (x y : Q) : Qltb x y = false <-> (y <= x)%Q.
Proof.
  unfold Qltb. rewrite Qge_alt.
  destruct (x ?= y)%Q; split; congruence.
Qed.

Lemma int_le (x : Q) : (0 <= x)%Q -> (inject_Z (int x) <= x)%Q.
Proof.
  intros Hx. unfold int.
  destruct (Qltb x 0) eqn:E.
  - apply Qltb_true in E. lra.
  - apply Qfloor_le.
Qed.

Lemma int_nonneg (x : Q) : (0 <= x)%Q -> (0 <= int x)%Z.
Proof.
  intros Hx. unfold int.
  destruct (Qltb x 0) eqn:E.
  - apply Qltb_true in E. lra.
  - change 0%Z with (Qfloor 0). now apply Qfloor_resp_le.
Qed.

Section SortFacts.
Context {A : Type} (key : A -> Q).

Lemma insert_desc_In (x z : A) (l : list A) :
  In z (insert_desc key x l) <-> z = x \/ In z l.
Proof.
  induction l as [|y l IH]; simpl.
  - intuition.
  - destruct (Qltb (key x) (key y)); simpl; rewrite ?IH; intuition.
Qed.

Lemma sort_desc_In (z : A) (l : list A) : In z (sort_desc key l) <-> In z l.
Proof.
  induction l as [|x l IH]; simpl.
  - tauto.
  - rewrite insert_desc_In, IH. intuition.
Qed.

Lemma sort_desc_nil (l : list A) : sort_desc key l = [] -> l = [].
Proof.
  destruct l as [|x l]; [reflexivity|].
  intros H. exfalso.
  assert (Hin : In x (sort_desc key (x :: l))) by (apply sort_desc_In; now left).
  rewrite H in Hin. inversion Hin.
Qed.

(** The head of the sorted list is the first element of greatest key. *)
Lemma sort_desc_head (l : list A) (x : A) (t : list A) :
  sort_desc key l = x :: t ->
  exists l1 l2, l = l1 ++ x :: l2
    /\ Forall (fun y => (key y < key x)%Q) l1
    /\ Forall (fun y => (key y <= key x)%Q) l2.
Proof.
  revert x t. induction l as [|a l IH]; intros x t H; [discriminate|].
  simpl in H.
  destruct (sort_desc key l) as [|y t'] eqn:E.
  - apply sort_desc_nil in E. subst l. simpl in H. injection H as <- <-.
    exists [], []. repeat split; constructor.
  - destruct (IH y t' eq_refl) as (l1 & l2 & Hl & H1 & H2).
    simpl in H. destruct (Qltb (key a) (key y)) eqn:Elt; injection H as <- <-.
    + apply Qltb_true in Elt.
      exists (a :: l1), l2. subst l. repeat split; auto.
    + apply Qltb_false in Elt.
      exists [], l. repeat split; [constructor|].
      subst l. apply Forall_app. split.
      * eapply Forall_impl; [|exact H1]. simpl. intros. lra.
      * constructor; [exact Elt|].
        eapply Forall_impl; [|exact H2]. simpl. intros. lra.
Qed.

End SortFacts.

Lemma enumerate_from_In {A} (xs : list A) (k i : nat) (a : A) :
  In (i, a) (enumerate_from k xs) <-> (k <= i)%nat /\ nth_error xs (i - k) = Some a.
Proof.
  revert k. induction xs as [|x xs IH]; intros k; simpl.
  - split; [tauto|]. intros [_ H]. destruct (i - k)%nat; discriminate.
  - rewrite IH. split.
    + intros [H|[Hle H]].
      * injection H as <- <-. rewrite Nat.sub_diag. auto.
      * split; [lia|]. replace (i - k)%nat with (S (i - S k)) by lia. exact H.
    + intros [Hle H]. destruct (i - k)%nat as [|n] eqn:E.
      * left. simpl in H. injection H as <-. f_equal. lia.
      * right. split; [lia|]. simpl in H. replace (i - S k)%nat with n by lia. exact H.
Qed.

Lemma enumerate_In {A} (xs : list A) (i : nat) (a : A) :
  In (i, a) (enumerate xs) <-> nth_error xs i = Some a.
Proof.
  unfold enumerate. rewrite enumerate_from_In, Nat.sub_0_r.
  split; [tauto|]. split; [lia|assumption].
Qed.

Lemma enumerate_from_sorted {A} (xs : list A) (k : nat) :
  StronglySorted by_position (enumerate_from k xs).
Proof.
  revert k. induction xs as [|x xs IH]; intros k; simpl; constructor.
  - apply IH.
  - apply Forall_forall. intros [i a] Hin.
    apply enumerate_from_In in Hin. unfold by_position. simpl. lia.
Qed.

Lemma filter_sorted {A} (R : A -> A -> Prop) (f : A -> bool) (l : list A) :
  StronglySorted R l -> StronglySorted R (filter f l).
Proof.
  induction 1 as [|x l Hs IH Hall]; simpl; [constructor|].
  destruct (f x); [|exact IH].
  constructor; [exact IH|].
  apply Forall_forall. intros y Hy. apply filter_In in Hy.
  rewrite Forall_forall in Hall. apply Hall, Hy.
Qed.

Lemma sorted_after {A} (R : A -> A -> Prop) (l1 l2 : list A) (x : A) :
  StronglySorted R (l1 ++ x :: l2) -> Forall (R x) l2.
Proof.
  induction l1 as [|y l1 IH]; simpl; intros H; inversion H; subst; auto.
Qed.

End PyFacts.

(** ** The account rotator *)

Module RotatorFacts.
Import Py Notions PyFacts AccountRotator.
Local Open Scope string_scope.
Local Open Scope list_scope.

Lemma live_accounts_In (self : rotator) (i : acc_ref) (a : account) :
  In (i, a) (live_accounts self)
  <-> nth_error (accounts self) i = Some a /\ status a = "LIVE".
Proof.
  unfold live_accounts. rewrite filter_In, enumerate_In. simpl.
  unfold is_live. rewrite String.eqb_eq. tauto.
Qed.

Lemma live_accounts_sorted (self : rotator) :
  StronglySorted by_position (live_accounts self).
Proof. apply filter_sorted, enumerate_from_sorted. Qed.

(** What [get_best_account] computes: nothing is written, and the
    reference returned is the first of the LIVE accounts of greatest score. *)
Lemma get_best_account_cases (now : Q) (self : rotator) :
  (live_accounts self = [] /\ get_best_account now self = (Ok None, self))
  \/
  (exists l1 r a l2,
     live_accounts self = l1 ++ (r, a) :: l2
     /\ Forall (fun p => (_calculate_account_score now (snd p)
                          < _calculate_account_score now a)%Q) l1
     /\ Forall (fun p => (_calculate_account_score now (snd p)
                          <= _calculate_account_score now a)%Q) l2
     /\ get_best_account now self = (Ok (Some r), self)).
Proof.
  unfold get_best_account, bind, get.
  destruct (live_accounts self) as [|p l] eqn:E; [left; auto|right].
  set (f := fun acc : acc_ref * account =>
              (acc, _calculate_account_score now (snd acc))).
  destruct (sort_desc snd (map f (p :: l))) as [|[[r a] sc] t] eqn:Es.
  - apply sort_desc_nil in Es. discriminate.
  - apply sort_desc_head in Es as (s1 & s2 & Hl & H1 & H2).
    apply map_eq_app in Hl as (l1 & l2' & Hl & <- & Hs2).
    apply map_eq_cons in Hs2 as (q & l2 & -> & Hq & <-).
    unfold f in Hq. injection Hq as -> <-.
    exists l1, r, a, l2. simpl in *.
    rewrite Forall_map in H1, H2. auto.
Qed.

Lemma get_best_account_state (now : Q) (self : rotator) :
  snd (get_best_account now self) = self.
Proof.
  destruct (get_best_account_cases now self) as [[_ H]|(l1 & r & a & l2 & _ & _ & _ & H)];
    now rewrite H.
Qed.

(** C5. For every pool and clock reading, [get_best_account] returns
    without raising, the account it returns is LIVE, and it returns [None]
    exactly when no account of the pool is LIVE. *)
Theorem get_best_account_live (now : Q) (self : rotator) :
  exists result,
    fst (get_best_account now self) = Ok result
    /\ (forall r, result = Some r ->
          exists a, nth_error (accounts self) r = Some a /\ status a = "LIVE")
    /\ (result = None <->
          forall a, In a (accounts self) -> status a <> "LIVE").
Proof.
  destruct (get_best_account_cases now self)
    as [[Hl H]|(l1 & r & a & l2 & Hl & _ & _ & H)]; rewrite H; simpl.
  - exists None. split; [reflexivity|]. split; [discriminate|].
    split; [|reflexivity]. intros _ a Hin Hlive.
    apply In_nth_error in Hin as [i Hi].
    assert (Hx : In (i, a) (live_accounts self)) by (apply live_accounts_In; auto).
    rewrite Hl in Hx. inversion Hx.
  - exists (Some r). split; [reflexivity|].
    assert (Hx : In (r, a) (live_accounts self))
      by (rewrite Hl; apply in_elt).
    apply live_accounts_In in Hx as [Hn Hs].
    split.
    + intros r' Hr. injection Hr as <-. eauto.
    + split; [discriminate|]. intros Hall. exfalso.
      apply (Hall a); [eapply nth_error_In; eauto|exact Hs].
Qed.

(** C6, as the code has it. The account returned has the greatest score of
    the LIVE accounts, and among the LIVE accounts of that score it is the
    one that comes first in the pool; [last_used] plays no part in a tie. *)
Theorem get_best_account_first_of_ties (now : Q) (self : rotator)
  (r : acc_ref) (a : account) :
  fst (get_best_account now self) = Ok (Some r) ->
  nth_error (accounts self) r = Some a ->
  forall j b, nth_error (accounts self) j = Some b -> status b = "LIVE" ->
    (_calculate_account_score now b <= _calculate_account_score now a)%Q
    /\ ((_calculate_account_score now b == _calculate_account_score now a)%Q ->
        (r <= j)%nat).
Proof.
  intros Hret Ha j b Hb Hlive.
  destruct (get_best_account_cases now self)
    as [[_ H]|(l1 & r' & a' & l2 & Hl & H1 & H2 & H)];
    rewrite H in Hret; simpl in Hret; [discriminate|].
  injection Hret as ->.
  assert (Hx : In (r, a') (live_accounts self)) by (rewrite Hl; apply in_elt).
  apply live_accounts_In in Hx as [Hn _].
  rewrite Ha in Hn. injection Hn as <-.
  assert (Hj : In (j, b) (live_accounts self)) by (apply live_accounts_In; auto).
  pose proof (live_accounts_sorted self) as Hs. rewrite Hl in Hs.
  apply sorted_after in Hs.
  rewrite Forall_forall in H1, H2, Hs.
  rewrite Hl in Hj. apply in_app_or in Hj as [Hj|[Hj|Hj]].
  - apply H1 in Hj. simpl in Hj. split; [lra|]. intros Heq. lra.
  - injection Hj as <- <-. split; [lra|]. intros _. lia.
  - split; [apply (H2 _ Hj)|]. intros _.
    apply Hs in Hj. unfold by_position in Hj. simpl in Hj. lia.
Qed.

Lemma get_best_account_first_of_ties_witness :
  (_calculate_account_score 4600
     (mk_account "+200" "b.session" None "LIVE" 1 30 0.8 None 0 0 0 0)
   <= _calculate_account_score 4600
        (mk_account "+100" "a.session" None "LIVE" 1 30 0.8 (Some 1000%Q) 1 1 0 0))%Q
  /\ ((_calculate_account_score 4600
         (mk_account "+200" "b.session" None "LIVE" 1 30 0.8 None 0 0 0 0)
       == _calculate_account_score 4600
            (mk_account "+100" "a.session" None "LIVE" 1 30 0.8 (Some 1000%Q) 1 1 0 0))%Q ->
      (0 <= 1)%nat).
Proof.
  apply (@get_best_account_first_of_ties 4600 two_account_pool 0%nat _
           eq_refl eq_refl 1%nat _ eq_refl eq_refl).
Defined.

(** C6, as stated, fails. In [two_account_pool] both accounts are LIVE and
    have the same score one hour and more after the first was used; the
    account returned is the first, used at time 1000, and not the second,
    which was never used. *)
Lemma tie_not_broken_by_last_used :
  ~ (forall r a, fst (get_best_account 4600 two_account_pool) = Ok (Some r) ->
       nth_error (accounts two_account_pool) r = Some a ->
       forall j b, nth_error (accounts two_account_pool) j = Some b ->
         status b = "LIVE" ->
         (_calculate_account_score 4600 b == _calculate_account_score 4600 a)%Q ->
         last_used_le (last_used a) (last_used b)).
Proof.
  intros H.
  exact (H 0%nat _ eq_refl eq_refl 1%nat _ eq_refl eq_refl eq_refl).
Qed.

Lemma cooldown_penalty_used (now t : Q) (a : account) :
  last_used a = Some t -> ~ (t == 0)%Q -> (now - t < 3600)%Q ->
  _get_cooldown_penalty now a = 0.5%Q.
Proof.
  intros Hl Ht Hlt. unfold _get_cooldown_penalty, not_last_used. rewrite Hl.
  destruct (Qeq_bool t 0) eqn:E; [apply Qeq_bool_eq in E; contradiction|].
  apply Qltb_true in Hlt. now rewrite Hlt.
Qed.

(** C8, as the code has it. An account whose [last_used] is neither [None]
    nor zero and lies less than 3600 seconds back has penalty 0.5, whether
    or not it lies less than 1800 seconds back; an account used 3600
    seconds ago or more, or never used, has penalty 1; no account has
    penalty 0.3.  A [last_used] of zero counts as never used, whatever the
    clock reading: [if not account['last_used']] tests the truth value of
    the field, and the penalty is 1. *)
Theorem cooldown_penalty_tiers (now : Q) (a : account) :
  (forall t, last_used a = Some t -> ~ (t == 0)%Q -> (now - t < 3600)%Q ->
     _get_cooldown_penalty now a = 0.5%Q)
  /\ (forall t, last_used a = Some t -> (3600 <= now - t)%Q ->
        _get_cooldown_penalty now a = 1%Q)
  /\ (last_used a = None -> _get_cooldown_penalty now a = 1%Q)
  /\ ~ (_get_cooldown_penalty now a == 0.3)%Q
  /\ (forall t, last_used a = Some t -> (t == 0)%Q ->
        _get_cooldown_penalty now a = 1%Q).
Proof.
  split; [intros t; apply cooldown_penalty_used|].
  assert (Hzero : forall t, last_used a = Some t -> (t == 0)%Q ->
                    _get_cooldown_penalty now a = 1%Q).
  { intros t Hl Ht. unfold _get_cooldown_penalty, not_last_used. rewrite Hl.
    apply Qeq_bool_iff in Ht. now rewrite Ht. }
  cut ((forall t, last_used a = Some t -> (3600 <= now - t)%Q ->
          _get_cooldown_penalty now a = 1%Q)
       /\ (last_used a = None -> _get_cooldown_penalty now a = 1%Q)
       /\ ~ (_get_cooldown_penalty now a == 0.3)%Q); [tauto|].
  clear Hzero.
  unfold _get_cooldown_penalty, not_last_used.
  destruct (last_used a) as [t|]; repeat split; intros;
    try discriminate; try reflexivity.
  - match goal with H : Some _ = Some _ |- _ => injection H as <- end.
    destruct (Qeq_bool t 0); [reflexivity|].
    destruct (Qltb (now - t) 3600) eqn:E.
    + apply Qltb_true in E. lra.
    + destruct (Qltb (now - t) 1800) eqn:E'; [|reflexivity].
      apply Qltb_true in E'. lra.
  - destruct (Qeq_bool t 0); [discriminate|].
    destruct (Qltb (now - t) 3600) eqn:E; [discriminate|].
    destruct (Qltb (now - t) 1800) eqn:E'; [|discriminate].
    apply Qltb_false in E. apply Qltb_true in E'. lra.
Qed.

Lemma cooldown_penalty_tiers_witness :
  _get_cooldown_penalty 1900
    (mk_account "+100" "a.session" None "LIVE" 1 30 0.8 (Some 1000%Q) 1 1 0 0)
  = 0.5%Q.
Proof.
  apply (proj1 (cooldown_penalty_tiers 1900
           (mk_account "+100" "a.session" None "LIVE" 1 30 0.8 (Some 1000%Q) 1 1 0 0))
           1000%Q eq_refl).
  - discriminate.
  - reflexivity.
Defined.

(** C8, as stated, fails. An account whose [last_used] is the clock reading
    0 is read 100 seconds later: the field is not [None] and 100 seconds is
    less than 3600, and the penalty is 1, not 0.5. *)
Lemma zero_last_used_not_penalised :
  last_used (mk_account "+100" "a.session" None "LIVE" 1 30 0.8 (Some 0%Q) 1 1 0 0)
  = Some 0%Q
  /\ (100 - 0 < 3600)%Q
  /\ _get_cooldown_penalty 100
       (mk_account "+100" "a.session" None "LIVE" 1 30 0.8 (Some 0%Q) 1 1 0 0)
     = 1%Q
  /\ ~ (_get_cooldown_penalty 100
          (mk_account "+100" "a.session" None "LIVE" 1 30 0.8 (Some 0%Q) 1 1 0 0)
        == 0.5)%Q.
Proof.
  split; [reflexivity|]. split; [reflexivity|]. split; [reflexivity|].
  vm_compute. discriminate.
Qed.

Lemma mark_used_loop_last_used (phone_ : string) (success : bool) (t : Q)
  (accs : list account) (k r : nat) :
  first_with_phone phone_ k accs = Some r ->
  (k <= r)%nat /\
  exists a', nth_error (snd (mark_used_loop phone_ success t accs)) (r - k) = Some a'
             /\ last_used a' = Some t.
Proof.
  revert k. induction accs as [|a accs IH]; intros k; simpl; [discriminate|].
  destruct (phone a =? phone_).
  - intros H. injection H as <-. split; [lia|]. rewrite Nat.sub_diag.
    destruct (truediv _ _); simpl; eexists; split; try reflexivity;
      destruct success; reflexivity.
  - intros H. destruct (IH _ H) as (Hle & a' & Hn & Hl).
    split; [lia|].
    destruct (mark_used_loop phone_ success t accs) as [res rest]. simpl in *.
    replace (r - k)%nat with (S (r - S k)) by lia. simpl. eauto.
Qed.

(** C10. [get_best_account] writes nothing: the pool after the call is the
    pool before it, so the cooldown penalty of the account it chose is what
    it was.  The penalty applies once [mark_account_used] has been called
    for the account: less than 3600 seconds after that call it is 0.5. *)
Theorem get_best_account_no_side_effects (now : Q) (self : rotator) :
  snd (get_best_account now self) = self
  /\ (forall r a later,
        fst (get_best_account now self) = Ok (Some r) ->
        nth_error (accounts self) r = Some a ->
        exists a', nth_error (accounts (snd (get_best_account now self))) r = Some a'
                   /\ a' = a
                   /\ _get_cooldown_penalty later a' = _get_cooldown_penalty later a)
  /\ (forall r a success t later,
        nth_error (accounts self) r = Some a ->
        first_with_phone (phone a) 0 (accounts self) = Some r ->
        ~ (t == 0)%Q -> (later - t < 3600)%Q ->
        exists a',
          nth_error
            (accounts (snd (mark_account_used (phone a) success t
                              (snd (get_best_account now self))))) r = Some a'
          /\ last_used a' = Some t
          /\ _get_cooldown_penalty later a' = 0.5%Q).
Proof.
  rewrite get_best_account_state. split; [reflexivity|]. split.
  - intros r a later _ Ha. exists a. auto.
  - intros r a success t later Ha Hf Ht Hlt.
    destruct (@mark_used_loop_last_used (phone a) success t _ _ _ Hf)
      as (_ & a' & Hn & Hl).
    rewrite Nat.sub_0_r in Hn.
    exists a'. unfold mark_account_used.
    destruct (mark_used_loop (phone a) success t (accounts self)) as [res accs].
    simpl in *. repeat split; auto.
    now apply cooldown_penalty_used with (t := t).
Qed.

Lemma get_best_account_no_side_effects_witness :
  exists a',
    nth_error
      (accounts (snd (mark_account_used "+200" true 5000
                        (snd (get_best_account 4600 two_account_pool))))) 1
    = Some a'
    /\ last_used a' = Some 5000%Q
    /\ _get_cooldown_penalty 5100 a' = 0.5%Q.
Proof.
  apply (proj2 (proj2 (get_best_account_no_side_effects 4600 two_account_pool))
           1%nat (mk_account "+200" "b.session" None "LIVE" 1 30 0.8 None 0 0 0 0)
           true 5000%Q 5100%Q eq_refl eq_refl).
  - discriminate.
  - reflexivity.
Defined.

End RotatorFacts.

(** ** The distribution planner *)

Module PlannerFacts.
Import Py Notions PyFacts BulkActionScheduler.
Local Open Scope string_scope.
Local Open Scope list_scope.
Local Open Scope Z_scope.

Lemma sum_Z_cons (x : Z) (xs : list Z) : sum_Z (x :: xs) = x + sum_Z xs.
Proof. reflexivity. Qed.

Lemma sum_Z_app (xs ys : list Z) : sum_Z (xs ++ ys) = sum_Z xs + sum_Z ys.
Proof. induction xs as [|x xs IH]; simpl; [reflexivity|]. rewrite IH. lia. Qed.

Lemma sum_targets_cons (slot : time_slot) (slots : list time_slot) :
  sum_targets (slot :: slots) = target_actions slot + sum_targets slots.
Proof. reflexivity. Qed.

(** The unrolling in [_generate_time_slots] covers the whole loop: further
    passes add nothing. *)
Lemma slots_loop_fuel (fuel extra : nat) (current_time : datetime)
  (remaining_hours : Q) (a : Z) (peak : list Z) :
  Qceiling remaining_hours <= Z.of_nat fuel ->
  slots_loop (fuel + extra) current_time remaining_hours a peak
  = slots_loop fuel current_time remaining_hours a peak.
Proof.
  revert current_time remaining_hours.
  induction fuel as [|fuel IH]; intros cur rem Hc.
  - assert (Hr : (rem <= 0)%Q).
    { pose proof (Qle_ceiling rem) as H. rewrite Zle_Qle in Hc.
      simpl in Hc. change (inject_Z 0) with 0%Q in Hc. lra. }
    apply Qltb_false in Hr. simpl. destruct extra; simpl; [reflexivity|].
    now rewrite Hr.
  - simpl. destruct (Qltb 0 rem) eqn:E; [|reflexivity].
    f_equal. apply IH.
    apply Qltb_true in E.
    assert (Hle : (rem - Qmin 1 rem <= inject_Z (Z.of_nat fuel))%Q).
    { pose proof (Qle_ceiling rem) as H. rewrite Zle_Qle in Hc.
      rewrite Nat2Z.inj_succ in Hc. unfold Z.succ in Hc.
      rewrite inject_Z_plus in Hc. change (inject_Z 1) with 1%Q in Hc.
      assert (H0 : (0 <= inject_Z (Z.of_nat fuel))%Q).
      { change 0%Q with (inject_Z 0). rewrite <- Zle_Qle. lia. }
      destruct (Q.min_spec 1 rem) as [[_ Hm]|[_ Hm]]; rewrite Hm; lra. }
    apply Qceiling_resp_le in Hle. now rewrite Qceiling_Z in Hle.
Qed.

Lemma slots_loop_duration (fuel : nat) (current_time : datetime)
  (remaining_hours : Q) (a : Z) (peak : list Z) :
  Forall (fun slot => (duration_hours slot <= 1)%Q)
    (slots_loop fuel current_time remaining_hours a peak).
Proof.
  revert current_time remaining_hours.
  induction fuel as [|fuel IH]; intros cur rem; simpl; [constructor|].
  destruct (Qltb 0 rem); constructor; [|apply IH].
  simpl. apply Q.le_min_l.
Qed.

(** No slot asks for more than the peak rate, and the last one for no more
    than what its fraction of an hour holds at the base rate. *)
Lemma slots_loop_sum (fuel : nat) (current_time : datetime)
  (remaining_hours : Q) (a : Z) (peak : list Z) :
  0 <= a -> (0 <= remaining_hours)%Q ->
  (inject_Z (sum_targets (slots_loop fuel current_time remaining_hours a peak))
   <= 1.2 * remaining_hours * inject_Z a)%Q.
Proof.
  intros Ha. assert (HA : (0 <= inject_Z a)%Q).
  { change 0%Q with (inject_Z 0). now rewrite <- Zle_Qle. }
  assert (Hnil : forall rem, (0 <= rem)%Q ->
            (inject_Z (sum_targets []) <= 1.2 * rem * inject_Z a)%Q).
  { intros rem Hr. change (inject_Z (sum_targets [])) with 0%Q. nra. }
  revert current_time remaining_hours.
  induction fuel as [|fuel IH]; intros cur rem Hr; cbn [slots_loop].
  - now apply Hnil.
  - destruct (Qltb 0 rem) eqn:E; [|now apply Hnil].
    rewrite sum_targets_cons. cbn [target_actions].
    rewrite inject_Z_plus.
    set (slot_actions := if is_in (hour cur) peak
                         then int (inject_Z a * 1.2) else int (inject_Z a * 0.8)).
    assert (Hsa : (inject_Z slot_actions <= 1.2 * inject_Z a)%Q).
    { unfold slot_actions. destruct (is_in (hour cur) peak).
      - pose proof (@int_le (inject_Z a * 1.2)) as H. lra.
      - pose proof (@int_le (inject_Z a * 0.8)) as H. lra. }
    assert (Hcl : (inject_Z (int (rem * inject_Z a)) <= rem * inject_Z a)%Q).
    { apply int_le. nra. }
    assert (Hmin1 : (inject_Z (Z.min slot_actions (int (rem * inject_Z a)))
                     <= inject_Z slot_actions)%Q).
    { rewrite <- Zle_Qle. apply Z.le_min_l. }
    assert (Hmin2 : (inject_Z (Z.min slot_actions (int (rem * inject_Z a)))
                     <= inject_Z (int (rem * inject_Z a)))%Q).
    { rewrite <- Zle_Qle. apply Z.le_min_r. }
    destruct (Q.min_spec 1 rem) as [[Hlt Hm]|[Hge Hm]].
    + assert (Hrem : (0 <= rem - Qmin 1 rem)%Q) by (rewrite Hm; lra).
      specialize (IH (cur + timedelta_hours 1) _ Hrem).
      assert (Hb : (1.2 * (rem - Qmin 1 rem) * inject_Z a
                    == 1.2 * (rem - 1) * inject_Z a)%Q) by (now rewrite Hm).
      apply Qltb_true in E. nra.
    + assert (Hrem : (0 <= rem - Qmin 1 rem)%Q) by (rewrite Hm; lra).
      specialize (IH (cur + timedelta_hours 1) _ Hrem).
      assert (Hb : (1.2 * (rem - Qmin 1 rem) * inject_Z a == 0)%Q)
        by (rewrite Hm; ring).
      apply Qltb_true in E. nra.
Qed.

Lemma sum_range (q r : Z) (k : nat) :
  0 <= r ->
  sum_Z (map (fun i => q + (if i <? r then 1 else 0)) (map Z.of_nat (seq 0 k)))
  = Z.of_nat k * q + Z.min (Z.of_nat k) r.
Proof.
  intros Hr. induction k as [|k IH]; [simpl; lia|].
  rewrite seq_S, !map_app, sum_Z_app, IH. cbn [map sum_Z fold_right Nat.add].
  rewrite Nat2Z.inj_succ.
  destruct (Z.of_nat k <? r) eqn:E;
    [apply Z.ltb_lt in E|apply Z.ltb_ge in E]; lia.
Qed.

Lemma range_length (n : Z) : List.length (range n) = Z.to_nat n.
Proof. unfold range. now rewrite length_map, length_seq. Qed.

Lemma range_nth (n i : Z) :
  0 <= i < n -> nth_error (range n) (Z.to_nat i) = Some i.
Proof.
  intros Hi. unfold range. rewrite nth_error_map, nth_error_seq.
  destruct (Z.to_nat i <? Z.to_nat n)%nat eqn:E.
  - simpl. f_equal. lia.
  - apply Nat.ltb_ge in E. lia.
Qed.

Lemma range_In (n i : Z) : In i (range n) -> 0 <= i < n.
Proof.
  unfold range. rewrite in_map_iff. intros (k & <- & Hk).
  apply in_seq in Hk. lia.
Qed.

(** The [for i in range(accounts_count)] loop, when the hourly rate of an
    account is not zero. *)
Lemma distribution_loop_ok (indices : list Z) (start q r a : Z)
  (peak : list Z) (s : scheduler) :
  a <> 0 ->
  exists plan,
    distribution_loop indices start q r a peak s = (Ok plan, s)
    /\ map users_count plan
       = map (fun i => q + (if i <? r then 1 else 0)) indices
    /\ Forall (fun d =>
         In (account_index d) indices
         /\ users_count d = q + (if account_index d <? r then 1 else 0)
         /\ actions_per_hour d = a
         /\ hours_needed d = (inject_Z (users_count d) / inject_Z a)%Q
         /\ time_slots d
            = _generate_time_slots (start_time d) (hours_needed d) a peak) plan.
Proof.
  intros Ha. induction indices as [|i indices IH].
  - exists []. simpl. repeat split. constructor.
  - destruct IH as (plan & Hrun & Hmap & Hall).
    cbn [distribution_loop]. unfold bind at 1. unfold lift, truediv.
    destruct (a =? 0) eqn:E; [apply Z.eqb_eq in E; contradiction|].
    unfold bind at 1. rewrite Hrun. unfold ret.
    eexists. split; [reflexivity|]. split; [simpl; now rewrite Hmap|].
    constructor.
    + simpl. repeat split; auto.
    + eapply Forall_impl; [|exact Hall].
      simpl. intros d (H1 & H2). split; [now right|exact H2].
Qed.

Section Planner.
Variable env : collaborators.

(** The plan of [_calculate_distribution] on a known zone, [1 <= n <= u]
    and a budget of at least [n] actions per hour. *)
Lemma _calculate_distribution_ok (u n budget : Z) (tz : string) (now : datetime)
  (s : scheduler) :
  1 <= u -> 1 <= n <= u -> n <= budget -> pytz_known env tz = true ->
  exists plan,
    _calculate_distribution env u n budget tz now s = (Ok plan, s)
    /\ map users_count plan
       = map (fun i => u / n + (if i <? u mod n then 1 else 0)) (range n)
    /\ Forall (fun d =>
         0 <= users_count d
         /\ 1 <= actions_per_hour d
         /\ hours_needed d
            = (inject_Z (users_count d) / inject_Z (actions_per_hour d))%Q
         /\ time_slots d
            = _generate_time_slots (start_time d) (hours_needed d)
                (actions_per_hour d) (_get_peak_hours tz)) plan.
Proof.
  intros Hu Hn Hb Hz.
  assert (Ha : 1 <= budget / n) by (apply Z.div_le_lower_bound; lia).
  destruct (@distribution_loop_ok (range n) now (u / n) (u mod n) (budget / n)
              (_get_peak_hours tz) s ltac:(lia)) as (plan & Hrun & Hmap & Hall).
  exists plan. split; [|split; [exact Hmap|]].
  - unfold _calculate_distribution, pytz_timezone. rewrite Hz.
    unfold bind at 1. unfold ret at 1.
    unfold bind at 1. unfold lift at 1. unfold floordiv at 1.
    destruct (n =? 0) eqn:E; [apply Z.eqb_eq in E; lia|].
    unfold bind at 1. unfold lift at 1. unfold floordiv at 1. rewrite E.
    exact Hrun.
  - eapply Forall_impl; [|exact Hall].
    simpl. intros d (_ & Hc & Hr & Hh & Hs). rewrite Hr.
    repeat split; auto; try lia.
    assert (0 <= u / n) by (apply Z.div_pos; lia).
    rewrite Hc. destruct (account_index d <? u mod n); lia.
Qed.

(** C7, as the code has it. For [userCount >= 1], [1 <= n <= userCount], a
    zone [pytz] knows and an hourly budget of at least [n] (or below zero),
    the planner returns a plan of [n] allocations, their [users_count]
    fields sum to [userCount], and allocation [i] gets [userCount // n]
    users and one more when [i < userCount % n].  With a budget from 0 up
    to [n - 1] the hourly rate of an account, [accounts_per_hour // n], is
    0 and the planner raises [ZeroDivisionError] on [hours_needed]; with a
    zone [pytz] does not know it raises [UnknownTimeZoneError].  No plan
    is returned then, and nothing is written in any of the cases. *)
Theorem plan_splits_users (u n budget : Z) (tz : string) (now : datetime)
  (s : scheduler) :
  1 <= u -> 1 <= n <= u ->
  (pytz_known env tz = true -> budget < 0 \/ n <= budget ->
   exists plan,
     _calculate_distribution env u n budget tz now s = (Ok plan, s)
     /\ len plan = n
     /\ sum_users plan = u
     /\ forall i, 0 <= i < n ->
          exists d, nth_error plan (Z.to_nat i) = Some d
                    /\ users_count d = u / n + (if i <? u mod n then 1 else 0))
  /\ (pytz_known env tz = true -> 0 <= budget < n ->
      _calculate_distribution env u n budget tz now s
      = (Raise ZeroDivisionError, s))
  /\ (pytz_known env tz = false ->
      _calculate_distribution env u n budget tz now s
      = (Raise (UnknownTimeZoneError tz), s)).
Proof.
  intros Hu Hn.
  assert (Hrun : pytz_known env tz = true ->
            _calculate_distribution env u n budget tz now s
            = distribution_loop (range n) now (u / n) (u mod n) (budget / n)
                (_get_peak_hours tz) s).
  { intros Hz. unfold _calculate_distribution, pytz_timezone. rewrite Hz.
    unfold bind at 1. unfold ret at 1.
    unfold bind at 1. unfold lift at 1. unfold floordiv at 1.
    destruct (n =? 0) eqn:E; [apply Z.eqb_eq in E; lia|].
    unfold bind at 1. unfold lift at 1. unfold floordiv at 1. rewrite E.
    reflexivity. }
  split; [|split].
  - intros Hz Hb. rewrite (Hrun Hz).
    assert (Ha : budget / n <> 0).
    { destruct Hb as [Hb|Hb].
      - assert (budget / n < 0) by (apply Z.div_lt_upper_bound; lia). lia.
      - assert (1 <= budget / n) by (apply Z.div_le_lower_bound; lia). lia. }
    destruct (@distribution_loop_ok (range n) now (u / n) (u mod n) (budget / n)
                (_get_peak_hours tz) s Ha) as (plan & Hloop & Hmap & _).
    exists plan. split; [exact Hloop|]. repeat split.
    + unfold len.
      rewrite <- (length_map users_count), Hmap, length_map, range_length.
      lia.
    + unfold sum_users. rewrite Hmap. unfold range. rewrite sum_range.
      * pose proof (Z.mod_pos_bound u n ltac:(lia)).
        pose proof (Z.div_mod u n ltac:(lia)). nia.
      * apply Z.mod_pos_bound. lia.
    + intros i Hi.
      pose proof (range_nth Hi) as Hr.
      apply (map_nth_error (fun i => u / n + (if i <? u mod n then 1 else 0))) in Hr.
      rewrite <- Hmap, nth_error_map in Hr.
      destruct (nth_error plan (Z.to_nat i)) as [d|]; [|discriminate].
      exists d. split; [reflexivity|]. simpl in Hr. congruence.
  - intros Hz Hb. rewrite (Hrun Hz).
    rewrite (Z.div_small budget n) by lia.
    unfold range.
    destruct (Z.to_nat n) as [|m] eqn:En; [lia|].
    cbn [seq map distribution_loop].
    unfold bind, lift, truediv. reflexivity.
  - intros Hz. unfold _calculate_distribution, pytz_timezone. rewrite Hz.
    reflexivity.
Qed.

End Planner.

Lemma plan_splits_users_witness :
  exists plan,
    _calculate_distribution all_succeed 5 2 4 "UTC" 32400 one_account
    = (Ok plan, one_account)
    /\ len plan = 2
    /\ sum_users plan = 5
    /\ forall i, 0 <= i < 2 ->
         exists d, nth_error plan (Z.to_nat i) = Some d
                   /\ users_count d = 5 / 2 + (if i <? 5 mod 2 then 1 else 0).
Proof.
  apply (proj1 (@plan_splits_users all_succeed 5 2 4 "UTC" 32400 one_account
                  ltac:(lia) ltac:(lia)));
    [reflexivity | right; lia].
Defined.

(** C7, as stated, fails. Three users for two accounts are inside the
    domain of the claim; at a budget of one action per hour the rate of an
    account is [1 // 2 = 0], the planner raises [ZeroDivisionError] and
    there is no plan whose allocations could be counted. *)
Lemma low_budget_gives_no_plan :
  1 <= 3 /\ 1 <= 2 <= 3
  /\ _calculate_distribution all_succeed 3 2 1 "UTC" 32400 one_account
     = (Raise ZeroDivisionError, one_account)
  /\ ~ (exists plan,
          fst (_calculate_distribution all_succeed 3 2 1 "UTC" 32400 one_account)
          = Ok plan).
Proof.
  split; [lia|]. split; [lia|]. split; [reflexivity|].
  intros (plan & H). vm_compute in H. discriminate.
Qed.

Section Slots.
Variable env : collaborators.

(** C2, as the code has it. For every allocation of the plan, no slot lasts
    more than one hour, and the targets of its slots sum to at most 1.2
    times [hours_needed * actions_per_hour]: a slot in a peak hour asks for
    1.2 times the base rate, and only the last slot is cut down to what is
    left of the allocation. *)
Theorem slots_within_peak_rate (u n budget : Z) (tz : string) (now : datetime)
  (s : scheduler) :
  1 <= u -> 1 <= n <= u -> n <= budget -> pytz_known env tz = true ->
  exists plan,
    _calculate_distribution env u n budget tz now s = (Ok plan, s)
    /\ forall d, In d plan ->
         (inject_Z (sum_targets (time_slots d))
          <= 1.2 * hours_needed d * inject_Z (actions_per_hour d))%Q
         /\ Forall (fun slot => (duration_hours slot <= 1)%Q) (time_slots d).
Proof.
  intros Hu Hn Hb Hz.
  destruct (_calculate_distribution_ok env tz now s Hu Hn Hb Hz)
    as (plan & Hrun & _ & Hall).
  exists plan. split; [exact Hrun|].
  intros d Hd. rewrite Forall_forall in Hall.
  destruct (Hall d Hd) as (Hc & Ha & Hh & Hs).
  rewrite Hs. unfold _generate_time_slots. split.
  - apply slots_loop_sum; [lia|].
    rewrite Hh. apply Qle_shift_div_l.
    + change 0%Q with (inject_Z 0). rewrite <- Zlt_Qlt. lia.
    + rewrite Qmult_0_l. change 0%Q with (inject_Z 0). rewrite <- Zle_Qle. lia.
  - apply slots_loop_duration.
Qed.

End Slots.

Lemma slots_within_peak_rate_witness :
  exists plan,
    _calculate_distribution all_succeed 20 1 10 "UTC" 32400 one_account
    = (Ok plan, one_account)
    /\ forall d, In d plan ->
         (inject_Z (sum_targets (time_slots d))
          <= 1.2 * hours_needed d * inject_Z (actions_per_hour d))%Q
         /\ Forall (fun slot => (duration_hours slot <= 1)%Q) (time_slots d).
Proof.
  apply (@slots_within_peak_rate all_succeed 20 1 10 "UTC" 32400 one_account);
    [lia | lia | lia | reflexivity].
Defined.

(** C2, as stated, fails. Twenty users for one account at ten actions per
    hour, planned at 09:00 in zone UTC: [hours_needed] is 2, both slots are in
    peak hours, the first asks for 12 actions and the second for 10, which
    is 22, above [ceil(2 * 10) = 20]. *)
Lemma peak_slots_overshoot :
  exists d,
    fst (_calculate_distribution all_succeed 20 1 10 "UTC" 32400 one_account)
    = Ok [d]
    /\ map target_actions (time_slots d) = [12; 10]
    /\ ~ (sum_targets (time_slots d)
          <= Qceiling (hours_needed d * inject_Z (actions_per_hour d))).
Proof.
  eexists. split; [vm_compute; reflexivity|].
  split; [reflexivity|]. vm_compute. intros H. apply H. reflexivity.
Qed.

Lemma no_live_filter (accs : list AccountRotator.account) :
  (forall a, In a accs -> AccountRotator.status a <> "LIVE") ->
  filter AccountRotator.is_live accs = [].
Proof.
  intros H. induction accs as [|a accs IH]; [reflexivity|]. simpl.
  destruct (AccountRotator.is_live a) eqn:E.
  - unfold AccountRotator.is_live in E. apply String.eqb_eq in E.
    exfalso. apply (H a); [now left|exact E].
  - apply IH. intros b Hb. apply H. now right.
Qed.

Section Schedule.
Variable env : collaborators.

(** C4, as the code has it. When no account of the pool is LIVE,
    [schedule_add_members] raises to its caller and registers no task: the
    scheduler is left as it was.  The code has no error of its own for the
    want of accounts: the zone is looked up first, so for a zone [pytz]
    does not know the exception is [UnknownTimeZoneError], and otherwise it
    is the [ZeroDivisionError] of [total_users // accounts_count] with
    [accounts_count = 0]. *)
Theorem schedule_without_live_account (s : scheduler) (group : string)
  (users : list string) (accounts_per_hour : Z) (tz : string) (now : datetime) :
  (forall a, In a (AccountRotator.accounts (account_rotator s)) ->
     AccountRotator.status a <> "LIVE") ->
  schedule_add_members env group users accounts_per_hour tz now s
  = (Raise (if pytz_known env tz then ZeroDivisionError
            else UnknownTimeZoneError tz), s).
Proof.
  intros Hlive. apply no_live_filter in Hlive.
  destruct s as [rot tasks running log].
  unfold schedule_add_members, bind, on_rotator, AccountRotator.get_account_stats,
    Py.bind, get, ret, _calculate_distribution, pytz_timezone, bind.
  simpl in *. rewrite Hlive. simpl.
  assert (Hmin : Z.min (len users) 0 = 0) by (unfold len; lia).
  rewrite Hmin.
  destruct (pytz_known env tz); reflexivity.
Qed.

End Schedule.

Lemma schedule_without_live_account_witness :
  schedule_add_members all_succeed "group" ["u1"; "u2"] 200 "UTC" 0 no_account
  = (Raise ZeroDivisionError, no_account).
Proof.
  apply (@schedule_without_live_account all_succeed no_account
           "group" ["u1"; "u2"] 200 "UTC" 0).
  simpl. tauto.
Defined.

(** C4, as stated, fails. With an empty pool and a zone [pytz] does not
    know, the caller gets the error of the zone, not one about accounts;
    with a zone it knows the caller gets [ZeroDivisionError], the exception
    it also gets with two LIVE accounts and a budget of one action per
    hour, so the exception does not tell that accounts are wanting. *)
Lemma no_account_error_names_no_capacity :
  schedule_add_members all_succeed "group" ["u1"; "u2"] 200 "Mars/Olympus" 0
    no_account
  = (Raise (UnknownTimeZoneError "Mars/Olympus"), no_account)
  /\ schedule_add_members all_succeed "group" ["u1"; "u2"] 200 "UTC" 0 no_account
     = (Raise ZeroDivisionError, no_account)
  /\ schedule_add_members all_succeed "group" ["u1"; "u2"] 1 "UTC" 0
       (mk_scheduler fresh_pair [] [] [])
     = (Raise ZeroDivisionError, mk_scheduler fresh_pair [] [] []).
Proof.
  split; [reflexivity|]. split; reflexivity.
Qed.

End PlannerFacts.

(** ** The task registry *)

Module RegistryFacts.
Import Py Notions PyFacts BulkActionScheduler.
Local Open Scope string_scope.
Local Open Scope list_scope.
Local Open Scope Z_scope.

Lemma find_task_nth (task_id : string) (tasks : list task) (k r : nat) :
  find_task task_id k tasks = Some r ->
  (k <= r)%nat /\ exists t, nth_error tasks (r - k) = Some t /\ id t = task_id.
Proof.
  revert k. induction tasks as [|t tasks IH]; intros k; simpl; [discriminate|].
  destruct (id t =? task_id)%string eqn:E.
  - intros H. injection H as <-. split; [lia|]. rewrite Nat.sub_diag.
    apply String.eqb_eq in E. simpl. eauto.
  - intros H. destruct (IH _ H) as (Hle & t' & Hn & Hid).
    split; [lia|]. replace (r - k)%nat with (S (r - S k)) by lia. simpl. eauto.
Qed.

Lemma find_task_fresh (task_id : string) (tasks : list task) (t : task) (k : nat) :
  find_task task_id k tasks = None -> id t = task_id ->
  find_task task_id k (tasks ++ [t]) = Some (k + List.length tasks)%nat.
Proof.
  revert k. induction tasks as [|t' tasks IH]; intros k; simpl.
  - intros _ ->. rewrite String.eqb_refl. f_equal. lia.
  - destruct (id t' =? task_id)%string; [discriminate|].
    intros H Hid. rewrite (IH _ H Hid). f_equal. lia.
Qed.

(** [get_task_status] writes nothing, and raises exactly on a task whose
    [total_actions] is zero. *)
Lemma get_task_status_cases (s : scheduler) (task_id : string) (ref : task_ref)
  (t : task) :
  find_task task_id 0 (scheduled_tasks s) = Some ref ->
  nth_error (scheduled_tasks s) ref = Some t ->
  (total_actions t = 0 -> get_task_status task_id s = (Raise ZeroDivisionError, s))
  /\ (total_actions t <> 0 ->
      exists report, get_task_status task_id s = (Ok (Some report), s)
                     /\ report_progress report = progress t
                     /\ report_total_actions report = total_actions t).
Proof.
  intros Hf Hn.
  unfold get_task_status, _get_task, read_task, bind, get, ret, lift, truediv.
  rewrite Hf, Hn. split; intros H.
  - now rewrite H.
  - destruct (total_actions t =? 0) eqn:E; [apply Z.eqb_eq in E; contradiction|].
    eexists. split; [reflexivity|]. split; reflexivity.
Qed.

Section Registry.
Variable env : collaborators.

(** C9. A bulk-scrape task can be scheduled on an empty source list; its
    [total_actions] is zero; [get_task_status] on its id raises
    [ZeroDivisionError] and leaves the scheduler as it was, so every later
    call raises too.  On a task with [total_actions] not zero
    [get_task_status] returns a report. *)
Theorem empty_scrape_status_raises (s : scheduler) (accounts_per_hour : Z)
  (tz : string) (now : datetime) :
  pytz_known env tz = true ->
  accounts_per_hour <> 0 ->
  find_task ("bulk_scrape_" ++ strftime env now)%string 0 (scheduled_tasks s) = None ->
  exists task_id s' ref t,
    schedule_bulk_scrape env [] accounts_per_hour tz now s = (Ok task_id, s')
    /\ find_task task_id 0 (scheduled_tasks s') = Some ref
    /\ nth_error (scheduled_tasks s') ref = Some t
    /\ type t = BULK_SCRAPE [] []
    /\ total_actions t = 0
    /\ (forall calls_made : nat,
          let s_k := Nat.iter calls_made
                       (fun st => snd (get_task_status task_id st)) s' in
          get_task_status task_id s_k = (Raise ZeroDivisionError, s_k))
    /\ (forall st id' ref' t',
          find_task id' 0 (scheduled_tasks st) = Some ref' ->
          nth_error (scheduled_tasks st) ref' = Some t' ->
          total_actions t' <> 0 ->
          exists report, get_task_status id' st = (Ok (Some report), st)).
Proof.
  intros Hz Ha Hfresh.
  set (task_id := ("bulk_scrape_" ++ strftime env now)%string).
  set (t := mk_task task_id (BULK_SCRAPE [] []) tz now "SCHEDULED" 0 0
              None None None).
  set (s' := mk_scheduler (account_rotator s) (scheduled_tasks s ++ [t])
               (running_tasks s) (calls s)).
  assert (Hrun : schedule_bulk_scrape env [] accounts_per_hour tz now s
                 = (Ok task_id, s')).
  { unfold schedule_bulk_scrape, _calculate_scrape_distribution, pytz_timezone,
      bind, ret, lift, floordiv, append_task, modify.
    rewrite Hz. simpl.
    destruct (accounts_per_hour =? 0) eqn:E; [apply Z.eqb_eq in E; contradiction|].
    rewrite Z.div_0_l by exact Ha. reflexivity. }
  assert (Hf : find_task task_id 0 (scheduled_tasks s')
               = Some (List.length (scheduled_tasks s)))
    by (apply (@find_task_fresh task_id _ t 0%nat Hfresh); reflexivity).
  assert (Hn : nth_error (scheduled_tasks s') (List.length (scheduled_tasks s))
               = Some t).
  { simpl. rewrite nth_error_app2 by lia. now rewrite Nat.sub_diag. }
  destruct (@get_task_status_cases s' _ _ _ Hf Hn) as [Hraise _].
  specialize (Hraise eq_refl).
  exists task_id, s', (List.length (scheduled_tasks s)), t.
  repeat split; auto.
  - intros k. simpl.
    assert (Hk : Nat.iter k (fun st => snd (get_task_status task_id st)) s' = s').
    { induction k as [|k IH]; [reflexivity|]. simpl. rewrite IH.
      now rewrite Hraise. }
    rewrite Hk. exact Hraise.
  - intros st id' ref' t' Hf' Hn' Ht'.
    destruct (@get_task_status_cases st _ _ _ Hf' Hn') as [_ Hok].
    destruct (Hok Ht') as (report & Hr & _). eauto.
Qed.

End Registry.

Lemma empty_scrape_status_raises_witness :
  exists task_id s' ref t,
    schedule_bulk_scrape all_succeed [] 100 "UTC" 0 one_account = (Ok task_id, s')
    /\ find_task task_id 0 (scheduled_tasks s') = Some ref
    /\ nth_error (scheduled_tasks s') ref = Some t
    /\ type t = BULK_SCRAPE [] []
    /\ total_actions t = 0
    /\ (forall calls_made : nat,
          let s_k := Nat.iter calls_made
                       (fun st => snd (get_task_status task_id st)) s' in
          get_task_status task_id s_k = (Raise ZeroDivisionError, s_k))
    /\ (forall st id' ref' t',
          find_task id' 0 (scheduled_tasks st) = Some ref' ->
          nth_error (scheduled_tasks st) ref' = Some t' ->
          total_actions t' <> 0 ->
          exists report, get_task_status id' st = (Ok (Some report), st)).
Proof.
  apply (@empty_scrape_status_raises all_succeed one_account 100 "UTC" 0);
    [reflexivity | lia | reflexivity].
Defined.

End RegistryFacts.

(** ** The executor *)

Module ExecutorFacts.
Import Py Notions PyFacts BulkActionScheduler.
Local Open Scope string_scope.
Local Open Scope list_scope.
Local Open Scope Z_scope.

Lemma update_nth_ext {A} (f g : A -> A) (n : nat) (xs : list A) :
  (forall x, f x = g x) -> update_nth n f xs = update_nth n g xs.
Proof.
  intros H. revert n. induction xs as [|x xs IH]; intros [|n]; simpl;
    try reflexivity.
  - now rewrite H.
  - now rewrite IH.
Qed.

Lemma update_nth_id {A} (f : A -> A) (n : nat) (xs : list A) :
  (forall x, f x = x) -> update_nth n f xs = xs.
Proof.
  intros H. revert n. induction xs as [|x xs IH]; intros [|n]; simpl;
    try reflexivity.
  - now rewrite H.
  - now rewrite IH.
Qed.

Lemma update_nth_twice {A} (f g : A -> A) (n : nat) (xs : list A) :
  update_nth n g (update_nth n f xs) = update_nth n (fun x => g (f x)) xs.
Proof.
  revert n. induction xs as [|x xs IH]; intros [|n]; simpl; try reflexivity.
  now rewrite IH.
Qed.

Lemma nth_error_update_nth {A} (f : A -> A) (n : nat) (xs : list A) :
  nth_error (update_nth n f xs) n = option_map f (nth_error xs n).
Proof.
  revert n. induction xs as [|x xs IH]; intros [|n]; simpl; try reflexivity.
  apply IH.
Qed.

Lemma add_progress_0 (t : task) : add_progress 0 t = t.
Proof. destruct t. unfold add_progress, set_progress. simpl. now rewrite Z.add_0_r. Qed.

Lemma add_progress_add (j k : Z) (t : task) :
  add_progress k (add_progress j t) = add_progress (j + k) t.
Proof.
  destruct t. unfold add_progress, set_progress. simpl. now rewrite Z.add_assoc.
Qed.

Lemma count_ok_app (e1 e2 : list event) :
  count_ok (e1 ++ e2) = count_ok e1 + count_ok e2.
Proof. unfold count_ok. rewrite map_app. apply PlannerFacts.sum_Z_app. Qed.

Lemma ran_nil (ref : task_ref) (s : scheduler) : ran ref [] s s.
Proof.
  unfold ran. rewrite app_nil_r. repeat split.
  symmetry. apply update_nth_id, add_progress_0.
Qed.

Lemma ran_app (ref : task_ref) (e1 e2 : list event) (s s' s'' : scheduler) :
  ran ref e1 s s' -> ran ref e2 s' s'' -> ran ref (e1 ++ e2) s s''.
Proof.
  intros (Ha & Hr & Hc & Ht) (Ha' & Hr' & Hc' & Ht').
  unfold ran. rewrite Ha', Hr', Hc', Ht', Ha, Hr, Hc, Ht, app_assoc.
  repeat split. rewrite update_nth_twice, count_ok_app.
  apply update_nth_ext. intros t. apply add_progress_add.
Qed.

(** A loop whose every pass returns and records calls of a kind closed
    under concatenation does the same as a whole. *)
Lemma for_each_ran {A} (P : list event -> Prop) (ref : task_ref)
  (xs : list A) (body : A -> M scheduler unit) :
  P [] ->
  (forall e1 e2, P e1 -> P e2 -> P (e1 ++ e2)) ->
  (forall x s, exists evs s', body x s = (Ok tt, s') /\ ran ref evs s s' /\ P evs) ->
  forall s, exists evs s',
    for_each xs body s = (Ok tt, s') /\ ran ref evs s s' /\ P evs.
Proof.
  intros Hnil Happ Hbody. induction xs as [|x xs IH]; intros s.
  - exists [], s. split; [reflexivity|]. split; [apply ran_nil|exact Hnil].
  - destruct (Hbody x s) as (e1 & s1 & H1 & R1 & P1).
    destruct (IH s1) as (e2 & s2 & H2 & R2 & P2).
    exists (e1 ++ e2), s2. simpl. unfold bind. rewrite H1, H2.
    split; [reflexivity|]. split; [eapply ran_app; eauto|auto].
Qed.

Lemma rotator_get_best_account (now : Q) (rot : AccountRotator.rotator) :
  exists r, AccountRotator.get_best_account now rot = (Ok r, rot).
Proof.
  destruct (RotatorFacts.get_best_account_cases now rot)
    as [[_ H]|(l1 & r & a & l2 & _ & _ & _ & H)]; rewrite H; eauto.
Qed.

Section Executor.
Variable env : collaborators.

(** The scheduler's call of [get_best_account] returns, writes nothing to
    the rotator and is recorded. *)
Lemma get_best_account_ran (ref : task_ref) (s : scheduler) :
  exists r s',
    get_best_account env s = (Ok r, s')
    /\ ran ref [call_get_best_account r] s s'.
Proof.
  destruct s as [rot tasks running log].
  destruct (rotator_get_best_account (time_time env (List.length log)) rot)
    as (r & Hr).
  exists r. eexists. split.
  - unfold get_best_account, bind, get, on_rotator, record_call, modify, ret.
    simpl. rewrite Hr. reflexivity.
  - unfold ran. simpl. repeat split.
    symmetry. apply update_nth_id, add_progress_0.
Qed.

Section Task.
Variables (ref : task_ref) (group : string) (users : list string).

(** One unit of work: the call is recorded, and the progress moves when it
    returns; an exception is caught. *)
Lemma unit_ran (a : AccountRotator.acc_ref) (action_num : Z) (s : scheduler) :
  exists evs s',
    try_except
      (bind (item users action_num) (fun user =>
         bind (add_single_member env a group user) (fun _ =>
           update_task ref (fun task => set_progress task (progress task + 1)))))
      (fun e => ret tt) s
    = (Ok tt, s')
    /\ ran ref evs s s'
    /\ Forall (made_with env a) evs.
Proof.
  destruct s as [rot tasks running log].
  unfold try_except, bind, item.
  destruct (nth_error users (Z.to_nat action_num)) as [user|].
  - unfold add_single_member, bind, get, record_call, modify, lift, ret. simpl.
    destruct (_add_single_member env (List.length log) a group user)
      as [[]|e] eqn:E.
    + eexists [_], _. split; [reflexivity|]. split.
      * unfold ran. simpl. repeat split.
      * constructor; [|constructor].
        exists (List.length log), group, user. now rewrite E.
    + eexists [_], _. split; [reflexivity|]. split.
      * unfold ran. simpl. repeat split.
        symmetry. apply update_nth_id, add_progress_0.
      * constructor; [|constructor].
        exists (List.length log), group, user. now rewrite E.
  - exists [], (mk_scheduler rot tasks running log).
    split; [reflexivity|]. split; [apply ran_nil|constructor].
Qed.

(** One allocation: one selection, then the units of its slots with the
    account selected. *)
Lemma allocation_ran (account_dist : account_distribution) (s : scheduler) :
  exists r units s',
    bind (get_best_account env) (fun account =>
      match account with
      | None => ret tt
      | Some account =>
        for_each (time_slots account_dist) (fun time_slot =>
          for_each (range (target_actions time_slot)) (fun action_num =>
            try_except
              (bind (item users action_num) (fun user =>
                 bind (add_single_member env account group user) (fun _ =>
                   update_task ref
                     (fun task => set_progress task (progress task + 1)))))
              (fun e => ret tt)))
      end) s
    = (Ok tt, s')
    /\ ran ref (call_get_best_account r :: units) s s'
    /\ match r with
       | Some a => Forall (made_with env a) units
       | None => units = []
       end.
Proof.
  destruct (get_best_account_ran ref s) as (r & s1 & Hsel & Rsel).
  unfold bind at 1. rewrite Hsel. destruct r as [a|].
  - destruct (@for_each_ran _ (Forall (made_with env a)) ref
                (time_slots account_dist)
                (fun time_slot =>
                   for_each (range (target_actions time_slot)) (fun action_num =>
                     try_except
                       (bind (item users action_num) (fun user =>
                          bind (add_single_member env a group user) (fun _ =>
                            update_task ref
                              (fun task => set_progress task (progress task + 1)))))
                       (fun e => ret tt)))) with (s := s1)
      as (units & s2 & Hrun & Rrun & Hunits).
    + constructor.
    + intros e1 e2 H1 H2. apply Forall_app. auto.
    + intros time_slot s0.
      apply for_each_ran.
      * constructor.
      * intros e1 e2 H1 H2. apply Forall_app. auto.
      * intros action_num s0'. apply unit_ran.
    + exists (Some a), units, s2. split; [exact Hrun|]. split; [|exact Hunits].
      apply (@ran_app ref [_] units s s1 s2); assumption.
  - exists None, [], s1. split; [reflexivity|]. split; [exact Rsel|reflexivity].
Qed.

(** The whole of [_execute_add_members_task]. *)
Lemma _execute_add_members_task_ran (distribution : list account_distribution)
  (s : scheduler) :
  exists evs s',
    _execute_add_members_task env ref group users distribution s = (Ok tt, s')
    /\ ran ref evs s s'
    /\ allocation_blocks env (List.length distribution) evs.
Proof.
  unfold _execute_add_members_task. revert s.
  induction distribution as [|account_dist distribution IH]; intros s.
  - exists [], s. split; [reflexivity|]. split; [apply ran_nil|constructor].
  - destruct (allocation_ran account_dist s) as (r & units & s1 & H1 & R1 & Hr).
    destruct (IH s1) as (rest & s2 & H2 & R2 & Hb).
    exists ((call_get_best_account r :: units) ++ rest), s2.
    cbn [for_each]. unfold bind at 1. rewrite H1, H2.
    split; [reflexivity|]. split; [eapply ran_app; eauto|].
    simpl. destruct r as [a|].
    + now constructor.
    + subst units. simpl. now constructor.
Qed.

End Task.

(** [execute_scheduled_task] on a SCHEDULED add-members task. *)
Lemma execute_add_members_task (s : scheduler) (task_id : string)
  (ref : task_ref) (t : task) (group : string) (users : list string)
  (distribution : list account_distribution) :
  find_task task_id 0 (scheduled_tasks s) = Some ref ->
  nth_error (scheduled_tasks s) ref = Some t ->
  status t = "SCHEDULED" ->
  type t = ADD_MEMBERS group users distribution ->
  exists evs s' t',
    execute_scheduled_task env task_id s = (Ok tt, s')
    /\ account_rotator s' = account_rotator s
    /\ calls s' = calls s ++ evs
    /\ allocation_blocks env (List.length distribution) evs
    /\ nth_error (scheduled_tasks s') ref = Some t'
    /\ status t' = "COMPLETED"
    /\ progress t' = progress t + count_ok evs
    /\ total_actions t' = total_actions t
    /\ id t' = id t.
Proof.
  intros Hf Hn Hs Ht.
  unfold execute_scheduled_task.
  unfold bind at 1. unfold _get_task, bind, get, ret. rewrite Hf.
  unfold read_task, bind, get, ret. rewrite Hn, Hs, Ht.
  rewrite String.eqb_refl. cbn [negb].
  unfold try_except, update_task, now_, set_running, pop_running, modify,
    bind, get, ret. cbn beta iota.
  match goal with
  | |- context [_execute_add_members_task env ref group users distribution ?s3] =>
    destruct (_execute_add_members_task_ran ref group users distribution s3)
      as (evs & s4 & Hrun & (Hrot & _ & Hcalls & Htasks) & Hblocks)
  end.
  rewrite Hrun. cbn beta iota.
  eexists evs, _, _. split; [reflexivity|].
  cbn [account_rotator calls scheduled_tasks] in *.
  split; [exact Hrot|]. split; [exact Hcalls|]. split; [exact Hblocks|].
  rewrite Htasks, !update_nth_twice, nth_error_update_nth, Hn.
  split; [reflexivity|]. simpl. repeat split.
Qed.

Lemma made_with_counts (a : AccountRotator.acc_ref) (units : list event) :
  Forall (made_with env a) units ->
  count_selections units = 0
  /\ ((forall k a g u, exists e, _add_single_member env k a g u = Raise e) ->
      count_ok units = 0).
Proof.
  induction 1 as [|ev units (k & g & u & ->) _ [IHs IHo]];
    [split; reflexivity|].
  split.
  - unfold count_selections in *. simpl. now rewrite IHs.
  - intros Hfail. unfold count_ok in *. simpl.
    destruct (Hfail k a g u) as (e & ->). now rewrite (IHo Hfail).
Qed.

Lemma allocation_blocks_counts (n : nat) (evs : list event) :
  allocation_blocks env n evs ->
  count_selections evs = Z.of_nat n
  /\ ((forall k a g u, exists e, _add_single_member env k a g u = Raise e) ->
      count_ok evs = 0).
Proof.
  induction 1 as [|n rest _ [IHs IHo]|n a units rest Hunits _ [IHs IHo]].
  - split; reflexivity.
  - split.
    + unfold count_selections in *. cbn [map selection].
      rewrite PlannerFacts.sum_Z_cons, IHs. lia.
    + intros Hfail. unfold count_ok in *. simpl. now apply IHo.
  - destruct (made_with_counts Hunits) as [Hs Ho]. split.
    + unfold count_selections in *. cbn [map selection].
      rewrite PlannerFacts.sum_Z_cons, map_app, PlannerFacts.sum_Z_app, Hs, IHs.
      lia.
    + intros Hfail. change (count_ok (call_get_best_account (Some a)
                                        :: units ++ rest))
        with (0 + count_ok (units ++ rest)).
      rewrite count_ok_app, (Ho Hfail), (IHo Hfail). reflexivity.
Qed.


(** C3, as the code has it. When every single-action call raises, executing
    a SCHEDULED add-members task returns, the task is COMPLETED, its
    progress is what it was before the run (0 for a task that was just
    scheduled), no single-action call is recorded as returned, and nothing
    is reported to the rotator. *)
Theorem failing_units_complete_without_progress (s : scheduler)
  (task_id : string) (ref : task_ref) (t : task) (group : string)
  (users : list string) (distribution : list account_distribution) :
  (forall k a g u, exists e, _add_single_member env k a g u = Raise e) ->
  find_task task_id 0 (scheduled_tasks s) = Some ref ->
  nth_error (scheduled_tasks s) ref = Some t ->
  status t = "SCHEDULED" ->
  type t = ADD_MEMBERS group users distribution ->
  exists evs s' t',
    execute_scheduled_task env task_id s = (Ok tt, s')
    /\ nth_error (scheduled_tasks s') ref = Some t'
    /\ status t' = "COMPLETED"
    /\ progress t' = progress t
    /\ total_actions t' = total_actions t
    /\ calls s' = calls s ++ evs
    /\ count_ok evs = 0
    /\ account_rotator s' = account_rotator s.
Proof.
  intros Hfail Hf Hn Hs Ht.
  destruct (execute_add_members_task s task_id Hf Hn Hs Ht)
    as (evs & s' & t' & Hrun & Hrot & Hcalls & Hblocks & Hn' & Hs' & Hp & Hta & _).
  destruct (allocation_blocks_counts Hblocks) as [_ Hok].
  specialize (Hok Hfail).
  exists evs, s', t'. repeat split; auto.
  rewrite Hp, Hok. lia.
Qed.

End Executor.



Lemma failing_units_complete_without_progress_witness :
  exists evs s' t',
    execute_scheduled_task all_fail scheduled_id two_users_scheduled = (Ok tt, s')
    /\ nth_error (scheduled_tasks s') 0 = Some t'
    /\ status t' = "COMPLETED"
    /\ progress t' = 0
    /\ total_actions t' = 2
    /\ calls s' = calls two_users_scheduled ++ evs
    /\ count_ok evs = 0
    /\ account_rotator s' = account_rotator two_users_scheduled.
Proof.
  apply (@failing_units_complete_without_progress all_fail two_users_scheduled
           scheduled_id 0%nat two_users_task "group" ["u1"; "u2"] two_users_plan).
  - intros k a g u. eexists. reflexivity.
  - reflexivity.
  - reflexivity.
  - reflexivity.
  - reflexivity.
Defined.

(** C3, as stated, fails. The task of [two_users_scheduled] has
    [total_actions = 2]; run with single-action calls that always raise it
    ends COMPLETED with [progress = 0]. *)
Lemma failed_units_leave_progress_behind :
  exists t',
    nth_error
      (scheduled_tasks
         (snd (execute_scheduled_task all_fail scheduled_id two_users_scheduled)))
      0 = Some t'
    /\ status t' = "COMPLETED"
    /\ total_actions t' = 2
    /\ progress t' = 0
    /\ progress t' <> total_actions t'.
Proof.
  eexists. split; [vm_compute; reflexivity|]. simpl. repeat split. discriminate.
Qed.

End ExecutorFacts.

(** ** More on the account rotator *)

Module RotatorExtra.
Import Py Notions PyFacts AccountRotator.
Local Open Scope string_scope.
Local Open Scope list_scope.

(** The account returned has the greatest score of the LIVE accounts. *)
Lemma get_best_account_max (now : Q) (self : rotator) (r : acc_ref) (a : account) :
  fst (get_best_account now self) = Ok (Some r) ->
  nth_error (accounts self) r = Some a ->
  status a = "LIVE"
  /\ forall j b, nth_error (accounts self) j = Some b -> status b = "LIVE" ->
       (_calculate_account_score now b <= _calculate_account_score now a)%Q.
Proof.
  intros Hret Ha.
  destruct (RotatorFacts.get_best_account_cases now self)
    as [[_ H]|(l1 & r' & a' & l2 & Hl & H1 & H2 & H)];
    rewrite H in Hret; simpl in Hret; [discriminate|].
  injection Hret as ->.
  assert (Hx : In (r, a') (live_accounts self)) by (rewrite Hl; apply in_elt).
  apply RotatorFacts.live_accounts_In in Hx as [Hn Hlive].
  rewrite Ha in Hn. injection Hn as <-.
  split; [exact Hlive|]. intros j b Hb Hbl.
  assert (Hj : In (j, b) (live_accounts self))
    by (apply RotatorFacts.live_accounts_In; auto).
  rewrite Forall_forall in H1, H2.
  rewrite Hl in Hj. apply in_app_or in Hj as [Hj|[Hj|Hj]].
  - apply H1 in Hj. simpl in Hj. lra.
  - injection Hj as <- <-. lra.
  - apply (H2 _ Hj).
Qed.

Lemma get_best_account_some (now : Q) (self : rotator) (i : acc_ref) (a : account) :
  nth_error (accounts self) i = Some a -> status a = "LIVE" ->
  exists r, fst (get_best_account now self) = Ok (Some r).
Proof.
  intros Ha Hl.
  destruct (RotatorFacts.get_best_account_cases now self)
    as [[Hnil _]|(l1 & r & a' & l2 & _ & _ & _ & H)].
  - assert (Hx : In (i, a) (live_accounts self))
      by (apply RotatorFacts.live_accounts_In; auto).
    rewrite Hnil in Hx. inversion Hx.
  - exists r. now rewrite H.
Qed.

(** X1. [add_account] appends one LIVE account with the default fitness
    values and leaves every position of the pool as it was, whether or not
    the phone is already registered; after it [get_best_account] returns an
    account. *)
Theorem add_account_selectable (phone_ session : string) (proxy_ : option string)
  (now : Q) (self : rotator) :
  fst (add_account phone_ session proxy_ self) = Ok tt
  /\ accounts (snd (add_account phone_ session proxy_ self))
     = accounts self
       ++ [mk_account phone_ session proxy_ "LIVE" 1 30 0.8 None 0 0 0 0]
  /\ (forall i a, nth_error (accounts self) i = Some a ->
        nth_error (accounts (snd (add_account phone_ session proxy_ self))) i
        = Some a)
  /\ exists r,
       fst (get_best_account now (snd (add_account phone_ session proxy_ self)))
       = Ok (Some r).
Proof.
  split; [reflexivity|]. split; [reflexivity|]. split.
  - intros i a Ha. simpl. rewrite nth_error_app1; [exact Ha|].
    apply nth_error_Some. congruence.
  - apply get_best_account_some with (i := List.length (accounts self))
      (a := mk_account phone_ session proxy_ "LIVE" 1 30 0.8 None 0 0 0 0);
      [|reflexivity].
    simpl. rewrite nth_error_app2 by lia. now rewrite Nat.sub_diag.
Qed.

Lemma mark_used_loop_length (phone_ : string) (success : bool) (now : Q)
  (accs : list account) :
  List.length (snd (mark_used_loop phone_ success now accs)) = List.length accs.
Proof.
  induction accs as [|a accs IH]; simpl; [reflexivity|].
  destruct (phone a =? phone_).
  - destruct (truediv _ _); reflexivity.
  - destruct (mark_used_loop phone_ success now accs). simpl in *. now rewrite IH.
Qed.

Lemma mark_used_loop_frame (phone_ : string) (success : bool) (now : Q)
  (accs : list account) (k i : nat) :
  first_with_phone phone_ k accs <> Some (k + i)%nat ->
  nth_error (snd (mark_used_loop phone_ success now accs)) i = nth_error accs i.
Proof.
  revert k i. induction accs as [|a accs IH]; intros k i; simpl; [reflexivity|].
  destruct (phone a =? phone_).
  - intros H. destruct i as [|i]; [rewrite Nat.add_0_r in H; congruence|].
    destruct (truediv _ _); reflexivity.
  - intros H. specialize (IH (S k)).
    destruct (mark_used_loop phone_ success now accs) as [res rest]. simpl in *.
    destruct i as [|i]; [reflexivity|]. simpl. apply IH.
    replace (S (k + i)) with (k + S i)%nat by lia. exact H.
Qed.

(** X2. [mark_account_used] writes to one dict at most, the first of the
    pool with the phone: every other position, an account registered later
    under the same phone included, is as it was, and the pool keeps its
    length.  For a phone that is not in the pool nothing changes and nothing
    is raised. *)
Theorem mark_account_used_frame (phone_ : string) (success : bool) (now : Q)
  (self : rotator) :
  List.length (accounts (snd (mark_account_used phone_ success now self)))
  = List.length (accounts self)
  /\ (forall i, first_with_phone phone_ 0 (accounts self) <> Some i ->
        nth_error (accounts (snd (mark_account_used phone_ success now self))) i
        = nth_error (accounts self) i)
  /\ (first_with_phone phone_ 0 (accounts self) = None ->
      mark_account_used phone_ success now self = (Ok tt, self)).
Proof.
  unfold mark_account_used.
  pose proof (mark_used_loop_length phone_ success now (accounts self)) as Hlen.
  pose proof (@mark_used_loop_frame phone_ success now (accounts self) 0) as Hfr.
  split; [|split].
  - destruct (mark_used_loop phone_ success now (accounts self)). exact Hlen.
  - intros i Hi. specialize (Hfr i Hi).
    destruct (mark_used_loop phone_ success now (accounts self)). exact Hfr.
  - intros Hnone. destruct self as [accs]. simpl in *. clear Hlen Hfr.
    assert (H : forall k, first_with_phone phone_ k accs = None ->
                mark_used_loop phone_ success now accs = (Ok tt, accs)).
    { clear Hnone. induction accs as [|a accs IH]; intros k; simpl; [reflexivity|].
      destruct (phone a =? phone_); [discriminate|].
      intros Hn. now rewrite (IH _ Hn). }
    now rewrite (H _ Hnone).
Qed.

Lemma mark_account_used_frame_witness :
  mark_account_used "+999" true 7 two_account_pool = (Ok tt, two_account_pool).
Proof.
  apply (proj2 (proj2 (mark_account_used_frame "+999" true 7 two_account_pool))).
  reflexivity.
Defined.

Lemma mark_used_loop_found (phone_ : string) (success : bool) (now : Q)
  (accs : list account) (k r : nat) (a : account) :
  first_with_phone phone_ k accs = Some r ->
  nth_error accs (r - k) = Some a ->
  (total_actions a + 1 <> 0)%Z ->
  exists accs',
    mark_used_loop phone_ success now accs = (Ok tt, accs')
    /\ nth_error accs' (r - k)
       = Some (set_success_rate
                 (let used := set_total_actions (set_last_used a (Some now))
                                (total_actions a + 1) in
                  if success
                  then set_successful_actions used (successful_actions a + 1)
                  else used)
                 (inject_Z (successful_actions a + (if success then 1 else 0))
                  / inject_Z (total_actions a + 1))).
Proof.
  revert k. induction accs as [|a0 accs IH]; intros k; simpl; [discriminate|].
  destruct (phone a0 =? phone_).
  - intros H. injection H as <-. rewrite Nat.sub_diag. simpl.
    intros Ha Ht. injection Ha as ->.
    apply Z.eqb_neq in Ht.
    destruct success; unfold truediv; simpl; rewrite Ht;
      (eexists; split; [reflexivity|]); simpl; rewrite ?Z.add_0_r; reflexivity.
  - intros H Ha Ht.
    destruct (@RotatorFacts.mark_used_loop_last_used phone_ success now _ _ _ H)
      as (Hle & _).
    replace (r - k)%nat with (S (r - S k)) in * by lia. simpl in Ha.
    destruct (IH _ H Ha Ht) as (accs' & Hrun & Hn).
    rewrite Hrun. eexists. split; [reflexivity|]. exact Hn.
Qed.

(** X3. On an account whose counters satisfy
    [0 <= successful_actions <= total_actions], [mark_account_used] does not
    raise; it adds one to [total_actions], one to [successful_actions] when
    the action succeeded, sets [last_used] to the clock reading and
    [success_rate] to the quotient of the two new counters, which lies
    between 0 and 1; the counters satisfy the same bounds afterwards and the
    status is untouched. *)
Theorem mark_account_used_counters (phone_ : string) (success : bool) (now : Q)
  (self : rotator) (r : acc_ref) (a : account) :
  first_with_phone phone_ 0 (accounts self) = Some r ->
  nth_error (accounts self) r = Some a ->
  counters_ok a ->
  exists a',
    fst (mark_account_used phone_ success now self) = Ok tt
    /\ nth_error (accounts (snd (mark_account_used phone_ success now self))) r
       = Some a'
    /\ total_actions a' = (total_actions a + 1)%Z
    /\ successful_actions a'
       = (successful_actions a + (if success then 1 else 0))%Z
    /\ counters_ok a'
    /\ (success_rate a'
        == inject_Z (successful_actions a') / inject_Z (total_actions a'))%Q
    /\ (0 <= success_rate a' <= 1)%Q
    /\ last_used a' = Some now
    /\ status a' = status a.
Proof.
  intros Hf Ha [H0 H1].
  rewrite <- (Nat.sub_0_r r) in Ha.
  destruct (@mark_used_loop_found phone_ success now _ _ _ _ Hf Ha ltac:(lia))
    as (accs' & Hrun & Hn).
  rewrite Nat.sub_0_r in Hn.
  unfold mark_account_used. rewrite Hrun. simpl.
  eexists. split; [reflexivity|]. split; [exact Hn|].
  unfold counters_ok.
  assert (Hpos : (0 < inject_Z (total_actions a + 1))%Q).
  { change 0%Q with (inject_Z 0). rewrite <- Zlt_Qlt. lia. }
  assert (Hs0 : (0 <= inject_Z (successful_actions a + (if success then 1 else 0)))%Q).
  { change 0%Q with (inject_Z 0). rewrite <- Zle_Qle. destruct success; lia. }
  assert (Hs1 : (inject_Z (successful_actions a + (if success then 1 else 0))
                 <= inject_Z (total_actions a + 1))%Q).
  { rewrite <- Zle_Qle. destruct success; lia. }
  destruct success; simpl; rewrite ?Z.add_0_r in *; repeat split;
    try lia; try reflexivity;
    try (apply Qle_shift_div_l; [exact Hpos|lra]);
    try (apply Qle_shift_div_r; [exact Hpos|lra]).
Qed.

Lemma mark_account_used_counters_witness :
  exists a',
    fst (mark_account_used "+100" false 5000 two_account_pool) = Ok tt
    /\ nth_error
         (accounts (snd (mark_account_used "+100" false 5000 two_account_pool))) 0
       = Some a'
    /\ total_actions a' = (1 + 1)%Z
    /\ successful_actions a' = (1 + 0)%Z
    /\ counters_ok a'
    /\ (success_rate a'
        == inject_Z (successful_actions a') / inject_Z (total_actions a'))%Q
    /\ (0 <= success_rate a' <= 1)%Q
    /\ last_used a' = Some 5000%Q
    /\ status a' = "LIVE".
Proof.
  apply (@mark_account_used_counters "+100" false 5000 two_account_pool 0%nat
           (mk_account "+100" "a.session" None "LIVE" 1 30 0.8 (Some 1000%Q) 1 1 0 0)
           eq_refl eq_refl).
  unfold counters_ok. simpl. lia.
Defined.

Lemma cooldown_penalty_range (now : Q) (a : account) :
  (0 < _get_cooldown_penalty now a <= 1)%Q.
Proof.
  unfold _get_cooldown_penalty.
  destruct (not_last_used a); [lra|].
  destruct (last_used a) as [t|]; [|lra].
  destruct (Qltb (now - t) 3600); [lra|].
  destruct (Qltb (now - t) 1800); lra.
Qed.

Lemma penalty_range (count : Z) (step : Q) :
  (0 <= count)%Z -> (0 <= step)%Q ->
  (0 <= Qmax 0 (1 - inject_Z count * step) <= 1)%Q.
Proof.
  intros Hc Hs. split; [apply Q.le_max_l|].
  assert (H : (0 <= inject_Z count)%Q).
  { change 0%Q with (inject_Z 0). now rewrite <- Zle_Qle. }
  apply Q.max_lub; [lra|nra].
Qed.

(** X4. For an account whose [success_rate] and [activity] lie between 0 and
    1 and whose age and penalty counters are not negative, the score lies
    between 0 and 1 at every clock reading. *)
Theorem score_between_0_and_1 (now : Q) (a : account) :
  fields_in_range a ->
  (0 <= _calculate_account_score now a <= 1)%Q.
Proof.
  intros ([Hs0 Hs1] & [Ha0 Ha1] & Hage & Hrl & Hban).
  unfold _calculate_account_score.
  pose proof (cooldown_penalty_range now a) as Hcd.
  pose proof (@penalty_range (rate_limit_count a) 0.1 Hrl ltac:(lra)) as Hr.
  pose proof (@penalty_range (banned_count a) 0.2 Hban ltac:(lra)) as Hb.
  assert (Hage' : (0 <= Qmin (inject_Z (age a) / 365) 1 <= 1)%Q).
  { split; [|apply Q.le_min_r].
    apply Q.min_glb; [|lra].
    apply Qle_shift_div_l; [lra|].
    rewrite Qmult_0_l. change 0%Q with (inject_Z 0). now rewrite <- Zle_Qle. }
  set (cd := _get_cooldown_penalty now a) in *.
  set (rl := Qmax 0 (1 - inject_Z (rate_limit_count a) * 0.1)) in *.
  set (bn := Qmax 0 (1 - inject_Z (banned_count a) * 0.2)) in *.
  set (ag := Qmin (inject_Z (age a) / 365) 1) in *.
  set (base := (success_rate a * 0.7 + ag * 0.2 + activity a * 0.1)%Q).
  assert (Hbase : (0 <= base <= 1)%Q) by (unfold base; lra).
  assert (H1 : (0 <= base * cd <= 1)%Q) by nra.
  assert (H2 : (0 <= base * cd * rl <= 1)%Q) by nra.
  nra.
Qed.

Lemma score_between_0_and_1_witness :
  (0 <= _calculate_account_score 1900
          (mk_account "+100" "a.session" None "LIVE" 1 30 0.8 (Some 1000%Q) 1 1 0 0)
   <= 1)%Q.
Proof.
  apply (@score_between_0_and_1 1900
           (mk_account "+100" "a.session" None "LIVE" 1 30 0.8 (Some 1000%Q) 1 1 0 0)).
  unfold fields_in_range. simpl. repeat split; try lia; try lra.
Defined.

(** X5. Ten rate-limit reports, or five bans, bring the score of an account
    to zero whatever its other fields are: the penalty factor is cut off at
    0 and the score is a product. *)
Theorem score_zero_when_penalised_out (now : Q) (a : account) :
  (10 <= rate_limit_count a)%Z \/ (5 <= banned_count a)%Z ->
  (_calculate_account_score now a == 0)%Q.
Proof.
  intros H. unfold _calculate_account_score.
  destruct H as [H|H].
  - assert (Hz : (Qmax 0 (1 - inject_Z (rate_limit_count a) * 0.1) == 0)%Q).
    { apply Q.max_l. rewrite Zle_Qle in H. change (inject_Z 10) with 10%Q in H. lra. }
    rewrite Hz. ring.
  - assert (Hz : (Qmax 0 (1 - inject_Z (banned_count a) * 0.2) == 0)%Q).
    { apply Q.max_l. rewrite Zle_Qle in H. change (inject_Z 5) with 5%Q in H. lra. }
    rewrite Hz. ring.
Qed.

Lemma score_zero_when_penalised_out_witness :
  (_calculate_account_score 1900
     (mk_account "+100" "a.session" None "LIVE" 1 30 0.8 None 12 12 0 10) == 0)%Q.
Proof.
  apply (@score_zero_when_penalised_out 1900
           (mk_account "+100" "a.session" None "LIVE" 1 30 0.8 None 12 12 0 10)).
  left. simpl. lia.
Defined.

(** The two loops that write to the first account with a phone share their
    shape, and so the proof that they leave the other accounts alone. *)
Ltac first_match_frame accs :=
  let a := fresh "a" in
  let IH := fresh "IH" in
  let H := fresh "H" in
  induction accs as [|a accs IH]; intros k i; simpl; [reflexivity|];
  destruct (phone a =? _); intros H;
  [ destruct i; [rewrite Nat.add_0_r in H; congruence|reflexivity]
  | destruct i as [|i]; [reflexivity|];
    simpl; apply (IH (S k));
    replace (S k + i)%nat with (k + S i)%nat by lia; exact H ].

Lemma mark_banned_loop_frame (phone_ : string) (accs : list account) (k i : nat) :
  first_with_phone phone_ k accs <> Some (k + i)%nat ->
  nth_error (mark_banned_loop phone_ accs) i = nth_error accs i.
Proof. revert k i. first_match_frame accs. Qed.

Lemma mark_rate_limited_loop_frame (phone_ : string) (accs : list account)
  (k i : nat) :
  first_with_phone phone_ k accs <> Some (k + i)%nat ->
  nth_error (mark_rate_limited_loop phone_ accs) i = nth_error accs i.
Proof. revert k i. first_match_frame accs. Qed.

Lemma mark_banned_loop_found (phone_ : string) (accs : list account) (k r : nat)
  (a : account) :
  first_with_phone phone_ k accs = Some r ->
  nth_error accs (r - k) = Some a ->
  nth_error (mark_banned_loop phone_ accs) (r - k)
  = Some (set_banned_count (set_status a "BANNED") (banned_count a + 1)).
Proof.
  revert k. induction accs as [|a0 accs IH]; intros k; simpl; [discriminate|].
  destruct (phone a0 =? phone_).
  - intros H. injection H as <-. rewrite Nat.sub_diag. simpl.
    intros Ha. now injection Ha as ->.
  - intros H Ha.
    destruct (@RotatorFacts.mark_used_loop_last_used phone_ true 0 _ _ _ H)
      as (Hle & _).
    replace (r - k)%nat with (S (r - S k)) in * by lia. simpl in *.
    now apply IH.
Qed.

Lemma mark_rate_limited_loop_found (phone_ : string) (accs : list account)
  (k r : nat) (a : account) :
  first_with_phone phone_ k accs = Some r ->
  nth_error accs (r - k) = Some a ->
  nth_error (mark_rate_limited_loop phone_ accs) (r - k)
  = Some (set_rate_limit_count a (rate_limit_count a + 1)).
Proof.
  revert k. induction accs as [|a0 accs IH]; intros k; simpl; [discriminate|].
  destruct (phone a0 =? phone_).
  - intros H. injection H as <-. rewrite Nat.sub_diag. simpl.
    intros Ha. now injection Ha as ->.
  - intros H Ha.
    destruct (@RotatorFacts.mark_used_loop_last_used phone_ true 0 _ _ _ H)
      as (Hle & _).
    replace (r - k)%nat with (S (r - S k)) in * by lia. simpl in *.
    now apply IH.
Qed.

(** X6. After [mark_account_banned] the first account of the pool with the
    phone has status BANNED and one more ban on its count, every other
    account is as it was, and [get_best_account] does not return the banned
    account at any clock reading. *)
Theorem banned_account_not_selected (phone_ : string) (now : Q) (self : rotator)
  (r : acc_ref) (a : account) :
  first_with_phone phone_ 0 (accounts self) = Some r ->
  nth_error (accounts self) r = Some a ->
  mark_account_banned phone_ self
  = (Ok tt, mk_rotator (mark_banned_loop phone_ (accounts self)))
  /\ nth_error (accounts (snd (mark_account_banned phone_ self))) r
     = Some (set_banned_count (set_status a "BANNED") (banned_count a + 1))
  /\ (forall i, i <> r ->
        nth_error (accounts (snd (mark_account_banned phone_ self))) i
        = nth_error (accounts self) i)
  /\ fst (get_best_account now (snd (mark_account_banned phone_ self)))
     <> Ok (Some r).
Proof.
  intros Hf Ha. split; [reflexivity|].
  assert (Hn : nth_error (accounts (snd (mark_account_banned phone_ self))) r
               = Some (set_banned_count (set_status a "BANNED") (banned_count a + 1))).
  { simpl. rewrite <- (Nat.sub_0_r r). apply mark_banned_loop_found; [exact Hf|].
    now rewrite Nat.sub_0_r. }
  split; [exact Hn|]. split.
  - intros i Hi. simpl. apply (@mark_banned_loop_frame phone_ _ 0 i).
    rewrite Hf. simpl. congruence.
  - intros Hret.
    destruct (get_best_account_max _ _ Hret Hn) as [Hlive _].
    discriminate.
Qed.

Lemma banned_account_not_selected_witness :
  mark_account_banned "+100" two_account_pool
  = (Ok tt, mk_rotator (mark_banned_loop "+100" (accounts two_account_pool)))
  /\ nth_error (accounts (snd (mark_account_banned "+100" two_account_pool))) 0
     = Some (set_banned_count
               (set_status
                  (mk_account "+100" "a.session" None "LIVE" 1 30 0.8
                     (Some 1000%Q) 1 1 0 0) "BANNED") (0 + 1))
  /\ (forall i, i <> 0%nat ->
        nth_error (accounts (snd (mark_account_banned "+100" two_account_pool))) i
        = nth_error (accounts two_account_pool) i)
  /\ fst (get_best_account 4600 (snd (mark_account_banned "+100" two_account_pool)))
     <> Ok (Some 0%nat).
Proof.
  apply (@banned_account_not_selected "+100" 4600 two_account_pool 0%nat _
           eq_refl eq_refl).
Defined.

(** X7. A report of a rate limit leaves the status of the account alone, so
    the account stays selectable, adds one to its [rate_limit_count] and
    leaves the other accounts as they were; for fitness fields in range the
    score of the account does not go up. *)
Theorem rate_limited_account_scores_lower (phone_ : string) (now : Q)
  (self : rotator) (r : acc_ref) (a : account) :
  first_with_phone phone_ 0 (accounts self) = Some r ->
  nth_error (accounts self) r = Some a ->
  fields_in_range a ->
  exists a',
    fst (mark_account_rate_limited phone_ self) = Ok tt
    /\ nth_error (accounts (snd (mark_account_rate_limited phone_ self))) r
       = Some a'
    /\ status a' = status a
    /\ rate_limit_count a' = (rate_limit_count a + 1)%Z
    /\ (_calculate_account_score now a' <= _calculate_account_score now a)%Q
    /\ forall i, i <> r ->
         nth_error (accounts (snd (mark_account_rate_limited phone_ self))) i
         = nth_error (accounts self) i.
Proof.
  intros Hf Ha Hrange.
  exists (set_rate_limit_count a (rate_limit_count a + 1)).
  split; [reflexivity|]. split.
  { simpl. rewrite <- (Nat.sub_0_r r). apply mark_rate_limited_loop_found; [exact Hf|].
    now rewrite Nat.sub_0_r. }
  split; [reflexivity|]. split; [reflexivity|]. split.
  - destruct Hrange as ([Hs0 Hs1] & [Ha0 Ha1] & Hage & Hrl & Hban).
    unfold _calculate_account_score.
    change (_get_cooldown_penalty now
              (set_rate_limit_count a (rate_limit_count a + 1)))
      with (_get_cooldown_penalty now a).
    cbn [set_rate_limit_count success_rate age activity rate_limit_count
         banned_count].
    pose proof (cooldown_penalty_range now a) as Hcd.
    pose proof (@penalty_range (banned_count a) 0.2 Hban ltac:(lra)) as Hb.
    assert (Hage' : (0 <= Qmin (inject_Z (age a) / 365) 1)%Q).
    { apply Q.min_glb; [|lra].
      apply Qle_shift_div_l; [lra|].
      rewrite Qmult_0_l. change 0%Q with (inject_Z 0). now rewrite <- Zle_Qle. }
    assert (Hmono : (Qmax 0 (1 - inject_Z (rate_limit_count a + 1) * 0.1)
                     <= Qmax 0 (1 - inject_Z (rate_limit_count a) * 0.1))%Q).
    { apply Q.max_le_compat_l. rewrite inject_Z_plus.
      change (inject_Z 1) with 1%Q. lra. }
    pose proof (Q.le_max_l 0 (1 - inject_Z (rate_limit_count a + 1) * 0.1)) as Hlo.
    set (cd := _get_cooldown_penalty now a) in *.
    set (rl' := Qmax 0 (1 - inject_Z (rate_limit_count a + 1) * 0.1)) in *.
    set (rl := Qmax 0 (1 - inject_Z (rate_limit_count a) * 0.1)) in *.
    set (bn := Qmax 0 (1 - inject_Z (banned_count a) * 0.2)) in *.
    set (ag := Qmin (inject_Z (age a) / 365) 1) in *.
    set (base := (success_rate a * 0.7 + ag * 0.2 + activity a * 0.1)%Q).
    assert (Hbase : (0 <= base)%Q) by (unfold base; lra).
    assert (H1 : (0 <= base * cd)%Q) by nra.
    assert (H2 : (base * cd * rl' <= base * cd * rl)%Q) by nra.
    nra.
  - intros i Hi. simpl. apply (@mark_rate_limited_loop_frame phone_ _ 0 i).
    rewrite Hf. simpl. congruence.
Qed.

Lemma rate_limited_account_scores_lower_witness :
  exists a',
    fst (mark_account_rate_limited "+200" two_account_pool) = Ok tt
    /\ nth_error (accounts (snd (mark_account_rate_limited "+200" two_account_pool))) 1
       = Some a'
    /\ status a' = "LIVE"
    /\ rate_limit_count a' = (0 + 1)%Z
    /\ (_calculate_account_score 4600 a'
        <= _calculate_account_score 4600
             (mk_account "+200" "b.session" None "LIVE" 1 30 0.8 None 0 0 0 0))%Q
    /\ forall i, i <> 1%nat ->
         nth_error (accounts (snd (mark_account_rate_limited "+200" two_account_pool))) i
         = nth_error (accounts two_account_pool) i.
Proof.
  apply (@rate_limited_account_scores_lower "+200" 4600 two_account_pool 1%nat
           (mk_account "+200" "b.session" None "LIVE" 1 30 0.8 None 0 0 0 0)
           eq_refl eq_refl).
  unfold fields_in_range. simpl. repeat split; try lia; try lra.
Defined.

(** X8. Rotation. Let an account that was never used, with a spotless record
    and a score above zero, be used once with success, at a clock reading
    that is not zero (a [last_used] of zero counts as never used).  Less
    than 3600 seconds later its score is half of what it was, and
    [get_best_account] does not return it as long as the pool holds another
    LIVE account that scores at least what it scored before. *)
Theorem used_account_yields (self : rotator) (r j : acc_ref) (a b : account)
  (t later : Q) :
  nth_error (accounts self) r = Some a ->
  first_with_phone (phone a) 0 (accounts self) = Some r ->
  last_used a = None ->
  successful_actions a = total_actions a -> (0 <= total_actions a)%Z ->
  (success_rate a == 1)%Q ->
  nth_error (accounts self) j = Some b -> j <> r -> status b = "LIVE" ->
  (0 < _calculate_account_score later a)%Q ->
  (_calculate_account_score later a <= _calculate_account_score later b)%Q ->
  ~ (t == 0)%Q -> (later - t < 3600)%Q ->
  (exists a',
     nth_error (accounts (snd (mark_account_used (phone a) true t self))) r
     = Some a'
     /\ (_calculate_account_score later a'
         == 0.5 * _calculate_account_score later a)%Q)
  /\ fst (get_best_account later (snd (mark_account_used (phone a) true t self)))
     <> Ok (Some r).
Proof.
  intros Ha Hf Hlu Hperfect Htot Hsr Hb Hj Hlive Hpos Hle Ht Hlt.
  pose proof Ha as Ha0. rewrite <- (Nat.sub_0_r r) in Ha0.
  destruct (@mark_used_loop_found (phone a) true t _ _ _ _ Hf Ha0 ltac:(lia))
    as (accs' & Hrun & Hn).
  rewrite Nat.sub_0_r in Hn.
  assert (Hframe : forall i,
            first_with_phone (phone a) 0 (accounts self) <> Some i ->
            nth_error (snd (mark_used_loop (phone a) true t (accounts self))) i
            = nth_error (accounts self) i).
  { intros i Hi. exact (@mark_used_loop_frame (phone a) true t (accounts self) 0 i Hi). }
  unfold mark_account_used in *. rewrite Hrun in *. simpl in Hframe. simpl.
  match type of Hn with _ = Some ?x => set (a' := x) in * end.
  assert (Hscore : (_calculate_account_score later a'
                    == 0.5 * _calculate_account_score later a)%Q).
  { unfold _calculate_account_score.
    rewrite (@RotatorFacts.cooldown_penalty_used later t a' eq_refl Ht Hlt).
    assert (Hcd : _get_cooldown_penalty later a = 1%Q).
    { unfold _get_cooldown_penalty, not_last_used. now rewrite Hlu. }
    rewrite Hcd.
    assert (Hsr' : (success_rate a' == 1)%Q).
    { unfold a'. simpl. rewrite Hperfect.
      unfold Qdiv. apply Qmult_inv_r.
      assert (Hp : (0 < inject_Z (total_actions a + 1))%Q).
      { change 0%Q with (inject_Z 0). rewrite <- Zlt_Qlt. lia. }
      lra. }
    change (age a') with (age a). change (activity a') with (activity a).
    change (rate_limit_count a') with (rate_limit_count a).
    change (banned_count a') with (banned_count a).
    rewrite Hsr', Hsr. ring. }
  split; [exists a'; split; [exact Hn|exact Hscore]|].
  intros Hret.
  destruct (get_best_account_max _ _ Hret Hn) as [_ Hmax].
  assert (Hb' : nth_error accs' j = Some b).
  { rewrite Hframe; [exact Hb|]. rewrite Hf. congruence. }
  specialize (Hmax j b Hb' Hlive). lra.
Qed.

Lemma used_account_yields_witness :
  (exists a',
     nth_error (accounts (snd (mark_account_used "+100" true 1000 fresh_pair))) 0
     = Some a'
     /\ (_calculate_account_score 1900 a'
         == 0.5 * _calculate_account_score 1900
                    (mk_account "+100" "a.session" None "LIVE" 1 30 0.8 None 0 0 0 0))%Q)
  /\ fst (get_best_account 1900 (snd (mark_account_used "+100" true 1000 fresh_pair)))
     <> Ok (Some 0%nat).
Proof.
  apply (@used_account_yields fresh_pair 0%nat 1%nat
           (mk_account "+100" "a.session" None "LIVE" 1 30 0.8 None 0 0 0 0)
           (mk_account "+200" "b.session" None "LIVE" 1 30 0.8 None 0 0 0 0)
           1000 1900); try reflexivity.
  - discriminate.
  - vm_compute. discriminate.
  - discriminate.
Defined.

Lemma filter_status_lengths (accs : list account) :
  (List.length (filter is_live accs)
   + List.length (filter (fun acc => (status acc =? "BANNED")%string) accs)
   <= List.length accs)%nat
  /\ ((forall a, In a accs -> status a = "LIVE" \/ status a = "BANNED") ->
      (List.length (filter is_live accs)
       + List.length (filter (fun acc => (status acc =? "BANNED")%string) accs)
       = List.length accs)%nat).
Proof.
  induction accs as [|a accs [IHle IHeq]]; [split; reflexivity|].
  unfold is_live in *. simpl.
  destruct (status a =? "LIVE") eqn:El; destruct (status a =? "BANNED") eqn:Eb.
  - apply String.eqb_eq in El, Eb. congruence.
  - simpl. split; [lia|]. intros H.
    assert (Hrest := IHeq (fun b Hb => H b (or_intror Hb))). lia.
  - simpl. split; [lia|]. intros H.
    assert (Hrest := IHeq (fun b Hb => H b (or_intror Hb))). lia.
  - split; [lia|]. intros H. exfalso.
    apply String.eqb_neq in El, Eb. destruct (H a (or_introl eq_refl)); contradiction.
Qed.

Lemma enumerate_filter_length (f : account -> bool) (accs : list account) (k : nat) :
  List.length (filter (fun p => f (snd p)) (enumerate_from k accs))
  = List.length (filter f accs).
Proof.
  revert k. induction accs as [|a accs IH]; intros k; simpl; [reflexivity|].
  destruct (f a); simpl; now rewrite IH.
Qed.

(** X9. [get_account_stats] does not raise on any pool, the empty one
    included (the average is then 0), and writes nothing.  Live and banned
    accounts together are no more than the total, and exactly the total
    when every status is LIVE or BANNED, the two statuses the rotator ever
    writes.  The count of live accounts is the number of references
    [get_accounts_by_status] returns for LIVE. *)
Theorem account_stats_counts (self : rotator) :
  exists stats refs,
    get_account_stats self = (Ok stats, self)
    /\ get_accounts_by_status "LIVE" self = (Ok refs, self)
    /\ total_accounts stats = Z.of_nat (List.length (accounts self))
    /\ (0 <= live_accounts_count stats)%Z /\ (0 <= banned_accounts stats)%Z
    /\ (live_accounts_count stats + banned_accounts stats <= total_accounts stats)%Z
    /\ ((forall a, In a (accounts self) -> status a = "LIVE" \/ status a = "BANNED") ->
        (live_accounts_count stats + banned_accounts stats = total_accounts stats)%Z)
    /\ live_accounts_count stats = Z.of_nat (List.length refs)
    /\ (accounts self = [] -> average_success_rate stats = 0%Q).
Proof.
  destruct (filter_status_lengths (accounts self)) as [Hle Heq].
  eexists. eexists. split; [reflexivity|]. split; [reflexivity|].
  simpl. repeat split; try lia.
  - intros H. specialize (Heq H). lia.
  - rewrite length_map.
    change (fun p : nat * account => status (snd p) =? "LIVE")
      with (fun p : nat * account => is_live (snd p)).
    unfold enumerate. now rewrite enumerate_filter_length.
  - intros ->. reflexivity.
Qed.

(** X10. [get_accounts_by_status] returns the references to exactly the
    accounts that carry the status asked for, lower positions first, and
    writes nothing; for a status no account carries it returns the empty
    list. *)
Theorem accounts_by_status_exact (status_ : string) (self : rotator) :
  exists refs,
    get_accounts_by_status status_ self = (Ok refs, self)
    /\ (forall i, In i refs <->
          exists a, nth_error (accounts self) i = Some a /\ status a = status_)
    /\ StronglySorted lt refs.
Proof.
  eexists. split; [reflexivity|]. split.
  - intros i. rewrite in_map_iff. split.
    + intros ([i' a] & <- & Hin). apply filter_In in Hin as [Hin Hs].
      apply enumerate_In in Hin. simpl in *. apply String.eqb_eq in Hs. eauto.
    + intros (a & Hn & Hs). exists (i, a). split; [reflexivity|].
      apply filter_In. split; [now apply enumerate_In|].
      simpl. now apply String.eqb_eq.
  - assert (Hs : StronglySorted by_position
                   (filter (fun p : nat * account => status (snd p) =? status_)
                      (enumerate (accounts self))))
      by apply filter_sorted, enumerate_from_sorted.
    induction Hs as [|p l Hs IH Hall]; simpl; constructor; [exact IH|].
    rewrite Forall_map. eapply Forall_impl; [|exact Hall]. auto.
Qed.

(** X28. The score grows with the fitness fields: of two accounts with the
    same [last_used] and the same penalty counts, the one with the higher
    (or equal) [success_rate], [activity] and age scores at least as much
    as the other, at every clock reading. *)
Theorem score_monotone (now : Q) (a b : account) :
  last_used a = last_used b ->
  rate_limit_count a = rate_limit_count b ->
  banned_count a = banned_count b ->
  (success_rate a <= success_rate b)%Q ->
  (activity a <= activity b)%Q ->
  (age a <= age b)%Z ->
  (_calculate_account_score now a <= _calculate_account_score now b)%Q.
Proof.
  intros Hlu Hrl Hbn Hsr Hact Hage.
  unfold _calculate_account_score.
  assert (Hcd : _get_cooldown_penalty now a = _get_cooldown_penalty now b).
  { unfold _get_cooldown_penalty, not_last_used. now rewrite Hlu. }
  rewrite Hcd, Hrl, Hbn.
  pose proof (cooldown_penalty_range now b) as Hc.
  pose proof (Q.le_max_l 0 (1 - inject_Z (rate_limit_count b) * 0.1)) as Hr.
  pose proof (Q.le_max_l 0 (1 - inject_Z (banned_count b) * 0.2)) as Hb.
  assert (Hag : (Qmin (inject_Z (age a) / 365) 1 <= Qmin (inject_Z (age b) / 365) 1)%Q).
  { apply Q.min_le_compat_r. apply Qmult_le_compat_r; [|discriminate].
    now rewrite <- Zle_Qle. }
  set (cd := _get_cooldown_penalty now b) in *.
  set (rl := Qmax 0 (1 - inject_Z (rate_limit_count b) * 0.1)) in *.
  set (bn := Qmax 0 (1 - inject_Z (banned_count b) * 0.2)) in *.
  set (aga := Qmin (inject_Z (age a) / 365) 1) in *.
  set (agb := Qmin (inject_Z (age b) / 365) 1) in *.
  assert (Hbase : (success_rate a * 0.7 + aga * 0.2 + activity a * 0.1
                   <= success_rate b * 0.7 + agb * 0.2 + activity b * 0.1)%Q) by lra.
  set (ba := (success_rate a * 0.7 + aga * 0.2 + activity a * 0.1)%Q) in *.
  set (bb := (success_rate b * 0.7 + agb * 0.2 + activity b * 0.1)%Q) in *.
  assert (H1 : (ba * cd <= bb * cd)%Q) by nra.
  assert (Hcr : (0 <= rl * bn)%Q) by nra.
  assert (H2 : (ba * cd * (rl * bn) <= bb * cd * (rl * bn))%Q) by nra.
  nra.
Qed.

Lemma score_monotone_witness :
  (_calculate_account_score 1900
     (mk_account "+100" "a.session" None "LIVE" 0.5 30 0.8 None 4 2 0 0)
   <= _calculate_account_score 1900
        (mk_account "+200" "b.session" None "LIVE" 1 300 0.8 None 0 0 0 0))%Q.
Proof.
  apply (@score_monotone 1900
           (mk_account "+100" "a.session" None "LIVE" 0.5 30 0.8 None 4 2 0 0)
           (mk_account "+200" "b.session" None "LIVE" 1 300 0.8 None 0 0 0 0));
    try reflexivity; simpl; try lia; try lra.
Defined.

End RotatorExtra.

(** ** More on the planner *)

Module PlannerExtra.
Import Py Notions PyFacts BulkActionScheduler.
Local Open Scope string_scope.
Local Open Scope list_scope.
Local Open Scope Z_scope.

Lemma Qceiling_unique (x : Q) (c : Z) :
  (inject_Z (c - 1) < x)%Q -> (x <= inject_Z c)%Q -> Qceiling x = c.
Proof.
  intros Hlo Hhi.
  pose proof (Qle_ceiling x) as H1. pose proof (Qceiling_lt x) as H2.
  assert (Ha : (inject_Z (c - 1) < inject_Z (Qceiling x))%Q) by lra.
  assert (Hb : (inject_Z (Qceiling x - 1) < inject_Z c)%Q) by lra.
  rewrite <- Zlt_Qlt in Ha, Hb. lia.
Qed.

Lemma int_small (x : Q) : (0 <= x)%Q -> (x < 1)%Q -> int x = 0.
Proof.
  intros H0 H1. unfold int.
  destruct (Qltb x 0) eqn:E; [apply Qltb_true in E; lra|].
  pose proof (Qfloor_le x) as Hlo. pose proof (Qlt_floor x) as Hhi.
  assert (Ha : (inject_Z (Qfloor x) < inject_Z 1)%Q)
    by (change (inject_Z 1) with 1%Q; lra).
  assert (Hb : (inject_Z (-1) < inject_Z (Qfloor x))%Q).
  { rewrite inject_Z_plus in Hhi. change (inject_Z 1) with 1%Q in Hhi.
    change (inject_Z (-1)) with (-1)%Q. lra. }
  rewrite <- Zlt_Qlt in Ha, Hb. lia.
Qed.

(** One pass of the loop takes one off [ceil(remaining_hours)]. *)
Lemma Qceiling_step (rem : Q) :
  (0 < rem)%Q -> Qceiling (rem - Qmin 1 rem) = Qceiling rem - 1.
Proof.
  intros Hpos.
  pose proof (Qle_ceiling rem) as H1. pose proof (Qceiling_lt rem) as H2.
  destruct (Q.min_spec 1 rem) as [[Hlt Hm]|[Hge Hm]]; apply Qceiling_unique.
  - rewrite Hm. replace (Qceiling rem - 1 - 1) with (Qceiling rem - 1 + -1) by lia.
    rewrite inject_Z_plus. change (inject_Z (-1)) with (-1)%Q. lra.
  - rewrite Hm. replace (Qceiling rem - 1) with (Qceiling rem + -1) by lia.
    rewrite inject_Z_plus. change (inject_Z (-1)) with (-1)%Q. lra.
  - assert (Hc : Qceiling rem = 1).
    { apply Qceiling_unique; simpl; [exact Hpos|exact Hge]. }
    rewrite Hm, Hc. simpl. change (inject_Z (-1)) with (-1)%Q. lra.
  - assert (Hc : Qceiling rem = 1).
    { apply Qceiling_unique; simpl; [exact Hpos|exact Hge]. }
    rewrite Hm, Hc. simpl. change (inject_Z 0) with 0%Q. lra.
Qed.

Lemma slots_loop_length (fuel : nat) (cur : datetime) (rem : Q) (a : Z)
  (peak : list Z) :
  Qceiling rem <= Z.of_nat fuel ->
  List.length (slots_loop fuel cur rem a peak) = Z.to_nat (Qceiling rem).
Proof.
  revert cur rem. induction fuel as [|fuel IH]; intros cur rem Hc.
  - simpl. lia.
  - cbn [slots_loop]. destruct (Qltb 0 rem) eqn:E.
    + apply Qltb_true in E. cbn [List.length].
      rewrite IH; rewrite Qceiling_step by exact E; [|lia].
      assert (1 <= Qceiling rem).
      { pose proof (Qle_ceiling rem) as H.
        assert (Hx : (inject_Z 0 < inject_Z (Qceiling rem))%Q)
          by (change (inject_Z 0) with 0%Q; lra).
        rewrite <- Zlt_Qlt in Hx. lia. }
      lia.
    + apply Qltb_false in E. simpl.
      assert (Qceiling rem <= 0).
      { change 0 with (Qceiling 0). now apply Qceiling_resp_le. }
      lia.
Qed.

Lemma slots_loop_durations (fuel : nat) (cur : datetime) (rem : Q) (a : Z)
  (peak : list Z) :
  Qceiling rem <= Z.of_nat fuel -> (0 <= rem)%Q ->
  (sum_durations (slots_loop fuel cur rem a peak) == rem)%Q.
Proof.
  revert cur rem. induction fuel as [|fuel IH]; intros cur rem Hc Hr.
  - simpl. unfold sum_durations. simpl.
    pose proof (Qle_ceiling rem) as H. rewrite Zle_Qle in Hc.
    change (inject_Z (Z.of_nat 0)) with 0%Q in Hc. lra.
  - cbn [slots_loop]. destruct (Qltb 0 rem) eqn:E.
    + apply Qltb_true in E.
      unfold sum_durations in *. cbn [map sum_Q fold_right duration_hours].
      fold (sum_Q (map duration_hours
                     (slots_loop fuel (cur + timedelta_hours 1)
                        (rem - Qmin 1 rem) a peak))).
      rewrite IH.
      * ring.
      * rewrite Qceiling_step by exact E. lia.
      * pose proof (Q.le_min_r 1 rem). lra.
    + apply Qltb_false in E. unfold sum_durations. simpl. lra.
Qed.

Lemma slots_loop_starts (fuel : nat) (cur : datetime) (rem : Q) (a : Z)
  (peak : list Z) (k : nat) (slot : time_slot) :
  nth_error (slots_loop fuel cur rem a peak) k = Some slot ->
  slot_start_time slot = cur + timedelta_hours (Z.of_nat k)
  /\ is_peak_time slot = is_in (hour (slot_start_time slot)) peak.
Proof.
  revert cur rem k. induction fuel as [|fuel IH]; intros cur rem k.
  - simpl. destruct k; discriminate.
  - cbn [slots_loop]. destruct (Qltb 0 rem); [|destruct k; discriminate].
    destruct k as [|k]; simpl.
    + intros H. injection H as <-. simpl. unfold timedelta_hours. split; [lia|reflexivity].
    + intros H. apply IH in H as [H1 H2]. split; [|exact H2].
      rewrite H1. unfold timedelta_hours. lia.
Qed.

(** X11. The slots of [_generate_time_slots] cover [hours_needed] exactly:
    there are [ceil(hours_needed)] of them (none for a value that is not
    above zero), their durations sum to [hours_needed], slot [k] starts [k]
    hours after the start time, and its peak flag is that of the hour it
    starts in. *)
Theorem time_slots_cover_hours (start : datetime) (hours : Q) (a : Z)
  (peak : list Z) :
  List.length (_generate_time_slots start hours a peak)
  = Z.to_nat (Qceiling hours)
  /\ ((0 <= hours)%Q ->
      (sum_durations (_generate_time_slots start hours a peak) == hours)%Q)
  /\ (forall k slot,
        nth_error (_generate_time_slots start hours a peak) k = Some slot ->
        slot_start_time slot = start + timedelta_hours (Z.of_nat k)
        /\ is_peak_time slot = is_in (hour (slot_start_time slot)) peak).
Proof.
  unfold _generate_time_slots.
  assert (Hfuel : Qceiling hours <= Z.of_nat (Z.to_nat (Qceiling hours))) by lia.
  split; [now apply slots_loop_length|]. split.
  - intros H. now apply slots_loop_durations.
  - intros k slot. apply slots_loop_starts.
Qed.

(** X12. At a rate of one action per hour and account, a slot asks for an
    action only when it lies in a peak hour and lasts the full hour: every
    off-peak slot, and the last slot when it is shorter than an hour, has
    target 0 ([int(1 * 0.8)] is 0). *)
Theorem rate_one_acts_in_full_peak_slots_only (start : datetime) (hours : Q)
  (peak : list Z) :
  Forall (fun slot =>
            0 <= target_actions slot <= 1
            /\ (is_peak_time slot = false -> target_actions slot = 0)
            /\ ((duration_hours slot < 1)%Q -> target_actions slot = 0))
    (_generate_time_slots start hours 1 peak).
Proof.
  unfold _generate_time_slots.
  generalize (Z.to_nat (Qceiling hours)) as fuel. intros fuel.
  revert start hours. induction fuel as [|fuel IH]; intros cur rem;
    cbn [slots_loop]; [constructor|].
  destruct (Qltb 0 rem) eqn:E; [|constructor].
  apply Qltb_true in E. constructor; [|apply IH].
  cbn [target_actions is_peak_time duration_hours].
  change (int (inject_Z 1 * 1.2)) with 1. change (int (inject_Z 1 * 0.8)) with 0.
  assert (Hint : 0 <= int (rem * inject_Z 1)).
  { apply int_nonneg. change (inject_Z 1) with 1%Q. lra. }
  split; [|split].
  - destruct (is_in (hour cur) peak); lia.
  - intros ->. lia.
  - intros Hd.
    assert (Hrem : (rem < 1)%Q).
    { destruct (Q.min_spec 1 rem) as [[Hlt Hm]|[Hge Hm]]; rewrite Hm in Hd; lra. }
    rewrite int_small; [|change (inject_Z 1) with 1%Q; lra
                        |change (inject_Z 1) with 1%Q; lra].
    destruct (is_in (hour cur) peak); lia.
Qed.

Lemma firstn_add {A} (n m : nat) (l : list A) :
  firstn (n + m) l = firstn n l ++ firstn m (skipn n l).
Proof.
  revert l. induction n as [|n IH]; intros l; [reflexivity|].
  destruct l as [|x l]; simpl; [now rewrite firstn_nil|].
  now rewrite IH.
Qed.

Lemma chunks_concat {A} (step m : nat) (l : list A) :
  List.concat (map (fun k => firstn step (skipn (k * step) l)) (seq 0 m))
  = firstn (m * step) l.
Proof.
  induction m as [|m IH]; [reflexivity|].
  rewrite seq_S, map_app, concat_app, IH. simpl.
  rewrite app_nil_r. replace (step + m * step)%nat with (m * step + step)%nat by lia.
  now rewrite firstn_add.
Qed.

Lemma range_step_cover (n step : Z) :
  0 <= n -> 1 <= step ->
  (Z.to_nat n <= Z.to_nat ((n + step - 1) / step) * Z.to_nat step)%nat.
Proof.
  intros Hn Hs.
  assert (Hq : 0 <= (n + step - 1) / step) by (apply Z.div_pos; lia).
  assert (n <= (n + step - 1) / step * step).
  { pose proof (Z.div_mod (n + step - 1) step ltac:(lia)).
    pose proof (Z.mod_pos_bound (n + step - 1) step ltac:(lia)). nia. }
  nia.
Qed.

Section Scrape.
Variable env : collaborators.

(** The batches of [_calculate_scrape_distribution] are the sources cut into
    consecutive runs. *)
Lemma scrape_distribution_ok (sources : list string)
  (accounts_per_hour : Z) (tz : string) (now : datetime) (s : scheduler) :
  pytz_known env tz = true -> accounts_per_hour <> 0 ->
  exists plan,
    _calculate_scrape_distribution env sources accounts_per_hour tz now s
    = (Ok plan, s)
    /\ plan_sources plan = sources
    /\ Forall (fun batch =>
         1 <= len (batch_sources batch)
              <= Z.max 1 (len sources / accounts_per_hour)
         /\ estimated_duration batch = 2 * len (batch_sources batch)) plan.
Proof.
  intros Hz Ha.
  unfold _calculate_scrape_distribution, pytz_timezone, bind, lift, ret, floordiv.
  rewrite Hz.
  destruct (accounts_per_hour =? 0) eqn:E; [apply Z.eqb_eq in E; contradiction|].
  set (spb := Z.max 1 (len sources / accounts_per_hour)).
  assert (Hspb : 1 <= spb) by (unfold spb; lia).
  eexists. split; [reflexivity|].
  unfold range_step, range. rewrite !map_map.
  set (m := Z.to_nat ((len sources + spb - 1) / spb)).
  assert (Hcover : (List.length sources <= m * Z.to_nat spb)%nat).
  { pose proof (@range_step_cover (len sources) spb ltac:(unfold len; lia) Hspb) as H.
    unfold len in H at 1. rewrite Nat2Z.id in H. exact H. }
  split.
  - unfold plan_sources. rewrite map_map. cbn [batch_sources].
    rewrite (map_ext _ (fun k => firstn (Z.to_nat spb)
                                   (skipn (k * Z.to_nat spb) sources))).
    + rewrite chunks_concat. now apply firstn_all2.
    + intros k. unfold slice. f_equal; [f_equal; lia|f_equal; nia].
  - apply Forall_forall. intros batch Hb.
    apply in_map_iff in Hb as (k & <- & Hk). apply in_seq in Hk.
    cbn [batch_sources estimated_duration]. unfold slice, len.
    replace (Z.to_nat (Z.of_nat k * spb + spb - Z.of_nat k * spb))
      with (Z.to_nat spb) by lia.
    replace (Z.to_nat (Z.of_nat k * spb)) with (k * Z.to_nat spb)%nat by nia.
    rewrite length_firstn, length_skipn.
    assert (Hlt : (k * Z.to_nat spb < List.length sources)%nat).
    { destruct Hk as [_ Hk]. simpl in Hk. unfold m in Hk.
      assert (Hq : 0 <= (len sources + spb - 1) / spb) by (apply Z.div_pos; unfold len; lia).
      assert (Hkz : Z.of_nat k < (len sources + spb - 1) / spb) by lia.
      assert (Hx : Z.of_nat k * spb < len sources).
      { pose proof (Z.div_mod (len sources + spb - 1) spb ltac:(lia)).
        pose proof (Z.mod_pos_bound (len sources + spb - 1) spb ltac:(lia)).
        nia. }
      unfold len in Hx. nia. }
    split; lia.
Qed.

(** X13. For a zone [pytz] knows and a budget that is not zero, the batches
    of [_calculate_scrape_distribution] are the sources cut into consecutive
    runs: joined in order they give the source list back, no batch is
    empty or longer than [max(1, len(sources) // accounts_per_hour)], and
    the estimated duration of a batch is two minutes for each of its
    sources.  Batch [k] has index [k] and starts as many minutes after the
    clock reading as there are sources in the batches before it.  Nothing is
    written. *)
Theorem scrape_batches_partition_sources (sources : list string)
  (accounts_per_hour : Z) (tz : string) (now : datetime) (s : scheduler) :
  pytz_known env tz = true -> accounts_per_hour <> 0 ->
  exists plan,
    _calculate_scrape_distribution env sources accounts_per_hour tz now s
    = (Ok plan, s)
    /\ plan_sources plan = sources
    /\ Forall (fun batch =>
         1 <= len (batch_sources batch)
              <= Z.max 1 (len sources / accounts_per_hour)
         /\ estimated_duration batch = 2 * len (batch_sources batch)) plan
    /\ forall k batch, nth_error plan k = Some batch ->
         batch_index batch = Z.of_nat k
         /\ batch_start_time batch
            = now + timedelta_minutes
                      (Z.of_nat k * Z.max 1 (len sources / accounts_per_hour)).
Proof.
  intros Hz Ha.
  destruct (@scrape_distribution_ok sources accounts_per_hour tz now s Hz Ha)
    as (plan & Hrun & Hsrc & Hall).
  exists plan. split; [exact Hrun|]. split; [exact Hsrc|]. split; [exact Hall|].
  revert Hrun.
  unfold _calculate_scrape_distribution, pytz_timezone, bind, lift, ret, floordiv.
  rewrite Hz.
  destruct (accounts_per_hour =? 0) eqn:E; [apply Z.eqb_eq in E; contradiction|].
  intros Hrun. injection Hrun as <-.
  intros k batch. unfold range_step, range. rewrite !nth_error_map, nth_error_seq.
  destruct (k <? _)%nat; [|discriminate].
  simpl. intros H. injection H as <-. simpl. split; [|reflexivity].
  apply Z.div_mul. lia.
Qed.

End Scrape.

Lemma scrape_batches_partition_sources_witness :
  exists plan,
    _calculate_scrape_distribution all_succeed ["a"; "b"; "c"; "d"; "e"] 2 "UTC" 0
      one_account
    = (Ok plan, one_account)
    /\ plan_sources plan = ["a"; "b"; "c"; "d"; "e"]
    /\ Forall (fun batch =>
         1 <= len (batch_sources batch) <= Z.max 1 (len ["a"; "b"; "c"; "d"; "e"] / 2)
         /\ estimated_duration batch = 2 * len (batch_sources batch)) plan
    /\ forall k batch, nth_error plan k = Some batch ->
         batch_index batch = Z.of_nat k
         /\ batch_start_time batch
            = 0 + timedelta_minutes
                    (Z.of_nat k * Z.max 1 (len ["a"; "b"; "c"; "d"; "e"] / 2)).
Proof.
  apply (@scrape_batches_partition_sources all_succeed ["a"; "b"; "c"; "d"; "e"]
           2 "UTC" 0 one_account); [reflexivity | lia].
Defined.

Lemma distribution_loop_map (indices : list Z) (start q r a : Z)
  (peak : list Z) (s : scheduler) :
  a <> 0 ->
  distribution_loop indices start q r a peak s
  = (Ok (map (fun i =>
            mk_account_distribution i (q + (if i <? r then 1 else 0))
              (start + timedelta_minutes (i * 10))
              (inject_Z (q + (if i <? r then 1 else 0)) / inject_Z a) a
              (_generate_time_slots (start + timedelta_minutes (i * 10))
                 (inject_Z (q + (if i <? r then 1 else 0)) / inject_Z a) a peak))
          indices), s).
Proof.
  intros Ha. induction indices as [|i indices IH]; [reflexivity|].
  cbn [distribution_loop map]. unfold bind at 1. unfold lift, truediv.
  destruct (a =? 0) eqn:E; [apply Z.eqb_eq in E; contradiction|].
  unfold bind at 1. rewrite IH. reflexivity.
Qed.

Section Stagger.
Variable env : collaborators.

(** X27. In the plan of [_calculate_distribution] (for [1 <= n <= u], a
    budget of at least [n] and a zone [pytz] knows) allocation [i] has
    index [i], starts [10 * i] minutes after the clock reading, works at
    [accounts_per_hour // n] actions per hour, needs its users divided by
    that rate in hours, and has one slot for each hour begun of that
    time, the first starting with the allocation and each next one an hour
    later. *)
Theorem allocations_staggered (u n budget : Z) (tz : string) (now : datetime)
  (s : scheduler) :
  1 <= u -> 1 <= n <= u -> n <= budget -> pytz_known env tz = true ->
  exists plan,
    _calculate_distribution env u n budget tz now s = (Ok plan, s)
    /\ forall i, 0 <= i < n ->
         exists d,
           nth_error plan (Z.to_nat i) = Some d
           /\ account_index d = i
           /\ start_time d = now + timedelta_minutes (i * 10)
           /\ actions_per_hour d = budget / n
           /\ hours_needed d
              = (inject_Z (users_count d) / inject_Z (budget / n))%Q
           /\ List.length (time_slots d) = Z.to_nat (Qceiling (hours_needed d))
           /\ forall k slot, nth_error (time_slots d) k = Some slot ->
                slot_start_time slot
                = start_time d + timedelta_hours (Z.of_nat k).
Proof.
  intros Hu Hn Hb Hz.
  assert (Ha : 1 <= budget / n) by (apply Z.div_le_lower_bound; lia).
  eexists. split.
  - unfold _calculate_distribution, pytz_timezone. rewrite Hz.
    unfold bind at 1. unfold ret at 1.
    unfold bind at 1. unfold lift at 1. unfold floordiv at 1.
    destruct (n =? 0) eqn:E; [apply Z.eqb_eq in E; lia|].
    unfold bind at 1. unfold lift at 1. unfold floordiv at 1. rewrite E.
    apply distribution_loop_map. lia.
  - intros i Hi. rewrite nth_error_map, (PlannerFacts.range_nth Hi).
    eexists. split; [reflexivity|]. cbn [account_index start_time actions_per_hour
      hours_needed users_count time_slots].
    repeat split.
    + unfold _generate_time_slots. apply slots_loop_length. lia.
    + intros k slot Hk. unfold _generate_time_slots in Hk.
      now apply slots_loop_starts in Hk as [Hk _].
Qed.

End Stagger.

Lemma allocations_staggered_witness :
  exists plan,
    _calculate_distribution all_succeed 5 2 4 "UTC" 32400 one_account
    = (Ok plan, one_account)
    /\ forall i, 0 <= i < 2 ->
         exists d,
           nth_error plan (Z.to_nat i) = Some d
           /\ account_index d = i
           /\ start_time d = 32400 + timedelta_minutes (i * 10)
           /\ actions_per_hour d = 4 / 2
           /\ hours_needed d = (inject_Z (users_count d) / inject_Z (4 / 2))%Q
           /\ List.length (time_slots d) = Z.to_nat (Qceiling (hours_needed d))
           /\ forall k slot, nth_error (time_slots d) k = Some slot ->
                slot_start_time slot
                = start_time d + timedelta_hours (Z.of_nat k).
Proof.
  apply (@allocations_staggered all_succeed 5 2 4 "UTC" 32400 one_account);
    [lia | lia | lia | reflexivity].
Defined.

End PlannerExtra.

(** ** More on scheduling and the task registry *)

Module ScheduleExtra.
Import Py Notions PyFacts BulkActionScheduler.
Local Open Scope string_scope.
Local Open Scope list_scope.
Local Open Scope Z_scope.

Lemma scheduler_eta (s : scheduler) :
  mk_scheduler (account_rotator s) (scheduled_tasks s) (running_tasks s) (calls s)
  = s.
Proof. now destruct s. Qed.

Lemma stats_on_rotator (s : scheduler) :
  exists stats,
    on_rotator AccountRotator.get_account_stats s = (Ok stats, s)
    /\ AccountRotator.live_accounts_count stats
       = len (filter AccountRotator.is_live
                (AccountRotator.accounts (account_rotator s))).
Proof.
  eexists. unfold on_rotator, AccountRotator.get_account_stats, Py.bind, get, ret.
  simpl. rewrite scheduler_eta. split; reflexivity.
Qed.

Section Schedule.
Variable env : collaborators.

(** X14. With a zone [pytz] does not know, [schedule_add_members] and
    [schedule_bulk_scrape] raise [UnknownTimeZoneError] and leave the
    scheduler as it was: no task is registered. *)
Theorem unknown_zone_schedules_nothing (group : string) (users sources : list string)
  (accounts_per_hour : Z) (tz : string) (now : datetime) (s : scheduler) :
  pytz_known env tz = false ->
  schedule_add_members env group users accounts_per_hour tz now s
  = (Raise (UnknownTimeZoneError tz), s)
  /\ schedule_bulk_scrape env sources accounts_per_hour tz now s
     = (Raise (UnknownTimeZoneError tz), s).
Proof.
  intros Hz. split.
  - destruct (stats_on_rotator s) as (stats & Hstats & _).
    unfold schedule_add_members. unfold bind at 1. rewrite Hstats.
    unfold _calculate_distribution, pytz_timezone, bind, raise. now rewrite Hz.
  - unfold schedule_bulk_scrape, _calculate_scrape_distribution, pytz_timezone,
      bind, raise. now rewrite Hz.
Qed.

(** X15. A budget of zero actions per hour makes [schedule_bulk_scrape]
    raise [ZeroDivisionError], for an empty source list too, and no task is
    registered. *)
Theorem zero_budget_scrape_fails (sources : list string) (tz : string)
  (now : datetime) (s : scheduler) :
  pytz_known env tz = true ->
  schedule_bulk_scrape env sources 0 tz now s = (Raise ZeroDivisionError, s).
Proof.
  intros Hz.
  unfold schedule_bulk_scrape, _calculate_scrape_distribution, pytz_timezone,
    bind, ret, lift, floordiv.
  now rewrite Hz.
Qed.

(** X16. When there are users and LIVE accounts but the hourly budget is
    below the number of accounts the plan would use (and not negative), the
    rate of an account is [0] and [schedule_add_members] raises
    [ZeroDivisionError] on [hours_needed]; no task is registered. *)
Theorem low_budget_add_members_fails (group : string) (users : list string)
  (accounts_per_hour : Z) (tz : string) (now : datetime) (s : scheduler) :
  pytz_known env tz = true ->
  0 <= accounts_per_hour
    < Z.min (len users)
        (len (filter AccountRotator.is_live
                (AccountRotator.accounts (account_rotator s)))) ->
  schedule_add_members env group users accounts_per_hour tz now s
  = (Raise ZeroDivisionError, s).
Proof.
  intros Hz Hb.
  destruct (stats_on_rotator s) as (stats & Hstats & Hlive).
  unfold schedule_add_members. unfold bind at 1. rewrite Hstats, Hlive.
  set (n := Z.min (len users) _) in *.
  unfold _calculate_distribution, pytz_timezone. rewrite Hz.
  unfold bind at 2. unfold ret at 1.
  unfold bind at 2. unfold lift at 1. unfold floordiv at 1.
  destruct (n =? 0) eqn:E; [apply Z.eqb_eq in E; lia|].
  unfold bind at 2. unfold lift at 1. unfold floordiv at 1. rewrite E.
  rewrite (Z.div_small accounts_per_hour n) by lia.
  unfold range.
  destruct (Z.to_nat n) as [|m] eqn:En; [lia|].
  cbn [seq map distribution_loop].
  unfold bind, lift, truediv. reflexivity.
Qed.

End Schedule.

Lemma unknown_zone_schedules_nothing_witness :
  schedule_add_members all_succeed "group" ["u1"] 200 "Mars/Olympus" 0 one_account
  = (Raise (UnknownTimeZoneError "Mars/Olympus"), one_account)
  /\ schedule_bulk_scrape all_succeed ["a"] 100 "Mars/Olympus" 0 one_account
     = (Raise (UnknownTimeZoneError "Mars/Olympus"), one_account).
Proof.
  apply (@unknown_zone_schedules_nothing all_succeed "group" ["u1"] ["a"] 200
           "Mars/Olympus" 0 one_account).
  reflexivity.
Defined.

Lemma zero_budget_scrape_fails_witness :
  schedule_bulk_scrape all_succeed [] 0 "UTC" 0 one_account
  = (Raise ZeroDivisionError, one_account).
Proof.
  apply (@zero_budget_scrape_fails all_succeed [] "UTC" 0 one_account).
  reflexivity.
Defined.

Lemma low_budget_add_members_fails_witness :
  schedule_add_members all_succeed "group" ["u1"; "u2"] 1 "UTC" 0
    (mk_scheduler fresh_pair [] [] [])
  = (Raise ZeroDivisionError, mk_scheduler fresh_pair [] [] []).
Proof.
  apply (@low_budget_add_members_fails all_succeed "group" ["u1"; "u2"] 1 "UTC" 0
           (mk_scheduler fresh_pair [] [] [])).
  - reflexivity.
  - vm_compute. split; [discriminate|reflexivity].
Defined.

Lemma distribution_loop_state (indices : list Z) (start q r a : Z)
  (peak : list Z) (s : scheduler) :
  snd (distribution_loop indices start q r a peak s) = s.
Proof.
  induction indices as [|i indices IH]; [reflexivity|].
  cbn [distribution_loop]. unfold bind at 1. unfold lift, truediv.
  destruct (a =? 0); [reflexivity|].
  unfold bind at 1.
  destruct (distribution_loop indices start q r a peak s) as [[plan|e] s1];
    simpl in *; exact IH.
Qed.

Lemma _calculate_distribution_state (env : collaborators) (u n budget : Z)
  (tz : string) (now : datetime) (s : scheduler) :
  snd (_calculate_distribution env u n budget tz now s) = s.
Proof.
  unfold _calculate_distribution, pytz_timezone.
  destruct (pytz_known env tz); [|reflexivity].
  unfold bind at 1. unfold ret at 1.
  unfold bind at 1. unfold lift at 1. unfold floordiv at 1.
  destruct (n =? 0) eqn:E; [reflexivity|].
  unfold bind at 1. unfold lift at 1. unfold floordiv at 1. rewrite E.
  apply distribution_loop_state.
Qed.

Lemma _calculate_scrape_distribution_state (env : collaborators)
  (sources : list string) (aph : Z) (tz : string) (now : datetime) (s : scheduler) :
  snd (_calculate_scrape_distribution env sources aph tz now s) = s.
Proof.
  unfold _calculate_scrape_distribution, pytz_timezone, bind, lift, ret, floordiv.
  destruct (pytz_known env tz); [|reflexivity].
  destruct (aph =? 0); reflexivity.
Qed.

(** A schedule call that returns has appended one task, which carries the
    id returned, and has written nothing else. *)
Lemma schedule_add_members_appends (env : collaborators) (group : string)
  (users : list string) (aph : Z) (tz : string) (now : datetime)
  (s s' : scheduler) (new_id : string) :
  schedule_add_members env group users aph tz now s = (Ok new_id, s') ->
  exists plan,
    new_id = ("add_members_" ++ strftime env now)%string
    /\ fst (_calculate_distribution env (len users)
              (Z.min (len users)
                 (len (filter AccountRotator.is_live
                         (AccountRotator.accounts (account_rotator s)))))
              aph tz now s) = Ok plan
    /\ s' = mk_scheduler (account_rotator s)
              (scheduled_tasks s
               ++ [mk_task new_id (ADD_MEMBERS group users plan) tz now
                     "SCHEDULED" 0 (len users) None None None])
              (running_tasks s) (calls s).
Proof.
  destruct (stats_on_rotator s) as (stats & Hstats & Hlive).
  unfold schedule_add_members. unfold bind at 1. rewrite Hstats, Hlive.
  unfold bind at 1.
  pose proof (_calculate_distribution_state env (len users)
                (Z.min (len users)
                   (len (filter AccountRotator.is_live
                           (AccountRotator.accounts (account_rotator s)))))
                aph tz now s) as Hst.
  destruct (_calculate_distribution env _ _ aph tz now s) as [[plan|e] s1];
    simpl in Hst; subst s1; [|discriminate].
  unfold bind, append_task, modify, ret. intros H. injection H as <- <-.
  exists plan. repeat split.
Qed.

Lemma schedule_bulk_scrape_appends (env : collaborators) (sources : list string)
  (aph : Z) (tz : string) (now : datetime) (s s' : scheduler) (new_id : string) :
  schedule_bulk_scrape env sources aph tz now s = (Ok new_id, s') ->
  exists plan,
    new_id = ("bulk_scrape_" ++ strftime env now)%string
    /\ fst (_calculate_scrape_distribution env sources aph tz now s) = Ok plan
    /\ s' = mk_scheduler (account_rotator s)
              (scheduled_tasks s
               ++ [mk_task new_id (BULK_SCRAPE sources plan) tz now
                     "SCHEDULED" 0 (len sources) None None None])
              (running_tasks s) (calls s).
Proof.
  unfold schedule_bulk_scrape. unfold bind at 1.
  pose proof (_calculate_scrape_distribution_state env sources aph tz now s) as Hst.
  destruct (_calculate_scrape_distribution env sources aph tz now s)
    as [[plan|e] s1]; simpl in Hst; subst s1; [|discriminate].
  unfold bind, append_task, modify, ret. intros H. injection H as <- <-.
  exists plan. repeat split.
Qed.

Lemma find_task_app_found (task_id : string) (tasks more : list task) (k r : nat) :
  find_task task_id k tasks = Some r ->
  find_task task_id k (tasks ++ more) = Some r.
Proof.
  revert k. induction tasks as [|t tasks IH]; intros k; simpl; [discriminate|].
  destruct (id t =? task_id)%string; [auto|apply IH].
Qed.

Section Lookup.
Variable env : collaborators.

(** X17. Scheduling never changes the task an id resolves to: whatever
    [schedule_add_members] or [schedule_bulk_scrape] registers, an id that
    [_get_task] found before is found at the same task afterwards.  So a
    task that is given an id already in the registry, as happens to two
    tasks of a kind scheduled within one second, is not reached by its id. *)
Theorem scheduling_keeps_lookups (group : string) (users sources : list string)
  (accounts_per_hour : Z) (tz : string) (now : datetime) (s : scheduler)
  (task_id : string) (ref : task_ref) :
  find_task task_id 0 (scheduled_tasks s) = Some ref ->
  (forall new_id s',
     schedule_add_members env group users accounts_per_hour tz now s
     = (Ok new_id, s') ->
     _get_task task_id s' = (Ok (Some ref), s')
     /\ nth_error (scheduled_tasks s') ref = nth_error (scheduled_tasks s) ref)
  /\ (forall new_id s',
        schedule_bulk_scrape env sources accounts_per_hour tz now s
        = (Ok new_id, s') ->
        _get_task task_id s' = (Ok (Some ref), s')
        /\ nth_error (scheduled_tasks s') ref = nth_error (scheduled_tasks s) ref).
Proof.
  intros Hf.
  destruct (RegistryFacts.find_task_nth _ _ _ Hf) as (_ & t & Hn & _).
  rewrite Nat.sub_0_r in Hn.
  assert (Hlt : (ref < List.length (scheduled_tasks s))%nat)
    by (apply nth_error_Some; congruence).
  split; intros new_id s' Hrun.
  - apply schedule_add_members_appends in Hrun as (plan & _ & _ & ->).
    unfold _get_task, bind, get, ret. cbn [scheduled_tasks].
    rewrite (@find_task_app_found _ _ _ _ _ Hf). split; [reflexivity|].
    now apply nth_error_app1.
  - apply schedule_bulk_scrape_appends in Hrun as (plan & _ & _ & ->).
    unfold _get_task, bind, get, ret. cbn [scheduled_tasks].
    rewrite (@find_task_app_found _ _ _ _ _ Hf). split; [reflexivity|].
    now apply nth_error_app1.
Qed.

End Lookup.

Lemma scheduling_keeps_lookups_witness :
  (forall new_id s',
     schedule_add_members all_succeed "group" ["u1"] 200 "UTC" 0 one_scrape_scheduled
     = (Ok new_id, s') ->
     _get_task "bulk_scrape_19700101_000000" s' = (Ok (Some 0%nat), s')
     /\ nth_error (scheduled_tasks s') 0
        = nth_error (scheduled_tasks one_scrape_scheduled) 0)
  /\ (forall new_id s',
        schedule_bulk_scrape all_succeed ["c"] 100 "UTC" 0 one_scrape_scheduled
        = (Ok new_id, s') ->
        _get_task "bulk_scrape_19700101_000000" s' = (Ok (Some 0%nat), s')
        /\ nth_error (scheduled_tasks s') 0
           = nth_error (scheduled_tasks one_scrape_scheduled) 0).
Proof.
  apply (@scheduling_keeps_lookups all_succeed "group" ["u1"] ["c"] 200 "UTC" 0
           one_scrape_scheduled "bulk_scrape_19700101_000000" 0%nat).
  reflexivity.
Defined.

Section Register.
Variable env : collaborators.

(** X18. With users to add, a LIVE account, a zone [pytz] knows and a budget
    of at least one action per hour for each account used,
    [schedule_add_members] returns the id [add_members_<stamp>] and appends
    one task to the registry: SCHEDULED, progress 0, [total_actions] the
    number of users, its plan made for [min(len(users), live accounts)]
    accounts whose user counts sum to the number of users.  The rotator,
    the tasks already registered and the record of calls are as before. *)
Theorem add_members_task_registered (group : string) (users : list string)
  (accounts_per_hour : Z) (tz : string) (now : datetime) (s : scheduler) :
  pytz_known env tz = true ->
  1 <= len users ->
  1 <= len (filter AccountRotator.is_live
              (AccountRotator.accounts (account_rotator s))) ->
  Z.min (len users)
    (len (filter AccountRotator.is_live
            (AccountRotator.accounts (account_rotator s))))
  <= accounts_per_hour ->
  exists plan,
    schedule_add_members env group users accounts_per_hour tz now s
    = (Ok ("add_members_" ++ strftime env now)%string,
       mk_scheduler (account_rotator s)
         (scheduled_tasks s
          ++ [mk_task ("add_members_" ++ strftime env now)%string
                (ADD_MEMBERS group users plan) tz now
                "SCHEDULED" 0 (len users) None None None])
         (running_tasks s) (calls s))
    /\ len plan
       = Z.min (len users)
           (len (filter AccountRotator.is_live
                   (AccountRotator.accounts (account_rotator s))))
    /\ sum_users plan = len users.
Proof.
  intros Hz Hu Hl Hb.
  set (n := Z.min (len users) _) in *.
  destruct (@PlannerFacts._calculate_distribution_ok env (len users) n
              accounts_per_hour tz now s Hu ltac:(lia) Hb Hz)
    as (plan & Hrun & Hmap & _).
  destruct (stats_on_rotator s) as (stats & Hstats & Hlive).
  exists plan. split; [|split].
  - unfold schedule_add_members. unfold bind at 1. rewrite Hstats, Hlive.
    fold n. unfold bind at 1. rewrite Hrun.
    reflexivity.
  - unfold len at 1.
    rewrite <- (length_map users_count), Hmap, length_map, PlannerFacts.range_length.
    lia.
  - unfold sum_users. rewrite Hmap. unfold range. rewrite PlannerFacts.sum_range.
    + pose proof (Z.mod_pos_bound (len users) n ltac:(lia)).
      pose proof (Z.div_mod (len users) n ltac:(lia)). nia.
    + apply Z.mod_pos_bound. lia.
Qed.

End Register.

Lemma add_members_task_registered_witness :
  exists plan,
    schedule_add_members all_succeed "group" ["u1"; "u2"; "u3"] 200 "UTC" 0
      (mk_scheduler fresh_pair [] [] [])
    = (Ok ("add_members_" ++ strftime all_succeed 0)%string,
       mk_scheduler fresh_pair
         ([] ++ [mk_task ("add_members_" ++ strftime all_succeed 0)%string
                   (ADD_MEMBERS "group" ["u1"; "u2"; "u3"] plan) "UTC" 0
                   "SCHEDULED" 0 (len ["u1"; "u2"; "u3"]) None None None])
         [] [])
    /\ len plan = Z.min (len ["u1"; "u2"; "u3"]) 2
    /\ sum_users plan = len ["u1"; "u2"; "u3"].
Proof.
  apply (@add_members_task_registered all_succeed "group" ["u1"; "u2"; "u3"] 200
           "UTC" 0 (mk_scheduler fresh_pair [] [] []));
    [reflexivity | vm_compute; discriminate | vm_compute; discriminate
     | vm_compute; discriminate].
Defined.

Lemma find_task_none (task_id : string) (tasks : list task) (k : nat) :
  find_task task_id k tasks = None <-> forall t, In t tasks -> id t <> task_id.
Proof.
  revert k. induction tasks as [|t tasks IH]; intros k; simpl.
  - split; [intros _ t []|reflexivity].
  - destruct (id t =? task_id)%string eqn:E.
    + apply String.eqb_eq in E. split; [discriminate|].
      intros H. exfalso. apply (H t); auto.
    + apply String.eqb_neq in E. rewrite IH. split.
      * intros H t' [<-|Hin]; auto.
      * intros H t' Hin. apply H. now right.
Qed.

(** The report of [get_task_status] on an id that resolves to a task. *)
Lemma get_task_status_report (s : scheduler) (task_id : string) (ref : task_ref)
  (t : task) :
  find_task task_id 0 (scheduled_tasks s) = Some ref ->
  nth_error (scheduled_tasks s) ref = Some t ->
  (total_actions t = 0 -> get_task_status task_id s = (Raise ZeroDivisionError, s))
  /\ (total_actions t <> 0 ->
      exists entry, get_task_status task_id s = (Ok entry, s)
                    /\ reports_task t entry).
Proof.
  intros Hf Hn.
  unfold get_task_status, _get_task, read_task, bind, get, ret, lift, truediv.
  rewrite Hf, Hn. split; intros H.
  - now rewrite H.
  - destruct (total_actions t =? 0) eqn:E; [apply Z.eqb_eq in E; contradiction|].
    eexists. split; [reflexivity|].
    eexists. split; [reflexivity|]. repeat split.
Qed.

(** X19. [get_task_status] never writes to the scheduler, whether it
    returns a report, returns not-found or raises; it returns not-found
    exactly when no registered task carries the id. *)
Theorem get_task_status_reads_only (task_id : string) (s : scheduler) :
  snd (get_task_status task_id s) = s
  /\ (fst (get_task_status task_id s) = Ok None
      <-> forall t, In t (scheduled_tasks s) -> id t <> task_id).
Proof.
  destruct (find_task task_id 0 (scheduled_tasks s)) as [ref|] eqn:Hf.
  - destruct (RegistryFacts.find_task_nth _ _ _ Hf) as (_ & t & Hn & Hid).
    rewrite Nat.sub_0_r in Hn.
    destruct (@get_task_status_report s task_id ref t Hf Hn) as [Hz Hnz].
    assert (Hsome : ~ (forall t', In t' (scheduled_tasks s) -> id t' <> task_id)).
    { intros H. apply (H t); [eapply nth_error_In; eauto|exact Hid]. }
    destruct (Z.eq_dec (total_actions t) 0) as [E|E].
    + rewrite (Hz E). simpl. split; [reflexivity|].
      split; [discriminate|intros H; contradiction].
    + destruct (Hnz E) as (entry & Hrun & rep & -> & _). rewrite Hrun. simpl.
      split; [reflexivity|]. split; [discriminate|intros H; contradiction].
  - unfold get_task_status, _get_task, bind, get, ret. rewrite Hf. simpl.
    split; [reflexivity|]. split; [intros _|reflexivity].
    now apply (find_task_none task_id (scheduled_tasks s) 0).
Qed.

Lemma find_task_unique (tasks : list task) (k r : nat) (t : task) :
  NoDup (map id tasks) -> nth_error tasks r = Some t ->
  find_task (id t) k tasks = Some (k + r)%nat.
Proof.
  revert k r. induction tasks as [|t0 tasks IH]; intros k r Hnd Hn;
    [destruct r; discriminate|].
  simpl in Hnd. inversion Hnd as [|? ? Hnotin Hnd']; subst.
  destruct r as [|r]; simpl in *.
  - injection Hn as ->. rewrite String.eqb_refl. f_equal. lia.
  - destruct (id t0 =? id t)%string eqn:E.
    + apply String.eqb_eq in E. exfalso. apply Hnotin. rewrite E.
      apply in_map. eapply nth_error_In; eauto.
    + rewrite (IH (S k) r Hnd' Hn). f_equal. lia.
Qed.

Lemma resolves_to_itself (s : scheduler) (t : task) :
  NoDup (map id (scheduled_tasks s)) -> In t (scheduled_tasks s) ->
  exists ref, find_task (id t) 0 (scheduled_tasks s) = Some ref
              /\ nth_error (scheduled_tasks s) ref = Some t.
Proof.
  intros Hnd Hin. apply In_nth_error in Hin as [r Hr].
  exists r. split; [|exact Hr]. now apply (@find_task_unique _ 0%nat r t Hnd Hr).
Qed.

Lemma collect_reports (s : scheduler) (xs : list task) :
  NoDup (map id (scheduled_tasks s)) ->
  (forall t, In t xs -> In t (scheduled_tasks s) /\ total_actions t <> 0) ->
  exists entries,
    collect (fun task => get_task_status (id task)) xs s = (Ok entries, s)
    /\ Forall2 reports_task xs entries.
Proof.
  intros Hnd. induction xs as [|x xs IH]; intros Hall.
  - exists []. split; [reflexivity|constructor].
  - destruct (Hall x (or_introl eq_refl)) as [Hin Hnz].
    destruct (@resolves_to_itself s x Hnd Hin) as (ref & Hf & Hn).
    destruct (@get_task_status_report s (id x) ref x Hf Hn) as [_ Hok].
    destruct (Hok Hnz) as (entry & Hrun & Hrep).
    destruct IH as (entries & Hrest & Hreps); [intros t Ht; apply Hall; now right|].
    exists (entry :: entries). split; [|now constructor].
    cbn [collect]. unfold bind. rewrite Hrun, Hrest. reflexivity.
Qed.

Lemma collect_raises (s : scheduler) (xs : list task) (t : task) :
  NoDup (map id (scheduled_tasks s)) ->
  (forall x, In x xs -> In x (scheduled_tasks s)) ->
  In t xs -> total_actions t = 0 ->
  collect (fun task => get_task_status (id task)) xs s
  = (Raise ZeroDivisionError, s).
Proof.
  intros Hnd. induction xs as [|x xs IH]; intros Hall Hin Hz; [inversion Hin|].
  destruct (@resolves_to_itself s x Hnd (Hall x (or_introl eq_refl)))
    as (ref & Hf & Hn).
  destruct (@get_task_status_report s (id x) ref x Hf Hn) as [Hraise Hok].
  cbn [collect]. unfold bind at 1.
  destruct (Z.eq_dec (total_actions x) 0) as [E|E].
  - now rewrite (Hraise E).
  - destruct (Hok E) as (entry & Hrun & _). rewrite Hrun.
    destruct Hin as [->|Hin]; [contradiction|].
    unfold bind. rewrite IH; auto. intros y Hy. apply Hall. now right.
Qed.

(** X20. When the ids of the registry are distinct and no task has
    [total_actions = 0], [list_tasks] returns one report for each task, in
    the order of the registry, carrying the id, kind, status, progress,
    [total_actions] and error of the task; with a status filter that is
    not the empty string it reports the tasks of that status and no other.
    Nothing is written. *)
Theorem list_tasks_reports_each_task (status_filter : option string)
  (s : scheduler) :
  NoDup (map id (scheduled_tasks s)) ->
  (forall t, In t (scheduled_tasks s) -> total_actions t <> 0) ->
  exists entries,
    list_tasks status_filter s = (Ok entries, s)
    /\ Forall2 reports_task
         (match filter_given status_filter with
          | Some wanted =>
            filter (fun t => (status t =? wanted)%string) (scheduled_tasks s)
          | None => scheduled_tasks s
          end) entries
    /\ (forall wanted, filter_given status_filter = Some wanted ->
          Forall (fun entry =>
                    exists report, entry = Some report
                                   /\ report_status report = wanted) entries).
Proof.
  intros Hnd Hnz. unfold list_tasks, bind, get.
  set (selected := match filter_given status_filter with
                   | Some wanted =>
                     filter (fun t => (status t =? wanted)%string) (scheduled_tasks s)
                   | None => scheduled_tasks s
                   end).
  assert (Hsel : forall t, In t selected -> In t (scheduled_tasks s)).
  { unfold selected. destruct (filter_given status_filter); [|auto].
    intros t Ht. now apply filter_In in Ht. }
  destruct (@collect_reports s selected Hnd) as (entries & Hrun & Hreps).
  { intros t Ht. split; [now apply Hsel|apply Hnz; now apply Hsel]. }
  exists entries. split; [exact Hrun|]. split; [exact Hreps|].
  intros wanted Hw.
  assert (Hst : Forall (fun t => status t = wanted) selected).
  { unfold selected. rewrite Hw. apply Forall_forall. intros t Ht.
    apply filter_In in Ht as [_ Ht]. now apply String.eqb_eq. }
  clear - Hreps Hst. induction Hreps as [|t entry ts es Hrep _ IH]; [constructor|].
  inversion Hst; subst. constructor; [|now apply IH].
  destruct Hrep as (report & -> & _ & _ & Hs & _). eauto.
Qed.

(** X21. One task with [total_actions = 0] (a scrape task scheduled on an
    empty source list) makes [list_tasks] raise [ZeroDivisionError] for the
    whole registry, and for every status filter that selects the task. *)
Theorem one_empty_task_breaks_list_tasks (status_filter : option string)
  (s : scheduler) (t : task) :
  NoDup (map id (scheduled_tasks s)) ->
  In t (scheduled_tasks s) -> total_actions t = 0 ->
  (forall wanted, filter_given status_filter = Some wanted -> status t = wanted) ->
  list_tasks status_filter s = (Raise ZeroDivisionError, s).
Proof.
  intros Hnd Hin Hz Hsel. unfold list_tasks, bind, get.
  apply (@collect_raises s _ t Hnd); [| |exact Hz].
  - destruct (filter_given status_filter); [|auto].
    intros x Hx. now apply filter_In in Hx.
  - destruct (filter_given status_filter) as [wanted|]; [|exact Hin].
    apply filter_In. split; [exact Hin|]. apply String.eqb_eq. now apply Hsel.
Qed.

Lemma list_tasks_reports_each_task_witness :
  exists entries,
    list_tasks (Some "SCHEDULED") two_users_scheduled
    = (Ok entries, two_users_scheduled)
    /\ Forall2 reports_task
         (filter (fun t => (status t =? "SCHEDULED")%string)
            (scheduled_tasks two_users_scheduled)) entries
    /\ (forall wanted, Some "SCHEDULED" = Some wanted ->
          Forall (fun entry =>
                    exists report, entry = Some report
                                   /\ report_status report = wanted) entries).
Proof.
  apply (@list_tasks_reports_each_task (Some "SCHEDULED") two_users_scheduled).
  - vm_compute. constructor; [intros []|constructor].
  - intros t [<-|[]]. vm_compute. discriminate.
Defined.

Lemma one_empty_task_breaks_list_tasks_witness :
  list_tasks None
    (snd (schedule_bulk_scrape all_succeed [] 100 "UTC" 0 two_users_scheduled))
  = (Raise ZeroDivisionError,
     snd (schedule_bulk_scrape all_succeed [] 100 "UTC" 0 two_users_scheduled)).
Proof.
  apply (@one_empty_task_breaks_list_tasks None
           (snd (schedule_bulk_scrape all_succeed [] 100 "UTC" 0 two_users_scheduled))
           (mk_task "bulk_scrape_19700101_000000" (BULK_SCRAPE [] []) "UTC" 0
              "SCHEDULED" 0 0 None None None)).
  - vm_compute. constructor.
    + intros [H|[]]. discriminate.
    + constructor; [intros []|constructor].
  - vm_compute. right. left. reflexivity.
  - reflexivity.
  - discriminate.
Defined.

End ScheduleExtra.

(** ** More on the executor *)

Module ExecutorExtra.
Import Py Notions PyFacts BulkActionScheduler ExecutorFacts.
Local Open Scope string_scope.
Local Open Scope list_scope.
Local Open Scope Z_scope.

(** A loop over [xs] whose passes return, under a condition [J] on the
    scheduler that the passes keep. [Q] is what a pass on [x] records and
    [P] what the loop over a list records. *)
Lemma for_each_ran_inv {A} (J : scheduler -> Prop)
  (Q : A -> list event -> Prop) (P : list A -> list event -> Prop)
  (ref : task_ref) (xs : list A) (body : A -> M scheduler unit) :
  (forall s s' evs, J s -> ran ref evs s s' -> J s') ->
  P [] [] ->
  (forall x xs e1 e2, Q x e1 -> P xs e2 -> P (x :: xs) (e1 ++ e2)) ->
  (forall x s, In x xs -> J s ->
     exists evs s', body x s = (Ok tt, s') /\ ran ref evs s s' /\ Q x evs) ->
  forall s, J s ->
    exists evs s', for_each xs body s = (Ok tt, s') /\ ran ref evs s s' /\ P xs evs.
Proof.
  intros HJ Hnil Hcons. induction xs as [|x xs IH]; intros Hbody s Hs.
  - exists [], s. split; [reflexivity|]. split; [apply ran_nil|exact Hnil].
  - destruct (Hbody x s (or_introl eq_refl) Hs) as (e1 & s1 & H1 & R1 & Q1).
    destruct (IH (fun y s0 Hy => Hbody y s0 (or_intror Hy)) s1 (HJ _ _ _ Hs R1))
      as (e2 & s2 & H2 & R2 & P2).
    exists (e1 ++ e2), s2. simpl. unfold bind. rewrite H1, H2.
    split; [reflexivity|]. split; [eapply ran_app; eauto|auto].
Qed.

Lemma source_blocks_app (env : collaborators) (l1 l2 : list string)
  (e1 e2 : list event) :
  source_blocks env l1 e1 -> source_blocks env l2 e2 ->
  source_blocks env (l1 ++ l2) (e1 ++ e2).
Proof.
  induction 1; intros H2; simpl; [exact H2| |]; constructor; auto.
Qed.

Section Runs.
Variable env : collaborators.

(** One source of a scrape run: a selection, and the scrape when an
    account was returned. *)
Lemma scrape_source_ran (ref : task_ref) (source : string) (s : scheduler) :
  exists evs s',
    try_except
      (bind (get_best_account env) (fun account =>
         match account with
         | None => ret tt
         | Some account =>
           bind (scrape_single_source env account source) (fun _ =>
             update_task ref (fun task => set_progress task (progress task + 1)))
         end))
      (fun e => ret tt) s
    = (Ok tt, s')
    /\ ran ref evs s s'
    /\ source_blocks env [source] evs.
Proof.
  destruct (get_best_account_ran env ref s) as (r & s1 & Hsel & Rsel).
  unfold try_except. unfold bind at 1. rewrite Hsel.
  destruct r as [a|].
  - destruct s1 as [rot tasks running log].
    unfold scrape_single_source, bind, get, record_call, modify, lift, ret,
      update_task. simpl.
    destruct (_scrape_single_source env (List.length log) a source)
      as [[]|e] eqn:E.
    + eexists [_; _], _. split; [reflexivity|]. split.
      * apply (@ran_app ref [_] [_] s _ _ Rsel). unfold ran. simpl. repeat split.
      * rewrite <- E. repeat constructor.
    + eexists [_; _], _. split; [reflexivity|]. split.
      * apply (@ran_app ref [_] [_] s _ _ Rsel). unfold ran. simpl. repeat split.
        symmetry. apply update_nth_id, add_progress_0.
      * rewrite <- E. repeat constructor.
  - exists [call_get_best_account None], s1.
    split; [reflexivity|]. split; [exact Rsel|repeat constructor].
Qed.

Lemma _execute_bulk_scrape_task_ran (ref : task_ref)
  (distribution : list batch_distribution) (s : scheduler) :
  exists evs s',
    _execute_bulk_scrape_task env ref distribution s = (Ok tt, s')
    /\ ran ref evs s s'
    /\ source_blocks env (plan_sources distribution) evs.
Proof.
  unfold _execute_bulk_scrape_task.
  apply (@for_each_ran_inv _ (fun _ => True)
           (fun batch evs => source_blocks env (batch_sources batch) evs)
           (fun batches evs => source_blocks env (plan_sources batches) evs));
    auto.
  - constructor.
  - intros batch batches e1 e2 H1 H2. unfold plan_sources in *. simpl.
    now apply source_blocks_app.
  - intros batch s0 _ _.
    apply (@for_each_ran_inv _ (fun _ => True)
             (fun source evs => source_blocks env [source] evs)
             (fun sources evs => source_blocks env sources evs)); auto.
    + constructor.
    + intros source sources e1 e2 H1 H2.
      apply (@source_blocks_app env [source] sources e1 e2 H1 H2).
    + intros source s1 _ _. apply scrape_source_ran.
Qed.

(** The body of [execute_scheduled_task], for a task of either kind. *)
Lemma task_body_ran (ref : task_ref) (w : work) (s : scheduler) :
  exists evs s',
    match w with
    | ADD_MEMBERS group users distribution =>
      _execute_add_members_task env ref group users distribution
    | BULK_SCRAPE sources distribution =>
      _execute_bulk_scrape_task env ref distribution
    end s = (Ok tt, s')
    /\ ran ref evs s s'
    /\ run_shape env w evs.
Proof.
  destruct w as [group users distribution|sources distribution].
  - apply _execute_add_members_task_ran.
  - apply _execute_bulk_scrape_task_ran.
Qed.

(** [execute_scheduled_task] on a SCHEDULED task whose body returns and
    records calls with the property [Post]. *)
Lemma execute_scheduled_task_with (Post : list event -> Prop) (s : scheduler)
  (task_id : string) (ref : task_ref) (t : task) :
  find_task task_id 0 (scheduled_tasks s) = Some ref ->
  nth_error (scheduled_tasks s) ref = Some t ->
  status t = "SCHEDULED" ->
  (forall s3, account_rotator s3 = account_rotator s ->
     exists evs s4,
       match type t with
       | ADD_MEMBERS group users distribution =>
         _execute_add_members_task env ref group users distribution
       | BULK_SCRAPE sources distribution =>
         _execute_bulk_scrape_task env ref distribution
       end s3 = (Ok tt, s4)
       /\ ran ref evs s3 s4 /\ Post evs) ->
  exists evs s',
    execute_scheduled_task env task_id s = (Ok tt, s')
    /\ Post evs
    /\ account_rotator s' = account_rotator s
    /\ calls s' = calls s ++ evs
    /\ running_tasks s' = dict_pop task_id (dict_set task_id ref (running_tasks s))
    /\ scheduled_tasks s'
       = update_nth ref
           (fun task =>
              set_completed_at
                (set_status
                   (add_progress (count_ok evs)
                      (set_started_at (set_status task "RUNNING")
                         (datetime_now env (List.length (calls s)))))
                   "COMPLETED")
                (datetime_now env (List.length (calls s ++ evs))))
           (scheduled_tasks s).
Proof.
  intros Hf Hn Hs Hbody.
  unfold execute_scheduled_task.
  unfold bind at 1. unfold _get_task, bind, get, ret. rewrite Hf.
  unfold read_task, bind, get, ret. rewrite Hn, Hs.
  rewrite String.eqb_refl. cbn [negb].
  unfold try_except, update_task, now_, set_running, pop_running, modify,
    bind, get, ret. cbn beta iota.
  match goal with
  | |- context [match type t with
                | ADD_MEMBERS _ _ _ => _ | BULK_SCRAPE _ _ => _ end ?s3] =>
    destruct (Hbody s3 eq_refl)
      as (evs & s4 & Hrun & (Hrot & Hrunning & Hcalls & Htasks) & Hpost)
  end.
  rewrite Hrun. cbn beta iota.
  eexists evs, _. split; [reflexivity|].
  cbn [account_rotator calls scheduled_tasks running_tasks] in *.
  split; [exact Hpost|]. split; [exact Hrot|]. split; [exact Hcalls|].
  split; [now rewrite Hrunning|].
  rewrite Htasks, Hcalls, !update_nth_twice. reflexivity.
Qed.

Lemma find_task_update_nth (task_id : string) (f : task -> task) (n k : nat)
  (tasks : list task) :
  (forall x, id (f x) = id x) ->
  find_task task_id k (update_nth n f tasks) = find_task task_id k tasks.
Proof.
  intros Hid. revert n k. induction tasks as [|x tasks IH]; intros n k.
  - destruct n; reflexivity.
  - destruct n as [|n]; simpl.
    + now rewrite Hid.
    + now rewrite IH.
Qed.

Lemma nth_error_update_nth_other {A} (f : A -> A) (n i : nat) (xs : list A) :
  i <> n -> nth_error (update_nth n f xs) i = nth_error xs i.
Proof.
  revert n i. induction xs as [|x xs IH]; intros n i Hi.
  - destruct n; reflexivity.
  - destruct n as [|n], i as [|i]; simpl; try reflexivity; try congruence.
    apply IH. congruence.
Qed.

Lemma map_update_nth {A B} (g : A -> B) (f : A -> A) (n : nat) (xs : list A) :
  (forall x, g (f x) = g x) -> map g (update_nth n f xs) = map g xs.
Proof.
  intros H. revert n. induction xs as [|x xs IH]; intros [|n]; simpl;
    try reflexivity.
  - now rewrite H.
  - now rewrite IH.
Qed.

Lemma dict_get_pop {V} (k : string) (d : list (string * V)) :
  dict_get k (dict_pop k d) = None.
Proof.
  unfold dict_pop. induction d as [|[k' v] d IH]; simpl; [reflexivity|].
  destruct (k' =? k)%string eqn:E; simpl; [exact IH|]. now rewrite E.
Qed.

(** [execute_scheduled_task] where it does nothing. *)
Lemma execute_skips (s : scheduler) (task_id : string) :
  (find_task task_id 0 (scheduled_tasks s) = None ->
   execute_scheduled_task env task_id s = (Ok tt, s))
  /\ (forall ref t,
        find_task task_id 0 (scheduled_tasks s) = Some ref ->
        nth_error (scheduled_tasks s) ref = Some t ->
        status t <> "SCHEDULED" ->
        execute_scheduled_task env task_id s = (Ok tt, s)).
Proof.
  split.
  - intros Hf. unfold execute_scheduled_task, _get_task, bind, get, ret.
    now rewrite Hf.
  - intros ref t Hf Hn Hs.
    unfold execute_scheduled_task, _get_task, read_task, bind, get, ret.
    rewrite Hf, Hn. apply String.eqb_neq in Hs. now rewrite Hs.
Qed.

(** X22. A SCHEDULED task of either kind is run to the end: the call
    returns, the task is COMPLETED (the FAILED branch is not taken, every
    exception of a unit being caught inside the loops), it carries a start
    and a completion time, its progress has moved by the number of
    single-action calls that returned, and its id is no longer in
    [running_tasks].  Executing it again changes nothing: a task runs at
    most once. *)
Theorem scheduled_task_runs_once (s : scheduler) (task_id : string)
  (ref : task_ref) (t : task) :
  find_task task_id 0 (scheduled_tasks s) = Some ref ->
  nth_error (scheduled_tasks s) ref = Some t ->
  status t = "SCHEDULED" ->
  exists evs s' t',
    execute_scheduled_task env task_id s = (Ok tt, s')
    /\ calls s' = calls s ++ evs
    /\ run_shape env (type t) evs
    /\ nth_error (scheduled_tasks s') ref = Some t'
    /\ status t' = "COMPLETED"
    /\ progress t' = progress t + count_ok evs
    /\ started_at t' <> None /\ completed_at t' <> None
    /\ error t' = error t
    /\ dict_get task_id (running_tasks s') = None
    /\ execute_scheduled_task env task_id s' = (Ok tt, s').
Proof.
  intros Hf Hn Hs.
  destruct (@execute_scheduled_task_with (run_shape env (type t)) s task_id ref t
              Hf Hn Hs) as (evs & s' & Hrun & Hshape & _ & Hcalls & Hrunning & Htasks).
  { intros s3 _. apply task_body_ran. }
  assert (Hn' : nth_error (scheduled_tasks s') ref
                = Some (set_completed_at
                          (set_status
                             (add_progress (count_ok evs)
                                (set_started_at (set_status t "RUNNING")
                                   (datetime_now env (List.length (calls s)))))
                             "COMPLETED")
                          (datetime_now env (List.length (calls s ++ evs))))).
  { rewrite Htasks, nth_error_update_nth, Hn. reflexivity. }
  eexists evs, s', _. split; [exact Hrun|]. split; [exact Hcalls|].
  split; [exact Hshape|]. split; [exact Hn'|].
  simpl. repeat split; try discriminate.
  - rewrite Hrunning. apply dict_get_pop.
  - eapply (proj2 (execute_skips s' task_id)); [|exact Hn'|discriminate].
    rewrite Htasks, find_task_update_nth; [exact Hf|reflexivity].
Qed.

(** X23. Whatever the id, [execute_scheduled_task] writes to one task at
    most, the one [_get_task] finds: the rotator is as it was, so are all
    other tasks, and no task changes its id, payload, time zone, creation
    time or [total_actions]; the call returns without raising.  For an id
    that is not registered, or a task that is not SCHEDULED, the scheduler
    is left as it was. *)
Theorem execution_frame (s : scheduler) (task_id : string) :
  fst (execute_scheduled_task env task_id s) = Ok tt
  /\ account_rotator (snd (execute_scheduled_task env task_id s))
     = account_rotator s
  /\ map fixed_fields (scheduled_tasks (snd (execute_scheduled_task env task_id s)))
     = map fixed_fields (scheduled_tasks s)
  /\ (forall ref i, find_task task_id 0 (scheduled_tasks s) = Some ref -> i <> ref ->
        nth_error (scheduled_tasks (snd (execute_scheduled_task env task_id s))) i
        = nth_error (scheduled_tasks s) i)
  /\ (find_task task_id 0 (scheduled_tasks s) = None ->
      snd (execute_scheduled_task env task_id s) = s)
  /\ (forall ref t, find_task task_id 0 (scheduled_tasks s) = Some ref ->
        nth_error (scheduled_tasks s) ref = Some t -> status t <> "SCHEDULED" ->
        snd (execute_scheduled_task env task_id s) = s).
Proof.
  destruct (execute_skips s task_id) as [Hnone Hstarted].
  destruct (find_task task_id 0 (scheduled_tasks s)) as [ref|] eqn:Hf.
  - destruct (RegistryFacts.find_task_nth _ _ _ Hf) as (_ & t & Hn & _).
    rewrite Nat.sub_0_r in Hn.
    destruct (string_dec (status t) "SCHEDULED") as [Hs|Hs].
    + destruct (@execute_scheduled_task_with (fun _ => True) s task_id ref t
                  Hf Hn Hs) as (evs & s' & Hrun & _ & Hrot & _ & _ & Htasks).
      { intros s3 _. destruct (task_body_ran ref (type t) s3)
          as (evs & s4 & H1 & H2 & _). eauto. }
      rewrite Hrun. simpl. rewrite Htasks.
      split; [reflexivity|]. split; [exact Hrot|]. split.
      * apply map_update_nth. reflexivity.
      * split; [|split; [discriminate|]].
        -- intros ref' i Href Hi. injection Href as <-.
           now apply nth_error_update_nth_other.
        -- intros ref' t' Href Hn' Hs'. injection Href as <-.
           rewrite Hn in Hn'. injection Hn' as <-. contradiction.
    + rewrite (Hstarted ref t eq_refl Hn Hs). simpl.
      repeat split; auto.
  - rewrite (Hnone eq_refl). simpl. repeat split; auto.
Qed.

Lemma source_blocks_counts (sources : list string) (evs : list event) :
  source_blocks env sources evs ->
  count_selections evs = len sources
  /\ 0 <= count_ok evs <= len sources
  /\ count_scrapes evs <= len sources.
Proof.
  unfold count_selections, count_ok, count_scrapes, len.
  induction 1 as [|source rest evs _ (IH1 & IH2 & IH3)
                  |source rest evs a k _ (IH1 & IH2 & IH3)].
  - simpl. lia.
  - cbn [map selection unit_done scrape_tried List.length].
    rewrite !PlannerFacts.sum_Z_cons. lia.
  - cbn [map selection unit_done scrape_tried List.length].
    rewrite !PlannerFacts.sum_Z_cons.
    destruct (_scrape_single_source env k a source); lia.
Qed.

(** X24. A scrape task as [schedule_bulk_scrape] registers it, under an id
    not yet in the registry, runs with one call of [get_best_account] for
    each source, in the order of the source list, and ends COMPLETED with
    [0 <= progress <= total_actions]: progress counts the scrapes that
    returned, at most one for each source. *)
Theorem scheduled_scrape_progress_within_total (sources : list string)
  (accounts_per_hour : Z) (tz : string) (now : datetime) (s : scheduler) :
  pytz_known env tz = true ->
  accounts_per_hour <> 0 ->
  find_task ("bulk_scrape_" ++ strftime env now)%string 0 (scheduled_tasks s) = None ->
  exists task_id s1 evs s2 t',
    schedule_bulk_scrape env sources accounts_per_hour tz now s = (Ok task_id, s1)
    /\ execute_scheduled_task env task_id s1 = (Ok tt, s2)
    /\ calls s2 = calls s ++ evs
    /\ source_blocks env sources evs
    /\ count_selections evs = len sources
    /\ nth_error (scheduled_tasks s2) (List.length (scheduled_tasks s)) = Some t'
    /\ id t' = task_id
    /\ status t' = "COMPLETED"
    /\ total_actions t' = len sources
    /\ progress t' = count_ok evs
    /\ 0 <= progress t' <= total_actions t'.
Proof.
  intros Hz Ha Hfresh.
  destruct (@PlannerExtra.scrape_distribution_ok env sources accounts_per_hour tz
              now s Hz Ha) as (plan & Hplan & Hsrc & _).
  set (task_id := ("bulk_scrape_" ++ strftime env now)%string) in *.
  set (t := mk_task task_id (BULK_SCRAPE sources plan) tz now "SCHEDULED" 0
              (len sources) None None None).
  set (s1 := mk_scheduler (account_rotator s) (scheduled_tasks s ++ [t])
               (running_tasks s) (calls s)).
  assert (Hsched : schedule_bulk_scrape env sources accounts_per_hour tz now s
                   = (Ok task_id, s1)).
  { unfold schedule_bulk_scrape. unfold bind at 1. rewrite Hplan. reflexivity. }
  assert (Hf : find_task task_id 0 (scheduled_tasks s1)
               = Some (List.length (scheduled_tasks s)))
    by (apply (@RegistryFacts.find_task_fresh task_id _ t 0%nat Hfresh); reflexivity).
  assert (Hn : nth_error (scheduled_tasks s1) (List.length (scheduled_tasks s))
               = Some t).
  { simpl. rewrite nth_error_app2 by lia. now rewrite Nat.sub_diag. }
  destruct (@execute_scheduled_task_with (source_blocks env sources) s1 task_id
              (List.length (scheduled_tasks s)) t Hf Hn eq_refl)
    as (evs & s2 & Hrun & Hshape & _ & Hcalls & _ & Htasks).
  { intros s3 _. simpl. rewrite <- Hsrc. apply _execute_bulk_scrape_task_ran. }
  destruct (source_blocks_counts Hshape) as (Hsel & Hok & _).
  exists task_id, s1, evs, s2. eexists.
  split; [exact Hsched|]. split; [exact Hrun|]. split; [exact Hcalls|].
  split; [exact Hshape|]. split; [exact Hsel|]. split.
  { rewrite Htasks, nth_error_update_nth, Hn. reflexivity. }
  simpl. repeat split; lia.
Qed.

Lemma rotator_no_live (rot : AccountRotator.rotator) (now : Q) :
  (forall a, In a (AccountRotator.accounts rot) -> AccountRotator.status a <> "LIVE") ->
  AccountRotator.get_best_account now rot = (Ok None, rot).
Proof.
  intros Hno.
  destruct (RotatorFacts.get_best_account_cases now rot)
    as [[_ H]|(l1 & r & a & l2 & Hl & _)]; [exact H|].
  assert (Hx : In (r, a) (AccountRotator.live_accounts rot))
    by (rewrite Hl; apply in_elt).
  apply RotatorFacts.live_accounts_In in Hx as [Hn Hlive].
  exfalso. apply (Hno a); [eapply nth_error_In; eauto|exact Hlive].
Qed.

Lemma get_best_account_none (ref : task_ref) (s : scheduler) :
  (forall a, In a (AccountRotator.accounts (account_rotator s)) ->
     AccountRotator.status a <> "LIVE") ->
  exists s',
    get_best_account env s = (Ok None, s')
    /\ ran ref [call_get_best_account None] s s'.
Proof.
  intros Hno. destruct s as [rot tasks running log]. simpl in Hno.
  eexists. split.
  - unfold get_best_account, bind, get, on_rotator, record_call, modify, ret.
    simpl. rewrite (@rotator_no_live rot _ Hno). reflexivity.
  - unfold ran. simpl. repeat split.
    symmetry. apply update_nth_id, add_progress_0.
Qed.

(** X25. When no account of the pool is LIVE at the time of the run, a
    SCHEDULED task of either kind makes no single-action call at all: the
    record of the run holds only calls of [get_best_account] that returned
    [None], and the task ends COMPLETED with the progress it had. *)
Theorem no_live_account_no_action (s : scheduler) (task_id : string)
  (ref : task_ref) (t : task) :
  find_task task_id 0 (scheduled_tasks s) = Some ref ->
  nth_error (scheduled_tasks s) ref = Some t ->
  status t = "SCHEDULED" ->
  (forall a, In a (AccountRotator.accounts (account_rotator s)) ->
     AccountRotator.status a <> "LIVE") ->
  exists evs s' t',
    execute_scheduled_task env task_id s = (Ok tt, s')
    /\ calls s' = calls s ++ evs
    /\ Forall (fun ev => ev = call_get_best_account None) evs
    /\ count_units evs = 0 /\ count_scrapes evs = 0
    /\ nth_error (scheduled_tasks s') ref = Some t'
    /\ status t' = "COMPLETED"
    /\ progress t' = progress t.
Proof.
  intros Hf Hn Hs Hno.
  set (J := fun s0 : scheduler => account_rotator s0 = account_rotator s).
  assert (HJ : forall s0 s1 evs, J s0 -> ran ref evs s0 s1 -> J s1).
  { unfold J. intros s0 s1 evs H0 (H1 & _). congruence. }
  set (none := fun ev : event => ev = call_get_best_account None).
  assert (Hbody : forall s3, account_rotator s3 = account_rotator s ->
            exists evs s4,
              match type t with
              | ADD_MEMBERS group users distribution =>
                _execute_add_members_task env ref group users distribution
              | BULK_SCRAPE sources distribution =>
                _execute_bulk_scrape_task env ref distribution
              end s3 = (Ok tt, s4)
              /\ ran ref evs s3 s4 /\ Forall none evs).
  { intros s3 H3. destruct (type t) as [group users distribution|sources distribution].
    - unfold _execute_add_members_task.
      apply (@for_each_ran_inv _ J (fun _ evs => Forall none evs)
               (fun _ evs => Forall none evs)); auto.
      + intros x xs e1 e2 H1 H2. apply Forall_app. auto.
      + intros account_dist s0 _ H0.
        destruct (@get_best_account_none ref s0) as (s1 & Hsel & Rsel).
        { unfold J in H0. now rewrite H0. }
        exists [call_get_best_account None], s1.
        unfold bind. rewrite Hsel. split; [reflexivity|].
        split; [exact Rsel|]. repeat constructor.
    - unfold _execute_bulk_scrape_task.
      apply (@for_each_ran_inv _ J (fun _ evs => Forall none evs)
               (fun _ evs => Forall none evs)); auto.
      + intros x xs e1 e2 H1 H2. apply Forall_app. auto.
      + intros batch s0 _ H0.
        apply (@for_each_ran_inv _ J (fun _ evs => Forall none evs)
                 (fun _ evs => Forall none evs)); auto.
        * intros x xs e1 e2 H1 H2. apply Forall_app. auto.
        * intros source s1 _ H1.
          destruct (@get_best_account_none ref s1) as (s2 & Hsel & Rsel).
          { unfold J in H1. now rewrite H1. }
          exists [call_get_best_account None], s2.
          unfold try_except, bind. rewrite Hsel. split; [reflexivity|].
          split; [exact Rsel|]. repeat constructor. }
  destruct (@execute_scheduled_task_with (Forall none) s task_id ref t
              Hf Hn Hs Hbody) as (evs & s' & Hrun & Hnone & _ & Hcalls & _ & Htasks).
  assert (Hcounts : count_units evs = 0 /\ count_scrapes evs = 0 /\ count_ok evs = 0).
  { clear - Hnone. unfold count_units, count_scrapes, count_ok.
    induction Hnone as [|ev evs Hev _ (IH1 & IH2 & IH3)]; [repeat split|].
    unfold none in Hev. subst ev. simpl. rewrite IH1, IH2, IH3. repeat split. }
  destruct Hcounts as (Hu & Hsc & Hok).
  exists evs, s'. eexists.
  split; [exact Hrun|]. split; [exact Hcalls|]. split; [exact Hnone|].
  split; [exact Hu|]. split; [exact Hsc|]. split.
  { rewrite Htasks, nth_error_update_nth, Hn. reflexivity. }
  simpl. rewrite Hok. split; [reflexivity|lia].
Qed.

Lemma selection_finds_live (ref : task_ref) (s : scheduler)
  (i : AccountRotator.acc_ref) (a : AccountRotator.account) :
  nth_error (AccountRotator.accounts (account_rotator s)) i = Some a ->
  AccountRotator.status a = "LIVE" ->
  exists r s',
    get_best_account env s = (Ok (Some r), s')
    /\ ran ref [call_get_best_account (Some r)] s s'.
Proof.
  intros Ha Hlive. destruct s as [rot tasks running log]. simpl in Ha.
  destruct (@RotatorExtra.get_best_account_some
              (time_time env (List.length log)) rot i a Ha Hlive) as (r & Hr).
  pose proof (RotatorFacts.get_best_account_state
                (time_time env (List.length log)) rot) as Hst.
  destruct (AccountRotator.get_best_account (time_time env (List.length log)) rot)
    as [res rot'] eqn:E. simpl in Hr, Hst. subst res rot'.
  exists r. eexists. split.
  - unfold get_best_account, bind, get, on_rotator, record_call, modify, ret.
    simpl. rewrite E. reflexivity.
  - unfold ran. simpl. repeat split.
    symmetry. apply update_nth_id, add_progress_0.
Qed.

(** X26. With a LIVE account in the pool and single-action calls that always
    return, the run of a SCHEDULED add-members task whose slot targets do
    not exceed the number of users moves the progress by the sum of the
    slot targets of its plan: progress counts planned units, restarting
    from the first user in every slot, and [total_actions] plays no part
    in it. *)
Theorem progress_counts_planned_units (s : scheduler) (task_id : string)
  (ref : task_ref) (t : task) (group : string) (users : list string)
  (distribution : list account_distribution) :
  find_task task_id 0 (scheduled_tasks s) = Some ref ->
  nth_error (scheduled_tasks s) ref = Some t ->
  status t = "SCHEDULED" ->
  type t = ADD_MEMBERS group users distribution ->
  (forall k a g u, _add_single_member env k a g u = Ok tt) ->
  (exists i a, nth_error (AccountRotator.accounts (account_rotator s)) i = Some a
               /\ AccountRotator.status a = "LIVE") ->
  (forall d slot, In d distribution -> In slot (time_slots d) ->
     target_actions slot <= len users) ->
  exists evs s' t',
    execute_scheduled_task env task_id s = (Ok tt, s')
    /\ calls s' = calls s ++ evs
    /\ count_ok evs = planned_units distribution
    /\ nth_error (scheduled_tasks s') ref = Some t'
    /\ status t' = "COMPLETED"
    /\ total_actions t' = total_actions t
    /\ progress t' = progress t + planned_units distribution.
Proof.
  intros Hf Hn Hs Ht Hsucceed (i & a & Ha & Hlive) Htargets.
  set (J := fun s0 : scheduler => account_rotator s0 = account_rotator s).
  assert (HJ : forall s0 s1 evs, J s0 -> ran ref evs s0 s1 -> J s1).
  { unfold J. intros s0 s1 evs H0 (H1 & _). congruence. }
  assert (Hbody : forall s3, account_rotator s3 = account_rotator s ->
            exists evs s4,
              match type t with
              | ADD_MEMBERS group users distribution =>
                _execute_add_members_task env ref group users distribution
              | BULK_SCRAPE sources distribution =>
                _execute_bulk_scrape_task env ref distribution
              end s3 = (Ok tt, s4)
              /\ ran ref evs s3 s4 /\ count_ok evs = planned_units distribution).
  { intros s3 H3. rewrite Ht. unfold _execute_add_members_task.
    apply (@for_each_ran_inv _ J
             (fun d evs =>
                count_ok evs
                = sum_Z (map (fun slot => Z.max 0 (target_actions slot))
                           (time_slots d)))
             (fun plan evs => count_ok evs = planned_units plan)); auto.
    - intros d plan e1 e2 H1 H2. rewrite count_ok_app, H1, H2. reflexivity.
    - intros d s0 Hd H0.
      destruct (@selection_finds_live ref s0 i a) as (r & s1 & Hsel & Rsel);
        [unfold J in H0; now rewrite H0|exact Hlive|].
      unfold bind at 1. rewrite Hsel.
      destruct (@for_each_ran_inv _ J
                  (fun slot evs => count_ok evs = Z.max 0 (target_actions slot))
                  (fun slots evs =>
                     count_ok evs
                     = sum_Z (map (fun slot => Z.max 0 (target_actions slot)) slots))
                  ref (time_slots d)
                  (fun time_slot =>
                     for_each (range (target_actions time_slot)) (fun action_num =>
                       try_except
                         (bind (item users action_num) (fun user =>
                            bind (add_single_member env r group user) (fun _ =>
                              update_task ref
                                (fun task => set_progress task (progress task + 1)))))
                         (fun e => ret tt))) HJ) with (s := s1)
        as (units & s2 & Hrun & Rrun & Hcount).
      + reflexivity.
      + intros slot slots e1 e2 H1 H2. rewrite count_ok_app, H1, H2. reflexivity.
      + intros slot s4 Hslot H4.
        destruct (@for_each_ran_inv _ J
                    (fun _ evs => count_ok evs = 1)
                    (fun xs evs => count_ok evs = Z.of_nat (List.length xs))
                    ref (range (target_actions slot))
                    (fun action_num =>
                       try_except
                         (bind (item users action_num) (fun user =>
                            bind (add_single_member env r group user) (fun _ =>
                              update_task ref
                                (fun task => set_progress task (progress task + 1)))))
                         (fun e => ret tt)) HJ) with (s := s4)
          as (evs & s5 & Hrun5 & Rrun5 & Hcount5).
        * reflexivity.
        * intros x xs e1 e2 H1 H2. rewrite count_ok_app, H1, H2.
          cbn [List.length]. lia.
        * intros x s6 Hx _.
          apply PlannerFacts.range_In in Hx.
          pose proof (Htargets d slot Hd Hslot) as Hle.
          destruct s6 as [rot tasks running log].
          unfold try_except, bind, item.
          destruct (nth_error users (Z.to_nat x)) as [user|] eqn:Eu.
          -- unfold add_single_member, bind, get, record_call, modify, lift, ret,
               update_task. simpl. rewrite Hsucceed.
             eexists [call_add_single_member r group user (Ok tt)], _.
             split; [reflexivity|]. split; [|reflexivity].
             unfold ran. simpl. repeat split.
          -- apply nth_error_None in Eu. unfold len in Hle. lia.
        * exact H4.
        * exists evs, s5. split; [exact Hrun5|]. split; [exact Rrun5|].
          rewrite Hcount5, PlannerFacts.range_length. lia.
      + apply (HJ _ _ _ H0 Rsel).
      + exists (call_get_best_account (Some r) :: units), s2.
        split; [exact Hrun|]. split.
        * apply (@ran_app ref [_] units s0 s1 s2); assumption.
        * change (call_get_best_account (Some r) :: units)
            with ([call_get_best_account (Some r)] ++ units).
          rewrite count_ok_app, Hcount. reflexivity. }
  destruct (@execute_scheduled_task_with
              (fun evs => count_ok evs = planned_units distribution)
              s task_id ref t Hf Hn Hs Hbody)
    as (evs & s' & Hrun & Hcount & _ & Hcalls & _ & Htasks).
  exists evs, s'. eexists.
  split; [exact Hrun|]. split; [exact Hcalls|]. split; [exact Hcount|]. split.
  { rewrite Htasks, nth_error_update_nth, Hn. reflexivity. }
  simpl. rewrite Hcount. repeat split.
Qed.

Lemma users_called_app (e1 e2 : list event) :
  users_called (e1 ++ e2) = users_called e1 ++ users_called e2.
Proof. unfold users_called. now rewrite map_app, concat_app. Qed.

Lemma firstn_succ_item {A} (m : nat) (l : list A) :
  firstn (S m) l = firstn m l ++ item_or_none (nth_error l m).
Proof.
  revert l. induction m as [|m IH]; intros [|x l]; try reflexivity.
  change (firstn (S (S m)) (x :: l)) with (x :: firstn (S m) l).
  rewrite IH. reflexivity.
Qed.

Lemma firstn_by_index {A} (m : nat) (l : list A) :
  List.concat (map (fun x => item_or_none (nth_error l (Z.to_nat x)))
                 (map Z.of_nat (seq 0 m)))
  = firstn m l.
Proof.
  induction m as [|m IH]; [reflexivity|].
  rewrite seq_S, !map_app, concat_app, IH, firstn_succ_item. simpl.
  now rewrite Nat2Z.id, app_nil_r.
Qed.

(** X29. With a LIVE account in the pool, the users handed to the
    single-action collaborator during the run of a SCHEDULED add-members
    task are, slot after slot, the first [target_actions] users of the
    task: every slot starts again at the first user, whatever the outcome
    of the calls, so a user whose position is at or beyond every slot
    target is never handed over, and the first users are handed over once
    for each slot. *)
Theorem every_slot_restarts_at_first_user (s : scheduler) (task_id : string)
  (ref : task_ref) (t : task) (group : string) (users : list string)
  (distribution : list account_distribution) :
  find_task task_id 0 (scheduled_tasks s) = Some ref ->
  nth_error (scheduled_tasks s) ref = Some t ->
  status t = "SCHEDULED" ->
  type t = ADD_MEMBERS group users distribution ->
  (exists i a, nth_error (AccountRotator.accounts (account_rotator s)) i = Some a
               /\ AccountRotator.status a = "LIVE") ->
  exists evs s',
    execute_scheduled_task env task_id s = (Ok tt, s')
    /\ calls s' = calls s ++ evs
    /\ users_called evs = planned_users users distribution.
Proof.
  intros Hf Hn Hs Ht (i & a & Ha & Hlive).
  set (J := fun s0 : scheduler => account_rotator s0 = account_rotator s).
  assert (HJ : forall s0 s1 evs, J s0 -> ran ref evs s0 s1 -> J s1).
  { unfold J. intros s0 s1 evs H0 (H1 & _). congruence. }
  assert (Hbody : forall s3, account_rotator s3 = account_rotator s ->
            exists evs s4,
              match type t with
              | ADD_MEMBERS group users distribution =>
                _execute_add_members_task env ref group users distribution
              | BULK_SCRAPE sources distribution =>
                _execute_bulk_scrape_task env ref distribution
              end s3 = (Ok tt, s4)
              /\ ran ref evs s3 s4
              /\ users_called evs = planned_users users distribution).
  { intros s3 H3. rewrite Ht. unfold _execute_add_members_task.
    apply (@for_each_ran_inv _ J
             (fun d evs =>
                users_called evs
                = List.concat
                    (map (fun slot => firstn (Z.to_nat (target_actions slot)) users)
                       (time_slots d)))
             (fun plan evs => users_called evs = planned_users users plan)); auto.
    - intros d plan e1 e2 H1 H2. rewrite users_called_app, H1, H2. reflexivity.
    - intros d s0 Hd H0.
      destruct (@selection_finds_live ref s0 i a) as (r & s1 & Hsel & Rsel);
        [unfold J in H0; now rewrite H0|exact Hlive|].
      unfold bind at 1. rewrite Hsel.
      destruct (@for_each_ran_inv _ J
                  (fun slot evs =>
                     users_called evs
                     = firstn (Z.to_nat (target_actions slot)) users)
                  (fun slots evs =>
                     users_called evs
                     = List.concat
                         (map (fun slot =>
                                 firstn (Z.to_nat (target_actions slot)) users)
                            slots))
                  ref (time_slots d)
                  (fun time_slot =>
                     for_each (range (target_actions time_slot)) (fun action_num =>
                       try_except
                         (bind (item users action_num) (fun user =>
                            bind (add_single_member env r group user) (fun _ =>
                              update_task ref
                                (fun task => set_progress task (progress task + 1)))))
                         (fun e => ret tt))) HJ) with (s := s1)
        as (units & s2 & Hrun & Rrun & Hcalled).
      + reflexivity.
      + intros slot slots e1 e2 H1 H2. rewrite users_called_app, H1, H2. reflexivity.
      + intros slot s4 Hslot H4.
        destruct (@for_each_ran_inv _ J
                    (fun x evs =>
                       users_called evs
                       = item_or_none (nth_error users (Z.to_nat x)))
                    (fun xs evs =>
                       users_called evs
                       = List.concat
                           (map (fun x => item_or_none (nth_error users (Z.to_nat x)))
                              xs))
                    ref (range (target_actions slot))
                    (fun action_num =>
                       try_except
                         (bind (item users action_num) (fun user =>
                            bind (add_single_member env r group user) (fun _ =>
                              update_task ref
                                (fun task => set_progress task (progress task + 1)))))
                         (fun e => ret tt)) HJ) with (s := s4)
          as (evs & s5 & Hrun5 & Rrun5 & Hcalled5).
        * reflexivity.
        * intros x xs e1 e2 H1 H2. rewrite users_called_app, H1, H2. reflexivity.
        * intros x s6 _ _.
          destruct (unit_ran env ref group users r x s6)
            as (evs & s7 & Hrun7 & Rrun7 & _).
          exists evs, s7. split; [exact Hrun7|]. split; [exact Rrun7|].
          revert Hrun7 Rrun7. destruct s6 as [rot tasks running log].
          unfold try_except, bind, item.
          destruct (nth_error users (Z.to_nat x)) as [user|].
          -- unfold add_single_member, bind, get, record_call, modify, lift, ret,
               update_task. simpl.
             destruct (_add_single_member env (List.length log) r group user)
               as [[]|e]; intros H (_ & _ & Hc & _); injection H as <-;
               simpl in Hc; apply app_inv_head in Hc; subst evs; reflexivity.
          -- unfold raise, ret. intros H (_ & _ & Hc & _). injection H as <-.
             simpl in Hc. rewrite <- (app_nil_r log) in Hc at 1.
             apply app_inv_head in Hc. subst evs. reflexivity.
        * exact H4.
        * exists evs, s5. split; [exact Hrun5|]. split; [exact Rrun5|].
          rewrite Hcalled5. unfold range. apply firstn_by_index.
      + apply (HJ _ _ _ H0 Rsel).
      + exists (call_get_best_account (Some r) :: units), s2.
        split; [exact Hrun|]. split.
        * apply (@ran_app ref [_] units s0 s1 s2); assumption.
        * change (call_get_best_account (Some r) :: units)
            with ([call_get_best_account (Some r)] ++ units).
          rewrite users_called_app, Hcalled. reflexivity. }
  destruct (@execute_scheduled_task_with
              (fun evs => users_called evs = planned_users users distribution)
              s task_id ref t Hf Hn Hs Hbody)
    as (evs & s' & Hrun & Hcalled & _ & Hcalls & _).
  exists evs, s'. auto.
Qed.

End Runs.

Lemma scheduled_task_runs_once_witness :
  exists evs s' t',
    execute_scheduled_task all_succeed scheduled_id two_users_scheduled = (Ok tt, s')
    /\ calls s' = calls two_users_scheduled ++ evs
    /\ run_shape all_succeed (type two_users_task) evs
    /\ nth_error (scheduled_tasks s') 0 = Some t'
    /\ status t' = "COMPLETED"
    /\ progress t' = progress two_users_task + count_ok evs
    /\ started_at t' <> None /\ completed_at t' <> None
    /\ error t' = error two_users_task
    /\ dict_get scheduled_id (running_tasks s') = None
    /\ execute_scheduled_task all_succeed scheduled_id s' = (Ok tt, s').
Proof.
  apply (@scheduled_task_runs_once all_succeed two_users_scheduled scheduled_id
           0%nat two_users_task eq_refl eq_refl eq_refl).
Defined.

Lemma scheduled_scrape_progress_within_total_witness :
  exists task_id s1 evs s2 t',
    schedule_bulk_scrape all_succeed ["a"; "b"] 100 "UTC" 0 one_account
    = (Ok task_id, s1)
    /\ execute_scheduled_task all_succeed task_id s1 = (Ok tt, s2)
    /\ calls s2 = calls one_account ++ evs
    /\ source_blocks all_succeed ["a"; "b"] evs
    /\ count_selections evs = len ["a"; "b"]
    /\ nth_error (scheduled_tasks s2) (List.length (scheduled_tasks one_account))
       = Some t'
    /\ id t' = task_id
    /\ status t' = "COMPLETED"
    /\ total_actions t' = len ["a"; "b"]
    /\ progress t' = count_ok evs
    /\ 0 <= progress t' <= total_actions t'.
Proof.
  apply (@scheduled_scrape_progress_within_total all_succeed ["a"; "b"] 100 "UTC" 0
           one_account); [reflexivity | lia | reflexivity].
Defined.

Lemma no_live_account_no_action_witness :
  exists evs s' t',
    execute_scheduled_task all_succeed scheduled_id scheduled_then_banned
    = (Ok tt, s')
    /\ calls s' = calls scheduled_then_banned ++ evs
    /\ Forall (fun ev => ev = call_get_best_account None) evs
    /\ count_units evs = 0 /\ count_scrapes evs = 0
    /\ nth_error (scheduled_tasks s') 0 = Some t'
    /\ status t' = "COMPLETED"
    /\ progress t' = progress two_users_task.
Proof.
  apply (@no_live_account_no_action all_succeed scheduled_then_banned scheduled_id
           0%nat two_users_task eq_refl eq_refl eq_refl).
  intros a [<-|[]]. discriminate.
Defined.

Lemma progress_counts_planned_units_witness :
  exists evs s' t',
    execute_scheduled_task all_succeed "add_members_19700101_090000"
      twenty_users_scheduled = (Ok tt, s')
    /\ calls s' = calls twenty_users_scheduled ++ evs
    /\ count_ok evs = 22
    /\ nth_error (scheduled_tasks s') 0 = Some t'
    /\ status t' = "COMPLETED"
    /\ total_actions t' = 20
    /\ progress t' = 0 + 22.
Proof.
  apply (@progress_counts_planned_units all_succeed twenty_users_scheduled
           "add_members_19700101_090000" 0%nat twenty_users_task "group"
           twenty_users twenty_users_plan eq_refl eq_refl eq_refl eq_refl).
  - intros k a g u. reflexivity.
  - exists 0%nat. eexists. split; reflexivity.
  - intros d slot [<-|[]] Hslot. vm_compute in Hslot.
    destruct Hslot as [<-|[<-|[]]]; vm_compute; discriminate.
Defined.

Lemma every_slot_restarts_at_first_user_witness :
  exists evs s',
    execute_scheduled_task all_fail "add_members_19700101_090000"
      twenty_users_scheduled = (Ok tt, s')
    /\ calls s' = calls twenty_users_scheduled ++ evs
    /\ users_called evs = planned_users twenty_users twenty_users_plan.
Proof.
  apply (@every_slot_restarts_at_first_user all_fail twenty_users_scheduled
           "add_members_19700101_090000" 0%nat twenty_users_task "group"
           twenty_users twenty_users_plan eq_refl eq_refl eq_refl eq_refl).
  exists 0%nat. eexists. split; reflexivity.
Defined.

End ExecutorExtra.
